(** * diss-data: research labelling, feature extraction and deployment validation

    A shallow embedding of the decision logic of
      - [src/research_labelling.py]      (class [ResearchBasedLabeler]),
      - [src/data_exploration.py]        ([BPIDataExplorer.extract_training_features]),
      - [src/aws_bedrock_deployment/deployment_scripts/validate_system.py]
                                         (class [SystemValidator] and [main]),
      - [src/data_validation.py]         (class [DataValidationSuite]),
    followed by the properties of the specification that concern them.

    Conventions of the embedding.
      - Python [int] is [Z]; Python [float] is [Q].  Every float that the
        code compares is compared with an integer literal, and such
        comparisons are exact, so rationals describe them faithfully for
        finite values.  Sums of the decimal constants (45.3, 0.25, ...) are
        taken exactly, without binary rounding.  The scores of
        [data_validation.py] are quotients of small counts, compared with
        the decimal thresholds 0.6 to 0.9; what is proved about them holds
        with a margin that rounding does not reach.
      - Python [str] is [string], the bytes of its UTF-8 encoding; [dict]s
        with string keys are [gmap string _];
        [d[k]] is [subscript] (it raises [KeyError]), [d.get(k, v)] is [get].
      - Exceptions are the [Raise] outcome of the [result] monad.  Code that
        fills a dictionary inside [try: ... except Exception] runs in the
        state-and-exception monad [Validator.SE], whose [try_] keeps the
        entries written before the exception. *)

From Stdlib Require Import ZArith QArith Lqa String Ascii List Bool Lia Sorted.
From stdpp Require Import base option gmap strings list.

Local Open Scope string_scope.
Local Open Scope list_scope.
Local Open Scope Z_scope.

(** ** A small Python prelude *)

Module Py.

(** The exceptions the modelled code can meet. *)
Inductive exn : Type :=
| KeyError (key : string)
| TypeError
| AttributeError
| ClientError (msg : string)
| JSONDecodeError.

Inductive result (A : Type) : Type :=
| Ok (a : A)
| Raise (e : exn).
Arguments Ok {A} a.
Arguments Raise {A} e.

#[global] Instance result_ret : MRet result := fun _ a => Ok a.
#[global] Instance result_bind : MBind result := fun _ _ f m =>
  match m with
  | Ok a => f a
  | Raise e => Raise e
  end.

(** [d[k]] on a dictionary. *)
Definition subscript {V} (d : gmap string V) (k : string) : result V :=
  match d !! k with
  | Some v => Ok v
  | None => Raise (KeyError k)
  end.

(** [d.get(k, dflt)] on a dictionary. *)
Definition get {V} (d : gmap string V) (k : string) (dflt : V) : V :=
  default dflt (d !! k).

(** Numeric comparisons [x > y], [x >= y] and the two-argument [min]. *)
Definition Qgtb (x y : Q) : bool := negb (Qle_bool x y).
Definition Qgeb (x y : Q) : bool := Qle_bool y x.

(** [min(x, y)]: the first argument unless the second is strictly smaller. *)
Definition min (x y : Q) : Q := if Qgtb x y then y else x.

(** Truthiness of an optional number: [None] and zero are falsy. *)
Definition truthy (o : option Q) : bool :=
  match o with
  | None => false
  | Some q => negb (Qeq_bool q 0)
  end.

(** [needle in haystack] on strings. *)
Fixpoint contains (needle haystack : string) : bool :=
  String.prefix needle haystack ||
  match haystack with
  | EmptyString => false
  | String _ rest => contains needle rest
  end.

(** Upper and lower case of the ASCII letters, and [s.lower()] on them. *)
Definition upper_ascii (c : ascii) : ascii :=
  let n := nat_of_ascii c in
  if ((97 <=? n) && (n <=? 122))%nat then ascii_of_nat (n - 32) else c.

Definition lower_ascii (c : ascii) : ascii :=
  let n := nat_of_ascii c in
  if ((65 <=? n) && (n <=? 90))%nat then ascii_of_nat (n + 32) else c.

Fixpoint lower (s : string) : string :=
  match s with
  | EmptyString => EmptyString
  | String c rest => String (lower_ascii c) (lower rest)
  end.

(** [series.str.contains(pat, case=False)] for a literal pattern of ASCII
    characters.  pandas searches the text with [re.compile(pat,
    re.IGNORECASE)], which compares character by character: a character of
    the text matches an ASCII letter of the pattern when it is that letter
    in either case, and besides U+017F (long s) matches S, U+212A (the
    Kelvin sign) matches K, and U+0130 and U+0131 (capital I with a dot,
    small i without) match I; no other character matches an ASCII letter.
    In UTF-8 these four are the bytes C5 BF, E2 84 AA, C4 B0 and C4 B1.
    [casefold] writes the upper-case ASCII letter for every character that
    matches one and keeps all other bytes, so that the search becomes a
    search for the folded pattern in the folded text. *)
Fixpoint casefold (s : string) : string :=
  match s with
  | EmptyString => EmptyString
  | String "197"%char (String "191"%char rest) => String "S"%char (casefold rest)
  | String "226"%char (String "132"%char (String "170"%char rest)) =>
      String "K"%char (casefold rest)
  | String "196"%char (String "176"%char rest) => String "I"%char (casefold rest)
  | String "196"%char (String "177"%char rest) => String "I"%char (casefold rest)
  | String c rest => String (upper_ascii c) (casefold rest)
  end.

Definition contains_nocase (pat s : string) : bool :=
  contains (casefold pat) (casefold s).

End Py.

Import Py.

(** ** research_labelling.py *)

Module Labelling.

(** One row of a features table, as [row.to_dict()] hands it to the
    labeler; the keys the labeler reads with [get] are all present in such a
    row.  [approval_time_days] is [None] when the case has no submit/approve
    pair (a missing value that reaches the labeler as NaN is truthy but
    compares false with every threshold, so it yields no finding either). *)
Record CaseFeatures : Type := {
  case_id : string;
  total_duration_days : Q;
  activity_count : Z;
  unique_activities : Z;
  has_rejections : bool;
  rejection_count : Z;
  is_international : bool;
  approval_time_days : option Q
}.

(** One entry of [labels].  Every entry carries the keys ['type'],
    ['severity'], ['actual_value'] and ['framework_violation']; the
    remaining descriptive keys differ per rule and are kept in [details]. *)
Record Finding : Type := {
  type_ : string;
  severity : string;
  actual_value : Q;
  details : list (string * string);
  framework_violation : gmap string string
}.

Record ResearchBasedLabeler : Type := {
  thresholds : gmap string Q;
  framework_mappings : gmap string (gmap string string)
}.

(** [ResearchBasedLabeler.__init__] *)
Definition init : ResearchBasedLabeler := {|
  thresholds := list_to_map [
    ("domestic_normal_duration", 11%Q);
    ("domestic_excessive_duration", 20%Q);
    ("international_normal_duration", 86%Q);
    ("international_excessive_duration", 150%Q);
    ("supervisor_approval_bottleneck", 30%Q);
    ("director_approval_bottleneck", 45%Q);
    ("excessive_rejections", 2%Q);
    ("budget_variance_threshold", 0.3%Q);
    ("late_submission_days", 60%Q) ];
  framework_mappings := list_to_map [
    ("supervisor_approval_bottleneck", list_to_map [
       ("lean_waste", "waiting");
       ("agile_principle", "working_software_over_documentation");
       ("optimization", "increase_supervisors_or_delegation") ]);
    ("director_approval_bottleneck", list_to_map [
       ("lean_waste", "waiting");
       ("agile_principle", "responding_to_change");
       ("optimization", "implement_escalation_rules") ]);
    ("excessive_rejections", list_to_map [
       ("lean_waste", "defects");
       ("agile_principle", "working_software_over_documentation");
       ("optimization", "implement_pre_validation_checks") ]);
    ("excessive_duration", list_to_map [
       ("lean_waste", "waiting");
       ("agile_principle", "deliver_working_software_frequently");
       ("optimization", "streamline_approval_process") ]);
    ("late_submission", list_to_map [
       ("lean_waste", "transportation");
       ("agile_principle", "deliver_working_software_frequently");
       ("optimization", "implement_automated_reminders") ]) ]
|}.

(** The result dictionary of [label_case_inefficiencies]. *)
Record Labels : Type := {
  inefficiencies : list Finding;
  severity_score : Z;
  total_inefficiency_count : Z;
  optimization_potential : Q
}.

(** The loop body of [_calculate_optimization_potential]: the
    [if]/[elif] chain on [inefficiency['type']]. *)
Definition add_potential (improvement_potential : Q) (inefficiency : Finding) : Q :=
  let t := type_ inefficiency in
  if (t =? "supervisor_approval_bottleneck")%string then (improvement_potential + 45.3)%Q
  else if (t =? "excessive_duration_international")%string then (improvement_potential + 30)%Q
  else if (t =? "excessive_duration_domestic")%string then (improvement_potential + 50)%Q
  else if (t =? "excessive_rejections")%string then (improvement_potential + 20)%Q
  else if (t =? "process_complexity")%string then (improvement_potential + 15)%Q
  else improvement_potential.

Definition _calculate_optimization_potential
    (inefficiencies : list Finding) (case_features : CaseFeatures) : Q :=
  match inefficiencies with
  | [] => 0%Q
  | _ => Py.min (fold_left add_potential inefficiencies 0%Q) 80%Q
  end.

(** The running state of [label_case_inefficiencies]: [labels] and
    [severity_score]. *)
Definition LabelState : Type := (list Finding * Z)%type.

(** Lines 80-99: duration-based inefficiencies. *)
Definition duration_rule (self : ResearchBasedLabeler) (case_features : CaseFeatures)
    (st : LabelState) : result LabelState :=
  let '(labels, severity_score) := st in
  let duration := total_duration_days case_features in
  if is_international case_features then
    limit ← subscript (thresholds self) "international_excessive_duration";
    if Qgtb duration limit then
      fv ← subscript (framework_mappings self) "excessive_duration";
      mret (labels ++ [ {| type_ := "excessive_duration_international";
                           severity := if Qgtb duration 200 then "high" else "medium";
                           actual_value := duration;
                           details := [("expected_range", "66-86 days")];
                           framework_violation := fv |} ],
            severity_score + (if Qgtb duration 200 then 3 else 2))
    else mret st
  else
    limit ← subscript (thresholds self) "domestic_excessive_duration";
    if Qgtb duration limit then
      fv ← subscript (framework_mappings self) "excessive_duration";
      mret (labels ++ [ {| type_ := "excessive_duration_domestic";
                           severity := if Qgtb duration 30 then "high" else "medium";
                           actual_value := duration;
                           details := [("expected_range", "8-11 days")];
                           framework_violation := fv |} ],
            severity_score + (if Qgtb duration 30 then 3 else 2))
    else mret st.

(** Lines 101-113: approval bottlenecks. *)
Definition approval_rule (self : ResearchBasedLabeler) (case_features : CaseFeatures)
    (st : LabelState) : result LabelState :=
  let '(labels, severity_score) := st in
  let approval_time := approval_time_days case_features in
  if truthy approval_time then
    match approval_time with
    | Some approval_time =>
        limit ← subscript (thresholds self) "supervisor_approval_bottleneck";
        if Qgtb approval_time limit then
          fv ← subscript (framework_mappings self) "supervisor_approval_bottleneck";
          mret (labels ++ [ {| type_ := "supervisor_approval_bottleneck";
                               severity := if Qgtb approval_time 50 then "high" else "medium";
                               actual_value := approval_time;
                               details := [("expected_value", "3-5 days");
                                           ("research_finding",
                                            "39 days average (45.3% of total process time)")];
                               framework_violation := fv |} ],
                severity_score + 3)
        else mret st
    | None => mret st
    end
  else mret st.

(** Lines 115-127: rejection inefficiencies.  The f-string
    [f'{expected_rejection_rate:.0%}'] prints 0.27 as 27% and 0.12 as 12%. *)
Definition rejection_rule (self : ResearchBasedLabeler) (case_features : CaseFeatures)
    (st : LabelState) : result LabelState :=
  let '(labels, severity_score) := st in
  let rejection_count := rejection_count case_features in
  limit ← subscript (thresholds self) "excessive_rejections";
  if Qgtb (inject_Z rejection_count) limit then
    let expected_rejection_rate :=
      if is_international case_features then "27%" else "12%" in
    fv ← subscript (framework_mappings self) "excessive_rejections";
    mret (labels ++ [ {| type_ := "excessive_rejections";
                         severity := if rejection_count >? 3 then "high" else "medium";
                         actual_value := inject_Z rejection_count;
                         details := [("expected_rate", expected_rejection_rate);
                                     ("research_finding",
                                      String.append "Normal rejection rate: " expected_rejection_rate)];
                         framework_violation := fv |} ],
          severity_score + 2)
  else mret st.

(** Lines 129-143: activity complexity. *)
Definition complexity_rule (case_features : CaseFeatures) (st : LabelState) : LabelState :=
  let '(labels, severity_score) := st in
  let activity_count := activity_count case_features in
  if activity_count >? 20 then
    (labels ++ [ {| type_ := "process_complexity";
                    severity := "medium";
                    actual_value := inject_Z activity_count;
                    details := [("expected_range", "8-15 activities")];
                    framework_violation := list_to_map [
                      ("lean_waste", "overprocessing");
                      ("agile_principle", "simplicity");
                      ("optimization", "consolidate_approval_steps") ] |} ],
     severity_score + 1)
  else st.

Definition label_case_inefficiencies (self : ResearchBasedLabeler)
    (case_features : CaseFeatures) : result Labels :=
  st ← duration_rule self case_features ([], 0);
  st ← approval_rule self case_features st;
  st ← rejection_rule self case_features st;
  let '(labels, severity_score) := complexity_rule case_features st in
  mret {| inefficiencies := labels;
          severity_score := severity_score;
          total_inefficiency_count := Z.of_nat (length labels);
          optimization_potential :=
            _calculate_optimization_potential labels case_features |}.

(** The two lookup tables of the recommendation generator. *)
Definition recommendations : gmap string string := list_to_map [
  ("supervisor_approval_bottleneck",
   "Increase number of supervisors or implement delegation rules. Consider automated pre-approval for low-value requests.");
  ("director_approval_bottleneck",
   "Implement escalation rules. Director approval should only be required for high-value or high-risk requests.");
  ("excessive_rejections",
   "Implement pre-validation checks and automated compliance screening before submission.");
  ("excessive_duration_international",
   "Streamline international approval process. Consider regional approval authorities.");
  ("excessive_duration_domestic",
   "Implement automated approval for standard domestic travel below threshold amounts.");
  ("process_complexity",
   "Consolidate approval steps. Remove redundant activities and parallel process where possible.");
  ("late_submission",
   "Implement automated reminder system and mobile expense reporting capabilities.") ].

Definition improvements : gmap string string := list_to_map [
  ("supervisor_approval_bottleneck", "30-50% reduction in approval time");
  ("director_approval_bottleneck", "40-60% reduction in high-level approval time");
  ("excessive_rejections", "2-14 day reduction in rework cycles");
  ("excessive_duration_international", "20-30% reduction in total process time");
  ("excessive_duration_domestic", "40-60% reduction in total process time");
  ("process_complexity", "15-25% reduction in administrative overhead");
  ("late_submission", "80% reduction in late submissions") ].

Definition _get_recommendation (inefficiency_type : string) : string :=
  get recommendations inefficiency_type "Review and optimize process flow".

Definition _get_expected_improvement (inefficiency_type : string) : string :=
  get improvements inefficiency_type "10-20% general improvement".

Record Recommendation : Type := {
  rec_inefficiency_type : string;
  rec_recommendation : string;
  rec_expected_improvement : string;
  rec_framework_basis : string;
  rec_lean_principle : string;
  rec_agile_principle : string
}.

Definition generate_optimization_recommendations
    (inefficiencies : list Finding) : list Recommendation :=
  map (fun inefficiency =>
         let inefficiency_type := type_ inefficiency in
         let framework_info := framework_violation inefficiency in
         {| rec_inefficiency_type := inefficiency_type;
            rec_recommendation := _get_recommendation inefficiency_type;
            rec_expected_improvement := _get_expected_improvement inefficiency_type;
            rec_framework_basis :=
              get framework_info "optimization" "general_process_improvement";
            rec_lean_principle := get framework_info "lean_waste" "unknown";
            rec_agile_principle := get framework_info "agile_principle" "unknown" |})
      inefficiencies.

(** The bucket expression of line 251. *)
Definition severity_level (severity_score : Z) : string :=
  if severity_score >=? 5 then "high"
  else if severity_score >=? 2 then "medium"
  else "low".

Record TrainingLabel : Type := {
  tl_has_inefficiencies : bool;
  tl_severity_level : string;
  tl_primary_bottleneck : option string;
  tl_optimization_potential_percent : Q
}.

Record LabeledCase : Type := {
  lc_case_id : string;
  lc_input_features : CaseFeatures;
  lc_inefficiency_labels : Labels;
  lc_optimization_recommendations : list Recommendation;
  lc_training_label : TrainingLabel
}.

(** The body of the loop of [label_dataset], for one row. *)
Definition label_row (self : ResearchBasedLabeler) (case_features : CaseFeatures)
    : result LabeledCase :=
  labels ← label_case_inefficiencies self case_features;
  let recommendations := generate_optimization_recommendations (inefficiencies labels) in
  mret {| lc_case_id := case_id case_features;
          lc_input_features := case_features;
          lc_inefficiency_labels := labels;
          lc_optimization_recommendations := recommendations;
          lc_training_label := {|
            tl_has_inefficiencies := (0 <? Z.of_nat (length (inefficiencies labels)));
            tl_severity_level := severity_level (severity_score labels);
            tl_primary_bottleneck := type_ <$> head (inefficiencies labels);
            tl_optimization_potential_percent := optimization_potential labels |} |}.

Fixpoint label_dataset (self : ResearchBasedLabeler) (features_df : list CaseFeatures)
    : result (list LabeledCase) :=
  match features_df with
  | [] => mret []
  | row :: rest =>
      labeled_case ← label_row self row;
      labeled_data ← label_dataset self rest;
      mret (labeled_case :: labeled_data)
  end.

(** What a rule contributes when started from the empty state: the
    findings it appends and the weight it adds.  [LabellingFacts] shows
    that on the tables of [init] every rule appends exactly these to any
    state. *)
Definition outcome (r : result LabelState) : LabelState :=
  match r with
  | Ok st => st
  | Raise _ => ([], 0)
  end.

Definition duration_findings (cf : CaseFeatures) : list Finding :=
  (outcome (duration_rule init cf ([], 0))).1.
Definition duration_weight (cf : CaseFeatures) : Z :=
  (outcome (duration_rule init cf ([], 0))).2.
Definition approval_findings (cf : CaseFeatures) : list Finding :=
  (outcome (approval_rule init cf ([], 0))).1.
Definition approval_weight (cf : CaseFeatures) : Z :=
  (outcome (approval_rule init cf ([], 0))).2.
Definition rejection_findings (cf : CaseFeatures) : list Finding :=
  (outcome (rejection_rule init cf ([], 0))).1.
Definition rejection_weight (cf : CaseFeatures) : Z :=
  (outcome (rejection_rule init cf ([], 0))).2.
Definition complexity_findings (cf : CaseFeatures) : list Finding :=
  (complexity_rule cf ([], 0)).1.
Definition complexity_weight (cf : CaseFeatures) : Z :=
  (complexity_rule cf ([], 0)).2.

(** The same row with another [approval_time_days]. *)
Definition with_approval_time (cf : CaseFeatures) (a : option Q) : CaseFeatures :=
  {| case_id := case_id cf;
     total_duration_days := total_duration_days cf;
     activity_count := activity_count cf;
     unique_activities := unique_activities cf;
     has_rejections := has_rejections cf;
     rejection_count := rejection_count cf;
     is_international := is_international cf;
     approval_time_days := a |}.

(** The normal-range ceiling of the threshold table for a case:
    [international_normal_duration] or [domestic_normal_duration]. *)
Definition normal_duration_ceiling (self : ResearchBasedLabeler)
    (is_international : bool) : result Q :=
  subscript (thresholds self)
    (if is_international then "international_normal_duration"
     else "domestic_normal_duration").

(** The finding types of the data model, and those the rules emit. *)
Definition enumerated_types : list string :=
  [ "excessive_duration_domestic"; "excessive_duration_international";
    "supervisor_approval_bottleneck"; "director_approval_bottleneck";
    "excessive_rejections"; "process_complexity" ].

Definition emitted_types : list string :=
  [ "excessive_duration_international"; "excessive_duration_domestic";
    "supervisor_approval_bottleneck"; "excessive_rejections";
    "process_complexity" ].

(** Number of findings of a given type in a list. *)
Definition count_type (t : string) (fs : list Finding) : nat :=
  length (filter (fun f => type_ f = t) fs).

(** The mappings the rules read from [framework_mappings]. *)
Definition duration_mapping : gmap string string :=
  get (framework_mappings init) "excessive_duration" ∅.
Definition supervisor_mapping : gmap string string :=
  get (framework_mappings init) "supervisor_approval_bottleneck" ∅.
Definition rejections_mapping : gmap string string :=
  get (framework_mappings init) "excessive_rejections" ∅.

Definition supervisor : string := "supervisor_approval_bottleneck".

(** The defaults of the two recommendation lookups. *)
Definition default_recommendation : string := "Review and optimize process flow".
Definition default_improvement : string := "10-20% general improvement".

(** Two sample rows: one without any violation, one with a slow approval. *)
Definition quiet_case : CaseFeatures :=
  {| case_id := "case-1"; total_duration_days := 10; activity_count := 7;
     unique_activities := 5; has_rejections := true; rejection_count := 2;
     is_international := false; approval_time_days := Some 30%Q |}.

Definition slow_approval_case : CaseFeatures :=
  {| case_id := "case-2"; total_duration_days := 18; activity_count := 9;
     unique_activities := 6; has_rejections := false; rejection_count := 0;
     is_international := false; approval_time_days := Some 42%Q |}.

(** The excessive-duration limit, the mark above which a duration finding
    is "high", and the type of the duration finding, for each kind of case. *)
Definition duration_limit (is_international : bool) : Q :=
  if is_international then 150%Q else 20%Q.

Definition duration_high_mark (is_international : bool) : Q :=
  if is_international then 200%Q else 30%Q.

Definition duration_type (is_international : bool) : string :=
  if is_international then "excessive_duration_international"
  else "excessive_duration_domestic".

(** The fields of a row that the rules read. *)
Definition rule_inputs (cf : CaseFeatures) : Q * bool * option Q * Z * Z :=
  (total_duration_days cf, is_international cf, approval_time_days cf,
   rejection_count cf, activity_count cf).

(** The types of a list of findings, in order. *)
Definition finding_types (fs : list Finding) : list string := map type_ fs.

End Labelling.

(** ** data_exploration.py *)

Module Exploration.

(** One row of the event frame that [pm4py.convert_to_dataframe] yields:
    the columns ['case:concept:name'], ['concept:name'] and
    ['time:timestamp'] (in seconds).  A dataset is kept as that frame; a
    stored log that the conversion refuses (it raises for a log without
    events, which has no columns) has no frame and lies outside this
    model, so what is stated about a loaded dataset is stated about a
    dataset whose conversion returns. *)
Record Event : Type := {
  case_concept_name : string;
  concept_name : string;
  time_timestamp : Q
}.

Record BPIDataExplorer : Type := {
  datasets : gmap string (list Event)
}.

(** [series.unique()]: the distinct values in order of first appearance. *)
Fixpoint unique (l : list string) : list string :=
  match l with
  | [] => []
  | x :: rest => x :: filter (fun y => y <> x) (unique rest)
  end.

(** [df.sort_values('time:timestamp')], as a stable insertion sort: rows
    with equal timestamps keep their order in the frame.  The default sort
    of pandas does not promise an order for such rows; the properties below
    rely only on the result being the same rows ordered by time. *)
Fixpoint insert_by_time (e : Event) (sorted : list Event) : list Event :=
  match sorted with
  | [] => [e]
  | e' :: rest =>
      if Qgeb (time_timestamp e') (time_timestamp e)
      then e :: e' :: rest
      else e' :: insert_by_time e rest
  end.

Definition sort_values (df : list Event) : list Event :=
  fold_right insert_by_time [] df.

(** [series.max()] and [series.min()] of a column of timestamps. *)
Definition series_max (ts : list Q) : option Q :=
  match ts with
  | [] => None
  | t :: rest => Some (fold_left (fun m x => if Qgtb x m then x else m) rest t)
  end.

Definition series_min (ts : list Q) : option Q :=
  match ts with
  | [] => None
  | t :: rest => Some (fold_left (fun m x => if Qgtb m x then x else m) rest t)
  end.

Record Features : Type := {
  case_id : string;
  total_duration_days : Q;
  activity_count : Z;
  unique_activities : Z;
  has_rejections : bool;
  rejection_count : Z;
  is_international : bool;
  activities_sequence : list string;
  timestamps : list Q;
  approval_time_days : option Q
}.

(** The body of the loop of [extract_training_features] for one case id
    (lines 129-155).  A case id comes from the frame itself, so
    [case_events] is never empty and the duration is always defined. *)
Definition case_features (dataset_name : string) (df : list Event) (case_id : string)
    : Features :=
  let case_events :=
    sort_values (filter (fun e => case_concept_name e = case_id) df) in
  let names := map concept_name case_events in
  let times := map time_timestamp case_events in
  let submitted_events :=
    filter (fun e => contains_nocase "SUBMITTED" (concept_name e) = true) case_events in
  let approved_events :=
    filter (fun e => contains_nocase "APPROVED" (concept_name e) = true) case_events in
  {| case_id := case_id;
     total_duration_days :=
       match series_max times, series_min times with
       | Some latest, Some earliest => ((latest - earliest) / 86400)%Q
       | _, _ => 0%Q
       end;
     activity_count := Z.of_nat (length case_events);
     unique_activities := Z.of_nat (length (unique names));
     has_rejections := existsb (fun act => contains "REJECT" act) names;
     rejection_count :=
       Z.of_nat (length (filter (fun act => contains "REJECT" act = true) names));
     is_international := contains "international" (lower dataset_name);
     activities_sequence := names;
     timestamps := times;
     approval_time_days :=
       match submitted_events, approved_events with
       | s :: _, a :: _ => Some ((time_timestamp a - time_timestamp s) / 86400)%Q
       | _, _ => None
       end |}.

(** [extract_training_features]: [None] for a dataset that is not loaded,
    otherwise one record per case id. *)
Definition extract_training_features (self : BPIDataExplorer) (dataset_name : string)
    : option (list Features) :=
  match datasets self !! dataset_name with
  | None => None
  | Some df =>
      Some (map (case_features dataset_name df) (unique (map case_concept_name df)))
  end.

(** The rejection pattern of [identify_bottlenecks] (line 112):
    [str.contains('REJECT|DECLINED', na=False, case=False)]. *)
Definition rejection_pattern (act : string) : bool :=
  contains_nocase "REJECT" act || contains_nocase "DECLINED" act.

(** The rejection features as the specification words them: an activity
    matches when its name contains "reject" or "declined", whatever the
    case of the letters. *)
Definition spec_is_rejection (act : string) : bool :=
  contains (lower "reject") (lower act) || contains (lower "declined") (lower act).

Definition spec_has_rejections (names : list string) : bool :=
  existsb spec_is_rejection names.

Definition spec_rejection_count (names : list string) : Z :=
  Z.of_nat (length (filter (fun act => spec_is_rejection act = true) names)).

(** The rows of one case, in the order of the frame. *)
Definition case_rows (df : list Event) (case_id : string) : list Event :=
  filter (fun e => case_concept_name e = case_id) df.

(** Not later than. *)
Definition earlier (a b : Event) : Prop :=
  (time_timestamp a <= time_timestamp b)%Q.

(** Days between two timestamps. *)
Definition days_between (a b : Q) : Q := ((b - a) / 86400)%Q.

(** [sum(column)] of an integer column. *)
Definition column_sum (column : list Z) : Z := fold_right Z.add 0 column.

(** A frame with two cases. *)
Definition sample_frame : list Event :=
  [ {| case_concept_name := "declaration 1";
       concept_name := "Declaration SUBMITTED by EMPLOYEE"; time_timestamp := 0 |};
    {| case_concept_name := "declaration 2";
       concept_name := "Declaration SUBMITTED by EMPLOYEE"; time_timestamp := 3600 |};
    {| case_concept_name := "declaration 1";
       concept_name := "Declaration APPROVED by SUPERVISOR"; time_timestamp := 86400 |} ].

End Exploration.

(** ** aws_bedrock_deployment/deployment_scripts/validate_system.py *)

Module Validator.

(** *** Code that fails while it updates a dictionary

    A computation over a state [S] that either returns or raises; the
    state reached when an exception is raised is kept, as the mutations of
    a Python dictionary are. *)
Definition SE (S A : Type) : Type := S -> result A * S.

#[global] Instance SE_ret {S} : MRet (SE S) := fun _ a s => (Ok a, s).
#[global] Instance SE_bind {S} : MBind (SE S) := fun _ _ f m s =>
  match m s with
  | (Ok a, s') => f a s'
  | (Raise e, s') => (Raise e, s')
  end.

Definition lift {S A} (r : result A) : SE S A := fun s => (r, s).
Definition modify {S} (f : S -> S) : SE S unit := fun s => (Ok tt, f s).

(** [try: body except Exception as e: handler(e)] *)
Definition try_ {S A} (body : SE S A) (handler : exn -> SE S A) : SE S A :=
  fun s =>
    match body s with
    | (Ok a, s') => (Ok a, s')
    | (Raise e, s') => handler e s'
    end.

(** *** Parsed JSON documents and the operations the validator applies *)
#[local] Unset Elimination Schemes.
Inductive json : Type :=
| JNull
| JBool (b : bool)
| JNum (q : Q)
| JStr (s : string)
| JArr (items : list json)
| JObj (members : gmap string json).
#[local] Set Elimination Schemes.

(** [d.get(k, dflt)]: only dictionaries have [get]. *)
Definition json_get (d : json) (k : string) (dflt : json) : result json :=
  match d with
  | JObj members => Ok (default dflt (members !! k))
  | _ => Raise AttributeError
  end.

(** [len(v)] *)
Definition json_len (v : json) : result Z :=
  match v with
  | JObj members => Ok (Z.of_nat (size members))
  | JArr items => Ok (Z.of_nat (length items))
  | JStr s => Ok (Z.of_nat (String.length s))
  | _ => Raise TypeError
  end.

(** [k in v] for a string [k] *)
Definition json_in (k : string) (v : json) : result bool :=
  match v with
  | JObj members => Ok (bool_decide (is_Some (members !! k)))
  | JArr items =>
      Ok (existsb (fun item => match item with
                               | JStr s => (s =? k)%string
                               | _ => false
                               end) items)
  | JStr s => Ok (contains k s)
  | _ => Raise TypeError
  end.

(** *** The external services

    The responses of the storage, database and model clients, reduced to
    the fields the validator reads.  [Raise] is a failed call. *)
Record HeadObjectResponse : Type := {
  ContentLength : Z;
  LastModified : string
}.

Record Clients : Type := {
  head_bucket : string -> result unit;
  describe_table : string -> result string;
  list_foundation_models : result (list string);
  head_object : string -> string -> result HeadObjectResponse;
  get_object : string -> string -> result string;
  json_loads : string -> result json;
  scan : string -> result (list (gmap string (gmap string string)))
}.

Definition bucket : string := "workflow-optimization-data".

(** *** The result dictionaries *)
Record InfrastructureResults : Type := {
  s3_bucket : bool;
  dynamodb_tables : gmap string bool;
  iam_roles : bool;
  bedrock_access : bool
}.

Record FileEntry : Type := {
  exists_ : bool;
  size_ : option Z;
  last_modified : option string;
  error : option exn
}.

Record DataResults : Type := {
  training_data : gmap string FileEntry;
  framework_knowledge_files : gmap string FileEntry;
  validation_data : gmap string FileEntry;
  data_quality_score : Q
}.

Record AgileFramework : Type := {
  core_values_count : Z;
  principles_count : Z;
  detection_rules_count : Z;
  agile_valid_structure : bool
}.

Record LeanFramework : Type := {
  seven_wastes_count : Z;
  lean_principles_count : Z;
  lean_detection_rules_count : Z;
  lean_valid_structure : bool
}.

Record OperatingModel : Type := {
  mckinsey_elements_count : Z;
  violations_count : Z;
  patterns_count : Z;
  om_valid_structure : bool
}.

Record IntegrationRules : Type := {
  optimization_recommendations_count : Z;
  synergies_count : Z;
  detection_framework_exists : bool;
  integration_valid_structure : bool
}.

(** The four sub-dictionaries start empty ([None]). *)
Record FrameworkResults : Type := {
  agile_framework : option AgileFramework;
  lean_framework : option LeanFramework;
  operating_model : option OperatingModel;
  integration_rules : option IntegrationRules;
  knowledge_completeness_score : Q;
  framework_validation_error : option exn
}.

(** Of the sub-dictionaries of the research results only the two entries
    that are computed are kept; the others hold constants. *)
Record ResearchResults : Type := {
  benchmarks_implemented : option bool;
  agile_source_cited : option bool;
  methodology_rigor : bool;
  empirical_validation : bool;
  compliance_score : Q;
  research_validation_error : option exn
}.

Record ConfigItem : Type := {
  value : string;
  data_type : string;
  environment : string
}.

Record ConfigResults : Type := {
  configuration_items : gmap string ConfigItem;
  valid_settings : bool;
  configuration_completeness : Q;
  missing_configurations : option (list string);
  config_validation_error : option exn
}.

(** [self.results].  A category that holds the empty dictionary is [None]. *)
Record Results : Type := {
  infrastructure : option InfrastructureResults;
  data_validation : option DataResults;
  framework_knowledge : option FrameworkResults;
  research_compliance : option ResearchResults;
  overall_score : Q;
  component_scores : list (string * Q);
  validation_error : option exn
}.

(** [SystemValidator.__init__]: the initial [self.results]. *)
Definition init_results : Results := {|
  infrastructure := None;
  data_validation := None;
  framework_knowledge := None;
  research_compliance := None;
  overall_score := 0;
  component_scores := [];
  validation_error := None
|}.

Definition set_infrastructure (v : InfrastructureResults) (r : Results) : Results :=
  {| infrastructure := Some v;
     data_validation := data_validation r;
     framework_knowledge := framework_knowledge r;
     research_compliance := research_compliance r;
     overall_score := overall_score r;
     component_scores := component_scores r;
     validation_error := validation_error r |}.

Definition set_data_validation (v : DataResults) (r : Results) : Results :=
  {| infrastructure := infrastructure r;
     data_validation := Some v;
     framework_knowledge := framework_knowledge r;
     research_compliance := research_compliance r;
     overall_score := overall_score r;
     component_scores := component_scores r;
     validation_error := validation_error r |}.

Definition set_framework_knowledge (v : FrameworkResults) (r : Results) : Results :=
  {| infrastructure := infrastructure r;
     data_validation := data_validation r;
     framework_knowledge := Some v;
     research_compliance := research_compliance r;
     overall_score := overall_score r;
     component_scores := component_scores r;
     validation_error := validation_error r |}.

Definition set_research_compliance (v : ResearchResults) (r : Results) : Results :=
  {| infrastructure := infrastructure r;
     data_validation := data_validation r;
     framework_knowledge := framework_knowledge r;
     research_compliance := Some v;
     overall_score := overall_score r;
     component_scores := component_scores r;
     validation_error := validation_error r |}.

Definition set_scores (overall : Q) (components : list (string * Q)) (r : Results)
    : Results :=
  {| infrastructure := infrastructure r;
     data_validation := data_validation r;
     framework_knowledge := framework_knowledge r;
     research_compliance := research_compliance r;
     overall_score := overall;
     component_scores := components;
     validation_error := validation_error r |}.

Definition set_validation_error (e : exn) (r : Results) : Results :=
  {| infrastructure := infrastructure r;
     data_validation := data_validation r;
     framework_knowledge := framework_knowledge r;
     research_compliance := research_compliance r;
     overall_score := overall_score r;
     component_scores := component_scores r;
     validation_error := Some e |}.

(** [sum(1 for v in d.values() if p(v))] *)
Definition count_values {V} (p : V -> bool) (d : gmap string V) : Z :=
  Z.of_nat (length (filter (fun v => p v = true) (map_to_list d).*2)).

Definition bool_to_Z (b : bool) : Z := if b then 1 else 0.

(** *** validate_infrastructure (lines 51-104) *)

Definition required_tables : list string :=
  [ "workflow-processing-state"; "agent-performance-metrics";
    "workflow-optimization-results"; "system-configuration" ].

(** The body of the loop over [required_tables]: every branch writes the
    entry of [table_name]. *)
Definition check_table (aws : Clients) (tables : gmap string bool) (table_name : string)
    : gmap string bool :=
  match describe_table aws table_name with
  | Ok status =>
      if (status =? "ACTIVE")%string
      then <[table_name := true]> tables
      else <[table_name := false]> tables
  | Raise _ => <[table_name := false]> tables
  end.

(** The local dictionary [infrastructure_results] at the end of the
    three checks. *)
Definition infrastructure_checks (aws : Clients) : InfrastructureResults :=
  let s3 :=
    match head_bucket aws bucket with
    | Ok _ => true
    | Raise _ => false
    end in
  let tables := fold_left (check_table aws) required_tables ∅ in
  let bedrock :=
    match list_foundation_models aws with
    | Ok model_ids =>
        let claude_models :=
          filter (fun m => contains "claude-3-5-sonnet" m = true) model_ids in
        match claude_models with
        | [] => false
        | _ :: _ => true
        end
    | Raise _ => false
    end in
  {| s3_bucket := s3; dynamodb_tables := tables;
     iam_roles := false; bedrock_access := bedrock |}.

Definition validate_infrastructure (aws : Clients) : SE Results InfrastructureResults :=
  let infrastructure_results := infrastructure_checks aws in
  modify (set_infrastructure infrastructure_results);;
  mret infrastructure_results.

(** *** validate_data_completeness (lines 106-198) *)

Definition training_files : list string :=
  [ "training_data/input_agent_training.jsonl";
    "training_data/analysis_agent_training.jsonl";
    "training_data/optimization_agent_training.jsonl";
    "training_data/output_agent_training.jsonl";
    "training_data/combined_training_dataset.jsonl" ].

Definition framework_files : list string :=
  [ "framework_knowledge/agile_framework_knowledge.json";
    "framework_knowledge/lean_framework_knowledge.json";
    "framework_knowledge/operating_model_knowledge.json";
    "framework_knowledge/integrated_optimization_rules.json";
    "framework_knowledge/system_prompts.json" ].

Definition validation_files : list string :=
  [ "validation_data/validation_cases.json";
    "validation_data/benchmark_examples.json";
    "validation_data/university_test_data.json" ].

(** The body of the three loops; only the training files record the
    modification time. *)
Definition check_file (aws : Clients) (with_time : bool)
    (files : gmap string FileEntry) (file_path : string) : gmap string FileEntry :=
  match head_object aws bucket file_path with
  | Ok response =>
      <[file_path := {| exists_ := true;
                        size_ := Some (ContentLength response);
                        last_modified :=
                          if with_time then Some (LastModified response) else None;
                        error := None |}]> files
  | Raise e =>
      <[file_path := {| exists_ := false; size_ := None;
                        last_modified := None; error := Some e |}]> files
  end.

(** The local dictionary [data_results] at the end of the three loops. *)
Definition data_checks (aws : Clients) : DataResults :=
  let training := fold_left (check_file aws true) training_files ∅ in
  let framework := fold_left (check_file aws false) framework_files ∅ in
  let validation := fold_left (check_file aws false) validation_files ∅ in
  let total_files :=
    Z.of_nat (length training_files) + Z.of_nat (length framework_files)
    + Z.of_nat (length validation_files) in
  let existing_files :=
    count_values exists_ training + count_values exists_ framework
    + count_values exists_ validation in
  {| training_data := training;
     framework_knowledge_files := framework;
     validation_data := validation;
     data_quality_score := (inject_Z existing_files / inject_Z total_files * 100)%Q |}.

Definition validate_data_completeness (aws : Clients) : SE Results DataResults :=
  let data_results := data_checks aws in
  modify (set_data_validation data_results);;
  mret data_results.

(** *** validate_framework_knowledge (lines 200-288) *)

(** [json.loads(s3.get_object(Bucket=..., Key=key)['Body'].read())] *)
Definition fetch_json (aws : Clients) (key : string) : result json :=
  response ← get_object aws bucket key;
  json_loads aws response.

(** [len(d.get(k, dflt))] *)
Definition count_of (d : json) (k : string) (dflt : json) : result Z :=
  v ← json_get d k dflt;
  json_len v.

(** [k1 in d and k2 in d] *)
Definition has_both (k1 k2 : string) (d : json) : result bool :=
  present ← json_in k1 d;
  if (present : bool) then json_in k2 d else mret false.

Definition empty_framework_results : FrameworkResults := {|
  agile_framework := None;
  lean_framework := None;
  operating_model := None;
  integration_rules := None;
  knowledge_completeness_score := 0;
  framework_validation_error := None
|}.

Definition set_agile_framework (v : AgileFramework) (r : FrameworkResults)
    : FrameworkResults :=
  {| agile_framework := Some v;
     lean_framework := lean_framework r;
     operating_model := operating_model r;
     integration_rules := integration_rules r;
     knowledge_completeness_score := knowledge_completeness_score r;
     framework_validation_error := framework_validation_error r |}.

Definition set_lean_framework (v : LeanFramework) (r : FrameworkResults)
    : FrameworkResults :=
  {| agile_framework := agile_framework r;
     lean_framework := Some v;
     operating_model := operating_model r;
     integration_rules := integration_rules r;
     knowledge_completeness_score := knowledge_completeness_score r;
     framework_validation_error := framework_validation_error r |}.

Definition set_operating_model (v : OperatingModel) (r : FrameworkResults)
    : FrameworkResults :=
  {| agile_framework := agile_framework r;
     lean_framework := lean_framework r;
     operating_model := Some v;
     integration_rules := integration_rules r;
     knowledge_completeness_score := knowledge_completeness_score r;
     framework_validation_error := framework_validation_error r |}.

Definition set_integration_rules (v : IntegrationRules) (r : FrameworkResults)
    : FrameworkResults :=
  {| agile_framework := agile_framework r;
     lean_framework := lean_framework r;
     operating_model := operating_model r;
     integration_rules := Some v;
     knowledge_completeness_score := knowledge_completeness_score r;
     framework_validation_error := framework_validation_error r |}.

Definition set_knowledge_completeness_score (v : Q) (r : FrameworkResults)
    : FrameworkResults :=
  {| agile_framework := agile_framework r;
     lean_framework := lean_framework r;
     operating_model := operating_model r;
     integration_rules := integration_rules r;
     knowledge_completeness_score := v;
     framework_validation_error := framework_validation_error r |}.

Definition set_framework_validation_error (e : exn) (r : FrameworkResults)
    : FrameworkResults :=
  {| agile_framework := agile_framework r;
     lean_framework := lean_framework r;
     operating_model := operating_model r;
     integration_rules := integration_rules r;
     knowledge_completeness_score := knowledge_completeness_score r;
     framework_validation_error := Some e |}.

(** [(sum(criteria) / len(criteria)) * 100] *)
Definition criteria_score (criteria : list bool) : Q :=
  let met := fold_left (fun acc b => acc + bool_to_Z b) criteria 0 in
  (inject_Z met / inject_Z (Z.of_nat (length criteria)) * 100)%Q.

(** The [try] block of [validate_framework_knowledge]. *)
Definition framework_knowledge_body (aws : Clients) : SE FrameworkResults unit :=
  agile_data ← lift (fetch_json aws "framework_knowledge/agile_framework_knowledge.json");
  core_values ← lift (count_of agile_data "core_values" (JArr []));
  principles ← lift (count_of agile_data "twelve_principles" (JArr []));
  agile_rules ← lift (count_of agile_data "agile_detection_rules" (JArr []));
  agile_valid ← lift (has_both "core_values" "twelve_principles" agile_data);
  modify (set_agile_framework
            {| core_values_count := core_values;
               principles_count := principles;
               detection_rules_count := agile_rules;
               agile_valid_structure := agile_valid |});;
  lean_data ← lift (fetch_json aws "framework_knowledge/lean_framework_knowledge.json");
  seven_wastes ← lift (count_of lean_data "seven_wastes" (JArr []));
  lean_principles ← lift (count_of lean_data "five_lean_principles" (JArr []));
  lean_rules ← lift (count_of lean_data "lean_waste_detection_rules" (JArr []));
  lean_valid ← lift (has_both "seven_wastes" "five_lean_principles" lean_data);
  modify (set_lean_framework
            {| seven_wastes_count := seven_wastes;
               lean_principles_count := lean_principles;
               lean_detection_rules_count := lean_rules;
               lean_valid_structure := lean_valid |});;
  om_data ← lift (fetch_json aws "framework_knowledge/operating_model_knowledge.json");
  organize ← lift (json_get om_data "mckinsey_organize_to_value" (JObj ∅));
  mckinsey_elements ← lift (count_of organize "elements" (JArr []));
  violations ← lift (count_of om_data "operating_model_violations" (JArr []));
  patterns ← lift (count_of om_data "optimization_patterns" (JObj ∅));
  om_valid ← lift (json_in "mckinsey_organize_to_value" om_data);
  modify (set_operating_model
            {| mckinsey_elements_count := mckinsey_elements;
               violations_count := violations;
               patterns_count := patterns;
               om_valid_structure := om_valid |});;
  integration_data ←
    lift (fetch_json aws "framework_knowledge/integrated_optimization_rules.json");
  optimization_recommendations ←
    lift (count_of integration_data "integrated_optimization_recommendations" (JObj ∅));
  synergies ← lift (count_of integration_data "framework_synergies" (JObj ∅));
  detection_framework ←
    lift (json_in "comprehensive_detection_framework" integration_data);
  integration_valid ←
    lift (json_in "integrated_optimization_recommendations" integration_data);
  modify (set_integration_rules
            {| optimization_recommendations_count := optimization_recommendations;
               synergies_count := synergies;
               detection_framework_exists := detection_framework;
               integration_valid_structure := integration_valid |});;
  let completeness_criteria :=
    [ core_values =? 4; principles =? 12; seven_wastes =? 7; lean_principles =? 5;
      mckinsey_elements =? 5; optimization_recommendations >=? 5 ] in
  modify (set_knowledge_completeness_score (criteria_score completeness_criteria)).

(** The local dictionary [framework_results] after the [try] statement. *)
Definition framework_checks (aws : Clients) : FrameworkResults :=
  (try_ (framework_knowledge_body aws)
        (fun e => modify (set_framework_validation_error e))
        empty_framework_results).2.

Definition validate_framework_knowledge (aws : Clients) : SE Results FrameworkResults :=
  let framework_results := framework_checks aws in
  modify (set_framework_knowledge framework_results);;
  mret framework_results.

(** *** validate_research_compliance (lines 290-366) *)

Definition empty_research_results : ResearchResults := {|
  benchmarks_implemented := None;
  agile_source_cited := None;
  methodology_rigor := false;
  empirical_validation := false;
  compliance_score := 0;
  research_validation_error := None
|}.

Definition set_benchmarks_implemented (v : bool) (r : ResearchResults) : ResearchResults :=
  {| benchmarks_implemented := Some v;
     agile_source_cited := agile_source_cited r;
     methodology_rigor := methodology_rigor r;
     empirical_validation := empirical_validation r;
     compliance_score := compliance_score r;
     research_validation_error := research_validation_error r |}.

Definition set_agile_source_cited (v : bool) (r : ResearchResults) : ResearchResults :=
  {| benchmarks_implemented := benchmarks_implemented r;
     agile_source_cited := Some v;
     methodology_rigor := methodology_rigor r;
     empirical_validation := empirical_validation r;
     compliance_score := compliance_score r;
     research_validation_error := research_validation_error r |}.

Definition set_rigor_and_validation (r : ResearchResults) : ResearchResults :=
  {| benchmarks_implemented := benchmarks_implemented r;
     agile_source_cited := agile_source_cited r;
     methodology_rigor := true;
     empirical_validation := true;
     compliance_score := compliance_score r;
     research_validation_error := research_validation_error r |}.

Definition set_compliance_score (v : Q) (r : ResearchResults) : ResearchResults :=
  {| benchmarks_implemented := benchmarks_implemented r;
     agile_source_cited := agile_source_cited r;
     methodology_rigor := methodology_rigor r;
     empirical_validation := empirical_validation r;
     compliance_score := v;
     research_validation_error := research_validation_error r |}.

Definition set_research_validation_error (e : exn) (r : ResearchResults)
    : ResearchResults :=
  {| benchmarks_implemented := benchmarks_implemented r;
     agile_source_cited := agile_source_cited r;
     methodology_rigor := methodology_rigor r;
     empirical_validation := empirical_validation r;
     compliance_score := compliance_score r;
     research_validation_error := Some e |}.

(** The [try] block of [validate_research_compliance]. *)
Definition research_compliance_body (aws : Clients) : SE ResearchResults unit :=
  benchmark_data ← lift (fetch_json aws "validation_data/benchmark_examples.json");
  research_validation ← lift (json_get benchmark_data "research_validation" (JObj ∅));
  implemented ← lift (json_in "bpi_challenge_alignment" research_validation);
  modify (set_benchmarks_implemented implemented);;
  agile_data ← lift (fetch_json aws "framework_knowledge/agile_framework_knowledge.json");
  metadata ← lift (json_get agile_data "metadata" (JObj ∅));
  cited ← lift (json_in "source" metadata);
  modify (set_agile_source_cited cited);;
  modify set_rigor_and_validation;;
  let compliance_criteria := [ implemented; cited; true; true ] in
  modify (set_compliance_score (criteria_score compliance_criteria)).

(** The local dictionary [research_results] after the [try] statement. *)
Definition research_checks (aws : Clients) : ResearchResults :=
  (try_ (research_compliance_body aws)
        (fun e => modify (set_research_validation_error e))
        empty_research_results).2.

Definition validate_research_compliance (aws : Clients) : SE Results ResearchResults :=
  let research_results := research_checks aws in
  modify (set_research_compliance research_results);;
  mret research_results.

(** *** validate_system_configuration (lines 368-418) *)

Definition empty_config_results : ConfigResults := {|
  configuration_items := ∅;
  valid_settings := true;
  configuration_completeness := 0;
  missing_configurations := None;
  config_validation_error := None
|}.

Definition add_configuration_item (k : string) (v : ConfigItem) (r : ConfigResults)
    : ConfigResults :=
  {| configuration_items := <[k := v]> (configuration_items r);
     valid_settings := valid_settings r;
     configuration_completeness := configuration_completeness r;
     missing_configurations := missing_configurations r;
     config_validation_error := config_validation_error r |}.

Definition set_completeness (v : Q) (missing : list string) (r : ConfigResults)
    : ConfigResults :=
  {| configuration_items := configuration_items r;
     valid_settings := valid_settings r;
     configuration_completeness := v;
     missing_configurations := Some missing;
     config_validation_error := config_validation_error r |}.

Definition set_config_validation_error (e : exn) (r : ConfigResults) : ConfigResults :=
  {| configuration_items := configuration_items r;
     valid_settings := false;
     configuration_completeness := configuration_completeness r;
     missing_configurations := missing_configurations r;
     config_validation_error := Some e |}.

Definition required_configs : list string :=
  [ "thresholds.max_processing_time"; "quality.minimum_quality_score";
    "features.multi_agent_enabled"; "bedrock.model_id" ].

(** The loop over the scanned items. *)
Fixpoint record_config_items (config_items : list (gmap string (gmap string string)))
    : SE ConfigResults unit :=
  match config_items with
  | [] => mret tt
  | item :: rest =>
      category ← lift (attribute ← subscript item "config_category"; subscript attribute "S");
      key ← lift (attribute ← subscript item "config_key"; subscript attribute "S");
      value ← lift (attribute ← subscript item "config_value"; subscript attribute "S");
      modify (add_configuration_item
                (String.append category (String.append "." key))
                {| value := value;
                   data_type := Py.get (Py.get item "data_type" ∅) "S" "string";
                   environment := Py.get (Py.get item "environment" ∅) "S" "unknown" |});;
      record_config_items rest
  end.

(** The check of the required configuration items (lines 397-409). *)
Definition check_required_configs : SE ConfigResults unit :=
  fun config_results =>
    let missing_configs :=
      filter (fun cfg => configuration_items config_results !! cfg = None)
             required_configs in
    let completeness :=
      (inject_Z (Z.of_nat (length required_configs) - Z.of_nat (length missing_configs))
       / inject_Z (Z.of_nat (length required_configs)) * 100)%Q in
    modify (set_completeness completeness missing_configs) config_results.

Definition system_configuration_body (aws : Clients) : SE ConfigResults unit :=
  config_items ← lift (scan aws "system-configuration");
  record_config_items config_items;;
  check_required_configs.

(** The configuration results are returned to the caller and not stored
    in [self.results]. *)
Definition validate_system_configuration (aws : Clients) : SE Results ConfigResults :=
  let config_results :=
    (try_ (system_configuration_body aws)
          (fun e => modify (set_config_validation_error e))
          empty_config_results).2 in
  mret config_results.

(** *** calculate_overall_score (lines 420-456) *)

(** The infrastructure score: 25 for the bucket, 50 shared by the four
    tables, 25 for the model access. *)
Definition infrastructure_score (infra : option InfrastructureResults) : Q :=
  let s3 := match infra with Some i => s3_bucket i | None => false end in
  let tables := match infra with Some i => dynamodb_tables i | None => ∅ end in
  let bedrock := match infra with Some i => bedrock_access i | None => false end in
  let infra_score := 0%Q in
  let infra_score := if s3 then (infra_score + 25)%Q else infra_score in
  let tables_active := count_values (fun table : bool => table) tables in
  let infra_score := (infra_score + inject_Z tables_active / 4 * 50)%Q in
  let infra_score := if bedrock then (infra_score + 25)%Q else infra_score in
  infra_score.

(** The list [scores] of (name, score, weight). *)
Definition category_scores (results : Results) : list (string * Q * Q) :=
  [ ("Infrastructure", infrastructure_score (infrastructure results), 0.25%Q);
    ("Data Quality",
     match data_validation results with
     | Some d => data_quality_score d
     | None => 0%Q
     end, 0.20%Q);
    ("Framework Knowledge",
     match framework_knowledge results with
     | Some f => knowledge_completeness_score f
     | None => 0%Q
     end, 0.25%Q);
    ("Research Compliance",
     match research_compliance results with
     | Some r => compliance_score r
     | None => 0%Q
     end, 0.30%Q) ].

(** [sum(score * weight for name, score, weight in scores)] *)
Definition weighted_sum (scores : list (string * Q * Q)) : Q :=
  fold_left (fun acc entry => (acc + entry.1.2 * entry.2)%Q) scores 0%Q.

Definition calculate_overall_score : SE Results Q :=
  fun results =>
    let scores := category_scores results in
    let overall_score := weighted_sum scores in
    (Ok overall_score,
     set_scores overall_score (map (fun entry => (entry.1.1, entry.1.2)) scores) results).

(** *** run_full_validation (lines 518-538) and main (lines 540-578) *)

(** [return self.results] *)
Definition the_results : SE Results Results := fun results => (Ok results, results).

Definition run_full_validation (aws : Clients) : SE Results Results :=
  try_ (validate_infrastructure aws;;
        validate_data_completeness aws;;
        validate_framework_knowledge aws;;
        validate_research_compliance aws;;
        validate_system_configuration aws;;
        calculate_overall_score;;
        the_results)
       (fun e => modify (set_validation_error e);; the_results).

(** The exit code chosen at the end of [main]. *)
Definition exit_status (overall_score : Q) : Z :=
  if Qgeb overall_score 80 then 0
  else if Qgeb overall_score 60 then 1
  else 2.

(** [main], up to the files it writes: the validation, the report when
    [--report] is given (of the report only its call of
    [calculate_overall_score] changes [self.results]), and the exit code,
    read from the dictionary that [run_full_validation] returned, which is
    [self.results] itself. *)
Definition main (aws : Clients) (report : bool) : SE Results Z :=
  run_full_validation aws;;
  (if report then calculate_overall_score;; mret tt else mret tt);;
  results ← the_results;
  mret (exit_status (overall_score results)).

(** *** Failed queries *)

(** The existence and status queries of the validator: the bucket, a
    table, the model listing, a storage object. *)
Inductive Query : Type :=
| BucketQuery
| TableQuery (table_name : string)
| ModelQuery
| ObjectQuery (file_path : string).

(** The queries a run issues. *)
Definition issued (q : Query) : Prop :=
  match q with
  | BucketQuery | ModelQuery => True
  | TableQuery table_name => table_name ∈ required_tables
  | ObjectQuery file_path =>
      file_path ∈ training_files ++ framework_files ++ validation_files
  end.


(** The same services, except that query [q] fails with [e]. *)
Definition failing (q : Query) (e : exn) (aws : Clients) : Clients :=
  {| head_bucket := match q with
                    | BucketQuery => fun _ => Raise e
                    | _ => head_bucket aws
                    end;
     describe_table := match q with
                       | TableQuery table_name =>
                           fun n => if (n =? table_name)%string then Raise e
                                    else describe_table aws n
                       | _ => describe_table aws
                       end;
     list_foundation_models := match q with
                               | ModelQuery => Raise e
                               | _ => list_foundation_models aws
                               end;
     head_object := match q with
                    | ObjectQuery file_path =>
                        fun b k => if (k =? file_path)%string then Raise e
                                   else head_object aws b k
                    | _ => head_object aws
                    end;
     get_object := get_object aws;
     json_loads := json_loads aws;
     scan := scan aws |}.

(** What the results record about the artifact of a query. *)
Definition recorded_present (q : Query) (results : Results) : option bool :=
  match q with
  | BucketQuery => s3_bucket <$> infrastructure results
  | TableQuery table_name =>
      i ← infrastructure results; dynamodb_tables i !! table_name
  | ModelQuery => bedrock_access <$> infrastructure results
  | ObjectQuery file_path =>
      d ← data_validation results;
      exists_ <$> (training_data d ∪ framework_knowledge_files d ∪ validation_data d)
                  !! file_path
  end.

(** The four category scores of a result, by name. *)
Definition score_of (name : string) (results : Results) : option Q :=
  match list_find (fun entry => entry.1 = name) (component_scores results) with
  | Some (_, entry) => Some entry.2
  | None => None
  end.

(** The category whose score a query feeds. *)
Definition category_of (q : Query) : string :=
  match q with
  | ObjectQuery _ => "Data Quality"
  | _ => "Infrastructure"
  end.

(** What the table loop and the file loops write for one key. *)
Definition table_active (aws : Clients) (table_name : string) : bool :=
  match describe_table aws table_name with
  | Ok status => (status =? "ACTIVE")%string
  | Raise _ => false
  end.

Definition file_exists (aws : Clients) (file_path : string) : bool :=
  match head_object aws bucket file_path with
  | Ok _ => true
  | Raise _ => false
  end.

(** The entry that a file loop writes. *)
Definition file_entry (aws : Clients) (with_time : bool) (file_path : string) : FileEntry :=
  match head_object aws bucket file_path with
  | Ok response =>
      {| exists_ := true; size_ := Some (ContentLength response);
         last_modified := if with_time then Some (LastModified response) else None;
         error := None |}
  | Raise e =>
      {| exists_ := false; size_ := None; last_modified := None; error := Some e |}
  end.

Definition all_files : list string :=
  training_files ++ framework_files ++ validation_files.

(** Invariants of a computation: a property of the state that every run
    keeps. *)
Definition preserves {S A} (P : S -> Prop) (m : SE S A) : Prop :=
  forall s, P s -> P (m s).2.

Definition percentage (q : Q) : Prop := (0 <= q)%Q /\ (q <= 100)%Q.

(** A results dictionary in which three tables are active, the bucket
    exists, the model is missing and the other categories are complete. *)
Definition partial_results : Results :=
  {| infrastructure :=
       Some {| s3_bucket := true;
               dynamodb_tables :=
                 list_to_map [ ("workflow-processing-state", true);
                               ("agent-performance-metrics", true);
                               ("workflow-optimization-results", true);
                               ("system-configuration", false) ];
               iam_roles := false;
               bedrock_access := false |};
     data_validation :=
       Some {| training_data := ∅; framework_knowledge_files := ∅;
               validation_data := ∅; data_quality_score := 100 |};
     framework_knowledge :=
       Some (set_knowledge_completeness_score 100 empty_framework_results);
     research_compliance :=
       Some (set_compliance_score 75 empty_research_results);
     overall_score := 0;
     component_scores := [];
     validation_error := None |}.

(** Services in which every existence and status query succeeds and no
    document can be fetched. *)
Definition sample_services : Clients :=
  {| head_bucket := fun _ => Ok tt;
     describe_table := fun _ => Ok "ACTIVE";
     list_foundation_models := Ok [ "anthropic.claude-3-5-sonnet-20240620-v1:0" ];
     head_object := fun _ _ => Ok {| ContentLength := 2048;
                                     LastModified := "2024-06-01T00:00:00" |};
     get_object := fun _ _ => Raise (ClientError "NoSuchKey");
     json_loads := fun _ => Raise JSONDecodeError;
     scan := fun _ => Ok [] |}.

(** The local dictionary [config_results] after the [try] statement of
    [validate_system_configuration]. *)
Definition config_checks (aws : Clients) : ConfigResults :=
  (try_ (system_configuration_body aws)
        (fun e => modify (set_config_validation_error e))
        empty_config_results).2.

(** The same services with another answer to the configuration scan. *)
Definition with_scan (aws : Clients)
    (answer : string -> result (list (gmap string (gmap string string)))) : Clients :=
  {| head_bucket := head_bucket aws;
     describe_table := describe_table aws;
     list_foundation_models := list_foundation_models aws;
     head_object := head_object aws;
     get_object := get_object aws;
     json_loads := json_loads aws;
     scan := answer |}.

Definition agile_key : string := "framework_knowledge/agile_framework_knowledge.json".

(** The completeness criteria of [validate_framework_knowledge], read
    from the recorded counts. *)
Definition recorded_criteria (r : FrameworkResults) : option (list bool) :=
  agile ← agile_framework r;
  lean ← lean_framework r;
  om ← operating_model r;
  integration ← integration_rules r;
  Some [ core_values_count agile =? 4; principles_count agile =? 12;
         seven_wastes_count lean =? 7; lean_principles_count lean =? 5;
         mckinsey_elements_count om =? 5;
         optimization_recommendations_count integration >=? 5 ].

(** The results dictionary once the four category results are stored and
    the scores are computed from them. *)
Definition assembled (i : InfrastructureResults) (d : DataResults)
    (f : FrameworkResults) (c : ResearchResults) (r : Results) : Results :=
  let r := set_infrastructure i r in
  let r := set_data_validation d r in
  let r := set_framework_knowledge f r in
  let r := set_research_compliance c r in
  (calculate_overall_score r).2.

(** The configuration results while the scanned items are being recorded:
    nothing but the items has been written yet. *)
Definition recording (r : ConfigResults) : Prop :=
  valid_settings r = true
  /\ configuration_completeness r = 0%Q
  /\ missing_configurations r = None
  /\ config_validation_error r = None.

End Validator.

(** ** data_validation.py *)

Module DataValidation.

(** [s.replace(old, "")] for a non-empty [old]: every occurrence of [old],
    scanning from the left, is dropped.  [skip] counts the characters of an
    occurrence that are still to be dropped. *)
Fixpoint remove_from (old : string) (skip : nat) (s : string) : string :=
  match s with
  | EmptyString => EmptyString
  | String c rest =>
      match skip with
      | S k => remove_from old k rest
      | O =>
          if String.prefix old s
          then remove_from old (String.length old - 1) rest
          else String c (remove_from old 0 rest)
      end
  end.

Definition remove_all (old s : string) : string := remove_from old 0 s.

(** *** validate_data_download (lines 29-93) *)

Definition expected_files : list string :=
  [ "PermitLog.xes"; "DomesticDeclarations.xes"; "InternationalDeclarations.xes";
    "PrepaidTravelCost.xes"; "RequestForPayment.xes" ].

(** Expected sizes, in MB. *)
Definition expected_sizes : gmap string (Z * Z) := list_to_map [
  ("PermitLog.xes", (30, 40));
  ("DomesticDeclarations.xes", (18, 25));
  ("InternationalDeclarations.xes", (25, 35));
  ("PrepaidTravelCost.xes", (6, 10));
  ("RequestForPayment.xes", (12, 18)) ].

(** An entry of [file_details]; [size_mb] is kept as a number (the code
    stores it printed with one decimal). *)
Record FileDetail : Type := {
  size_mb : Q;
  size_ok : bool;
  expected_range : Z * Z
}.

Record DownloadResults : Type := {
  download_complete : bool;
  file_details : gmap string FileDetail;
  missing_files : list string;
  size_issues : list string
}.

(** [lo <= x <= hi] *)
Definition between (lo : Z) (x : Q) (hi : Z) : bool :=
  Qle_bool (inject_Z lo) x && Qle_bool x (inject_Z hi).

(** The body of the loop over [expected_files].  [stat filename] is the
    size in bytes of the file in the download directory, [None] when the
    file does not exist. *)
Definition check_download (stat : string -> option Z) (r : DownloadResults)
    (filename : string) : DownloadResults :=
  match stat filename with
  | Some st_size =>
      let size_mb := (inject_Z st_size / inject_Z (1024 * 1024))%Q in
      let expected_range := get expected_sizes filename (0, 100) in
      let size_ok := between expected_range.1 size_mb expected_range.2 in
      {| download_complete := download_complete r;
         file_details :=
           <[filename := {| size_mb := size_mb; size_ok := size_ok;
                            expected_range := expected_range |}]> (file_details r);
         missing_files := missing_files r;
         size_issues :=
           if negb size_ok then size_issues r ++ [filename] else size_issues r |}
  | None =>
      {| download_complete := false;
         file_details := file_details r;
         missing_files := missing_files r ++ [filename];
         size_issues := size_issues r |}
  end.

Definition validate_data_download (stat : string -> option Z) : DownloadResults :=
  fold_left (check_download stat) expected_files
    {| download_complete := true; file_details := ∅;
       missing_files := []; size_issues := [] |}.

(** *** validate_against_research_benchmarks (lines 158-248) *)

(** The values of [research_benchmarks]: a range or a single figure. *)
Inductive Benchmark : Type :=
| Range (lo hi : Z)
| Figure (q : Q).

Definition research_benchmarks : gmap string Benchmark := list_to_map [
  ("domestic_avg_duration", Range 8 11);
  ("international_avg_duration", Range 66 86);
  ("domestic_rejection_rate", Figure 0.12);
  ("international_rejection_rate", Figure 0.27);
  ("supervisor_approval_bottleneck", Figure 39);
  ("director_approval_bottleneck", Figure 55);
  ("domestic_success_rate", Figure 0.9562);
  ("international_success_rate", Figure 0.9594) ].

(** [expected_range[0]], [expected_range[1]]: only a tuple can be indexed. *)
Definition as_range (b : Benchmark) : result (Z * Z) :=
  match b with
  | Range lo hi => Ok (lo, hi)
  | Figure _ => Raise TypeError
  end.

(** An entry of [benchmark_matches] or of [deviations].  The average is
    [None] when it is NaN (an empty table); the deviation is the percentage
    that the code prints. *)
Record BenchmarkEntry : Type := {
  actual : option Q;
  expected : Z * Z;
  deviation : option Q
}.

Record BenchmarkResults : Type := {
  benchmark_matches : gmap string BenchmarkEntry;
  deviations : gmap string BenchmarkEntry;
  overall_accuracy : Q;
  research_credibility : string
}.

(** What the code finds at a features file: nothing ([None]), a failure
    while reading it or its duration column ([Raise]), or the mean of the
    column, absent when the table is empty. *)
Definition FeatureMean : Type := option (result (option Q)).

(** The running state: the results, [matches] and [total_benchmarks]. *)
Definition BenchmarkState : Type := (BenchmarkResults * Z * Z)%type.

(** One of the two blocks (lines 176-202 and 205-231). *)
Definition check_benchmark (benchmark_key entry_key : string) (file : FeatureMean)
    (st : BenchmarkState) : result BenchmarkState :=
  let '(r, matches, total_benchmarks) := st in
  match file with
  | None => mret st
  | Some mean =>
      avg ← mean;
      benchmark ← subscript research_benchmarks benchmark_key;
      expected_range ← as_range benchmark;
      let within_range :=
        match avg with
        | Some a => between expected_range.1 a expected_range.2
        | None => false
        end in
      if within_range then
        mret ({| benchmark_matches :=
                   <[entry_key := {| actual := avg; expected := expected_range;
                                     deviation := None |}]> (benchmark_matches r);
                 deviations := deviations r;
                 overall_accuracy := overall_accuracy r;
                 research_credibility := research_credibility r |},
              matches + 1, total_benchmarks + 1)
      else
        let middle := ((inject_Z expected_range.1 + inject_Z expected_range.2) / 2)%Q in
        mret ({| benchmark_matches := benchmark_matches r;
                 deviations :=
                   <[entry_key := {| actual := avg; expected := expected_range;
                                     deviation :=
                                       (fun a => ((a - middle) / middle * 100)%Q) <$> avg |}]>
                     (deviations r);
                 overall_accuracy := overall_accuracy r;
                 research_credibility := research_credibility r |},
              matches, total_benchmarks + 1)
  end.

(** Lines 233-246. *)
Definition assess_accuracy (st : BenchmarkState) : BenchmarkResults :=
  let '(r, matches, total_benchmarks) := st in
  if total_benchmarks >? 0 then
    let accuracy := (inject_Z matches / inject_Z total_benchmarks)%Q in
    {| benchmark_matches := benchmark_matches r;
       deviations := deviations r;
       overall_accuracy := accuracy;
       research_credibility :=
         if Qgeb accuracy 0.8 then "HIGH"
         else if Qgeb accuracy 0.6 then "MEDIUM"
         else "LOW" |}
  else r.

Definition validate_against_research_benchmarks (domestic international : FeatureMean)
    : result BenchmarkResults :=
  st ← check_benchmark "domestic_avg_duration" "domestic_duration" domestic
         ({| benchmark_matches := ∅; deviations := ∅;
             overall_accuracy := 0; research_credibility := "unknown" |}, 0, 0);
  st ← check_benchmark "international_avg_duration" "international_duration"
         international st;
  mret (assess_accuracy st).

(** *** validate_framework_knowledge (lines 326-387) *)

Definition expected_knowledge_files : list string :=
  [ "agile_manifesto.json"; "lean_principles.json";
    "operating_model_frameworks.json"; "inefficiency_detection_rules.json";
    "training_prompts.json"; "complete_framework_knowledge.json" ].

Record ContentQuality : Type := {
  file_size_kb : Q;
  has_content : bool;
  structure_ok : bool
}.

Record KnowledgeResults : Type := {
  knowledge_files : Z;
  frameworks_covered : list string;
  completeness_score : Q;
  content_quality : gmap string ContentQuality
}.

(** What the code finds at a knowledge file: nothing ([None]), a file
    that cannot be opened or parsed ([Raise]), or a document, of which it
    reads the length of its serialisation and whether it is a dictionary. *)
Definition KnowledgeFile : Type := option (result (Z * bool)).

(** The body of the loop; the state is [found_files] and the results. *)
Definition check_knowledge_file (file : string -> KnowledgeFile)
    (st : Z * KnowledgeResults) (filename : string) : Z * KnowledgeResults :=
  let '(found_files, r) := st in
  match file filename with
  | Some content =>
      let framework_name := remove_all ".json" filename in
      let covered := frameworks_covered r ++ [framework_name] in
      match content with
      | Ok (content_size, is_dict) =>
          (found_files + 1,
           {| knowledge_files := knowledge_files r;
              frameworks_covered := covered;
              completeness_score := completeness_score r;
              content_quality :=
                <[framework_name :=
                    {| file_size_kb := (inject_Z content_size / 1024)%Q;
                       has_content := content_size >? 1000;
                       structure_ok := is_dict |}]> (content_quality r) |})
      | Raise _ =>
          (found_files + 1,
           {| knowledge_files := knowledge_files r;
              frameworks_covered := covered;
              completeness_score := completeness_score r;
              content_quality := content_quality r |})
      end
  | None => st
  end.

Definition validate_framework_knowledge (file : string -> KnowledgeFile)
    : KnowledgeResults :=
  let '(found_files, r) :=
    fold_left (check_knowledge_file file) expected_knowledge_files
      (0, {| knowledge_files := 0; frameworks_covered := [];
             completeness_score := 0; content_quality := ∅ |}) in
  {| knowledge_files := found_files;
     frameworks_covered := frameworks_covered r;
     completeness_score :=
       (inject_Z found_files / inject_Z (Z.of_nat (length expected_knowledge_files)))%Q;
     content_quality := content_quality r |}.

(** *** generate_validation_report: the scores (lines 403-466) and
    _generate_recommendations (lines 492-515) *)

(** The dictionary [scores], with its five fixed keys. *)
Record Scores : Type := {
  data_download : Q;
  feature_extraction : Q;
  research_alignment : Q;
  labeling_quality : Q;
  framework_knowledge : Q
}.

(** The component scores, from the download, benchmark and knowledge
    results and from the two counters [feature_files_found] and
    [labeled_files] of the other two validations. *)
Definition component_scores (download : DownloadResults) (feature_files_found : nat)
    (benchmark : BenchmarkResults) (labeled_files : nat) (knowledge : KnowledgeResults)
    : Scores :=
  {| data_download :=
       if download_complete download
          && match size_issues download with [] => true | _ => false end
       then 1
       else if download_complete download then 0.5 else 0;
     feature_extraction := Py.min (inject_Z (Z.of_nat feature_files_found) / 5) 1;
     research_alignment := overall_accuracy benchmark;
     labeling_quality := Py.min (inject_Z (Z.of_nat labeled_files) / 5) 1;
     framework_knowledge := completeness_score knowledge |}.

(** [np.mean(list(scores.values()))] *)
Definition mean_score (scores : Scores) : Q :=
  ((data_download scores + feature_extraction scores + research_alignment scores
    + labeling_quality scores + framework_knowledge scores) / 5)%Q.

(** The pair [status], [readiness] (lines 422-437). *)
Definition assessment (overall_score : Q) : string * string :=
  if Qgeb overall_score 0.9 then ("EXCELLENT", "READY_FOR_TRAINING")
  else if Qgeb overall_score 0.7 then ("GOOD", "READY_WITH_WARNINGS")
  else if Qgeb overall_score 0.5 then ("ACCEPTABLE", "NEEDS_IMPROVEMENT")
  else ("NEEDS_WORK", "NOT_READY").

(** [x < y] *)
Definition Qltb (x y : Q) : bool := negb (Qle_bool y x).

Definition _generate_recommendations (scores : Scores) (overall_score : Q) : list string :=
  let recommendations := [] in
  let recommendations :=
    if Qltb (data_download scores) 0.8
    then recommendations
         ++ ["Re-download missing or corrupted XES files from BPI Challenge 2020 repository"]
    else recommendations in
  let recommendations :=
    if Qltb (feature_extraction scores) 0.8
    then recommendations ++ ["Complete feature extraction for all 5 datasets"]
    else recommendations in
  let recommendations :=
    if Qltb (research_alignment scores) 0.7
    then recommendations
         ++ ["Investigate data processing issues - results should match published research"]
    else recommendations in
  let recommendations :=
    if Qltb (labeling_quality scores) 0.8
    then recommendations ++ ["Complete labeling process for all extracted features"]
    else recommendations in
  let recommendations :=
    if Qltb (framework_knowledge scores) 0.8
    then recommendations
         ++ ["Complete framework knowledge collection for comprehensive AI training"]
    else recommendations in
  if Qgeb overall_score 0.8
  then recommendations
       ++ ["Excellent work! Proceed with AI agent development and training"]
  else recommendations.

(** The part of the report that is computed from the scores. *)
Record Report : Type := {
  report_overall_score : Q;
  report_status : string;
  report_readiness : string;
  report_research_credibility : string;
  report_component_scores : Scores;
  report_recommendations : list string
}.

Definition score_report (download : DownloadResults) (feature_files_found : nat)
    (benchmark : BenchmarkResults) (labeled_files : nat) (knowledge : KnowledgeResults)
    : Report :=
  let scores :=
    component_scores download feature_files_found benchmark labeled_files knowledge in
  let overall_score := mean_score scores in
  {| report_overall_score := overall_score;
     report_status := (assessment overall_score).1;
     report_readiness := (assessment overall_score).2;
     report_research_credibility := research_credibility benchmark;
     report_component_scores := scores;
     report_recommendations := _generate_recommendations scores overall_score |}.

(** Helpers of the statements: a number between 0 and 1, and what the
    download loop decides for one file. *)
Definition unit_interval (q : Q) : Prop := (0 <= q)%Q /\ (q <= 1)%Q.

Definition file_detail (stat : string -> option Z) (filename : string)
    : option FileDetail :=
  match stat filename with
  | Some st_size =>
      let size_mb := (inject_Z st_size / inject_Z (1024 * 1024))%Q in
      let expected_range := get expected_sizes filename (0, 100) in
      Some {| size_mb := size_mb;
              size_ok := between expected_range.1 size_mb expected_range.2;
              expected_range := expected_range |}
  | None => None
  end.

Definition is_missing (stat : string -> option Z) (filename : string) : bool :=
  match stat filename with
  | Some _ => false
  | None => true
  end.

Definition has_size_issue (stat : string -> option Z) (filename : string) : bool :=
  match file_detail stat filename with
  | Some d => negb (size_ok d)
  | None => false
  end.

Definition exists_on_disk {A} (file : string -> option A) (filename : string) : bool :=
  match file filename with
  | Some _ => true
  | None => false
  end.

(** Whether there is something at a path. *)
Definition found {A} (file : option A) : bool :=
  match file with
  | Some _ => true
  | None => false
  end.

(** The name under which a knowledge file is recorded, and the entry of
    [content_quality] that the loop writes for it. *)
Definition framework_name (filename : string) : string :=
  remove_all ".json" filename.

Definition quality_of (file : string -> KnowledgeFile) (filename : string)
    : option ContentQuality :=
  match file filename with
  | Some (Ok (content_size, is_dict)) =>
      Some {| file_size_kb := (inject_Z content_size / 1024)%Q;
              has_content := content_size >? 1000;
              structure_ok := is_dict |}
  | _ => None
  end.

(** A sample run: one log of the right size, a domestic table with a mean
    of 9.5 days and no international table, one knowledge document. *)
Definition sample_stat (filename : string) : option Z :=
  if String.eqb filename "PermitLog.xes" then Some (35 * 1024 * 1024) else None.

Definition sample_domestic : FeatureMean := Some (Ok (Some 9.5%Q)).

Definition sample_benchmark : BenchmarkResults :=
  {| benchmark_matches :=
       {[ "domestic_duration" :=
            {| actual := Some 9.5%Q; expected := (8, 11); deviation := None |} ]};
     deviations := ∅;
     overall_accuracy := 1;
     research_credibility := "HIGH" |}.

Definition sample_knowledge (filename : string) : KnowledgeFile :=
  if String.eqb filename "agile_manifesto.json" then Some (Ok (2048, true)) else None.

(** Whether the mean found at a features file lies in a range. *)
Definition matches_benchmark (lo hi : Z) (file : FeatureMean) : bool :=
  match file with
  | Some (Ok (Some a)) => between lo a hi
  | _ => false
  end.

End DataValidation.
(** * Properties *)

(** ** Facts about the prelude *)

Module PyFacts.

Lemma Qgtb_true x y : Qgtb x y = true <-> (y < x)%Q.
Proof.
  unfold Qgtb. rewrite negb_true_iff, <- not_true_iff_false, Qle_bool_iff.
  split; [apply Qnot_le_lt | apply Qlt_not_le].
Qed.

Lemma Qgtb_false x y : Qgtb x y = false <-> (x <= y)%Q.
Proof. unfold Qgtb. rewrite negb_false_iff. apply Qle_bool_iff. Qed.

Lemma Qgeb_true x y : Qgeb x y = true <-> (y <= x)%Q.
Proof. apply Qle_bool_iff. Qed.

Lemma Qgeb_false x y : Qgeb x y = false <-> (x < y)%Q.
Proof.
  unfold Qgeb. rewrite <- not_true_iff_false, Qle_bool_iff.
  split; [apply Qnot_le_lt | apply Qlt_not_le].
Qed.

Lemma min_le_r x y : (min x y <= y)%Q.
Proof.
  unfold min. destruct (Qgtb x y) eqn:E.
  - apply Qle_refl.
  - by apply Qgtb_false.
Qed.

Lemma min_mono x x' y : (x <= x')%Q -> (min x y <= min x' y)%Q.
Proof.
  intros Hx. unfold min.
  destruct (Qgtb x y) eqn:E, (Qgtb x' y) eqn:E'.
  - apply Qle_refl.
  - apply Qgtb_true in E. apply Qgtb_false in E'.
    exfalso. apply (Qlt_irrefl y).
    eapply Qlt_le_trans; [exact E |]. by eapply Qle_trans.
  - by apply Qgtb_false.
  - exact Hx.
Qed.

Lemma min_nonneg x y : (0 <= x)%Q -> (0 <= y)%Q -> (0 <= min x y)%Q.
Proof. intros Hx Hy. unfold min. by destruct (Qgtb x y). Qed.

End PyFacts.

Import PyFacts.

(** ** Facts about the labeler *)

Module LabellingFacts.
Import Labelling.

(** No subscript of the labeler raises [KeyError]. *)
Lemma threshold_international :
  subscript (thresholds init) "international_excessive_duration" = Ok 150%Q.
Proof. vm_compute. reflexivity. Qed.

Lemma threshold_domestic :
  subscript (thresholds init) "domestic_excessive_duration" = Ok 20%Q.
Proof. vm_compute. reflexivity. Qed.

Lemma threshold_supervisor :
  subscript (thresholds init) "supervisor_approval_bottleneck" = Ok 30%Q.
Proof. vm_compute. reflexivity. Qed.

Lemma threshold_rejections :
  subscript (thresholds init) "excessive_rejections" = Ok 2%Q.
Proof. vm_compute. reflexivity. Qed.

Lemma mapping_duration :
  subscript (framework_mappings init) "excessive_duration" = Ok duration_mapping.
Proof. vm_compute. reflexivity. Qed.

Lemma mapping_supervisor :
  subscript (framework_mappings init) "supervisor_approval_bottleneck"
  = Ok supervisor_mapping.
Proof. vm_compute. reflexivity. Qed.

Lemma mapping_rejections :
  subscript (framework_mappings init) "excessive_rejections" = Ok rejections_mapping.
Proof. vm_compute. reflexivity. Qed.

Ltac lookups :=
  rewrite ?threshold_international, ?threshold_domestic, ?threshold_supervisor,
    ?threshold_rejections, ?mapping_duration, ?mapping_supervisor, ?mapping_rejections.

Ltac run := cbn [mbind mret result_bind result_ret outcome fst snd app].

Ltac frame_done :=
  run; rewrite ?app_nil_r, ?Z.add_0_r; reflexivity.

(** Each rule appends its findings to the list it is given and adds its
    weight to the score it is given. *)
Lemma duration_rule_frame cf labels s :
  duration_rule init cf (labels, s)
  = Ok (labels ++ duration_findings cf, s + duration_weight cf).
Proof.
  unfold duration_findings, duration_weight, duration_rule.
  destruct (is_international cf); lookups; run.
  - destruct (Qgtb (total_duration_days cf) 150); lookups; frame_done.
  - destruct (Qgtb (total_duration_days cf) 20); lookups; frame_done.
Qed.

Lemma approval_rule_frame cf labels s :
  approval_rule init cf (labels, s)
  = Ok (labels ++ approval_findings cf, s + approval_weight cf).
Proof.
  unfold approval_findings, approval_weight, approval_rule.
  destruct (truthy (approval_time_days cf)); [| frame_done].
  destruct (approval_time_days cf) as [a |]; [| frame_done].
  lookups; run.
  destruct (Qgtb a 30); lookups; frame_done.
Qed.

Lemma rejection_rule_frame cf labels s :
  rejection_rule init cf (labels, s)
  = Ok (labels ++ rejection_findings cf, s + rejection_weight cf).
Proof.
  unfold rejection_findings, rejection_weight, rejection_rule.
  lookups; run.
  destruct (Qgtb (inject_Z (rejection_count cf)) 2); lookups; frame_done.
Qed.

Lemma complexity_rule_frame cf labels s :
  complexity_rule cf (labels, s)
  = (labels ++ complexity_findings cf, s + complexity_weight cf).
Proof.
  unfold complexity_findings, complexity_weight, complexity_rule.
  destruct (activity_count cf >? 20); frame_done.
Qed.

(** The labeler never raises; its result is assembled from the four rules
    in evaluation order. *)
Lemma label_case_inefficiencies_eq cf :
  label_case_inefficiencies init cf =
  let labels := duration_findings cf ++ approval_findings cf
                ++ rejection_findings cf ++ complexity_findings cf in
  Ok {| inefficiencies := labels;
        severity_score := duration_weight cf + approval_weight cf
                          + rejection_weight cf + complexity_weight cf;
        total_inefficiency_count := Z.of_nat (length labels);
        optimization_potential := _calculate_optimization_potential labels cf |}.
Proof.
  unfold label_case_inefficiencies.
  rewrite duration_rule_frame; run.
  rewrite approval_rule_frame; run.
  rewrite rejection_rule_frame; run.
  rewrite complexity_rule_frame.
  rewrite !Z.add_0_l, <- !app_assoc. reflexivity.
Qed.

End LabellingFacts.

(** ** What each rule emits *)

Module RuleFacts.
Import Labelling LabellingFacts.

(** The duration rule is silent up to the excessive-duration threshold. *)
Lemma duration_silent cf :
  (total_duration_days cf <= (if is_international cf then 150 else 20))%Q ->
  duration_findings cf = [] /\ duration_weight cf = 0.
Proof.
  unfold duration_findings, duration_weight, duration_rule.
  destruct (is_international cf); intros H%Qgtb_false; lookups; run;
    rewrite H; auto.
Qed.

(** Truthiness does not hide a value above the threshold. *)
Lemma truthy_above a : (30 < a)%Q -> truthy (Some a) = true.
Proof.
  intros H. unfold truthy. apply negb_true_iff, not_true_iff_false.
  intros E%Qeq_bool_iff. rewrite E in H. discriminate H.
Qed.

Lemma approval_silent cf :
  match approval_time_days cf with
  | None => True
  | Some a => (a <= 30)%Q
  end ->
  approval_findings cf = [] /\ approval_weight cf = 0.
Proof.
  unfold approval_findings, approval_weight, approval_rule.
  destruct (approval_time_days cf) as [a |]; [| by destruct (truthy None)].
  intros H%Qgtb_false.
  destruct (truthy (Some a)); [| auto].
  lookups; run. rewrite H. auto.
Qed.

Lemma approval_fires cf a :
  approval_time_days cf = Some a -> (30 < a)%Q ->
  exists f,
    approval_findings cf = [f] /\ approval_weight cf = 3 /\
    type_ f = supervisor /\
    severity f = (if Qgtb a 50 then "high" else "medium") /\
    actual_value f = a.
Proof.
  intros Ha Hgt.
  unfold approval_findings, approval_weight, approval_rule.
  rewrite Ha, (truthy_above a Hgt). lookups; run.
  apply Qgtb_true in Hgt. rewrite Hgt. lookups; run.
  eexists. repeat split; reflexivity.
Qed.

Lemma rejection_silent cf :
  rejection_count cf <= 2 ->
  rejection_findings cf = [] /\ rejection_weight cf = 0.
Proof.
  intros H.
  unfold rejection_findings, rejection_weight, rejection_rule. lookups; run.
  assert (E : Qgtb (inject_Z (rejection_count cf)) 2 = false).
  { apply Qgtb_false. rewrite <- (Zle_Qle _ 2). exact H. }
  rewrite E. auto.
Qed.

Lemma complexity_silent cf :
  activity_count cf <= 20 ->
  complexity_findings cf = [] /\ complexity_weight cf = 0.
Proof.
  intros H. unfold complexity_findings, complexity_weight, complexity_rule.
  destruct (Z.gtb_spec (activity_count cf) 20); [lia | auto].
Qed.

(** The types each rule can emit. *)
Lemma duration_types cf :
  Forall (fun f => type_ f = "excessive_duration_international"
                   \/ type_ f = "excessive_duration_domestic")
         (duration_findings cf).
Proof.
  unfold duration_findings, duration_rule.
  destruct (is_international cf); lookups; run;
    match goal with |- context [Qgtb ?d ?l] => destruct (Qgtb d l) end;
    lookups; run; repeat apply Forall_cons; auto.
Qed.

Lemma approval_types cf :
  Forall (fun f => type_ f = supervisor) (approval_findings cf).
Proof.
  unfold approval_findings, approval_rule.
  destruct (truthy (approval_time_days cf)); [| constructor].
  destruct (approval_time_days cf) as [a |]; [| constructor].
  lookups; run. destruct (Qgtb a 30); lookups; run; repeat constructor.
Qed.

Lemma rejection_types cf :
  Forall (fun f => type_ f = "excessive_rejections") (rejection_findings cf).
Proof.
  unfold rejection_findings, rejection_rule. lookups; run.
  destruct (Qgtb (inject_Z (rejection_count cf)) 2); lookups; run;
    repeat constructor.
Qed.

Lemma complexity_types cf :
  Forall (fun f => type_ f = "process_complexity") (complexity_findings cf).
Proof.
  unfold complexity_findings, complexity_rule.
  destruct (activity_count cf >? 20); repeat constructor.
Qed.

(** Findings of other types do not count. *)
Lemma count_type_other t (P : Finding -> Prop) fs :
  Forall P fs -> (forall f, P f -> type_ f <> t) -> count_type t fs = 0%nat.
Proof.
  intros HP Hne. unfold count_type.
  induction HP as [| f fs Hf _ IH]; [reflexivity |].
  rewrite filter_cons. destruct (decide (type_ f = t)) as [E | _]; [| exact IH].
  by destruct (Hne f Hf).
Qed.

Lemma count_type_app t fs gs :
  count_type t (fs ++ gs) = (count_type t fs + count_type t gs)%nat.
Proof. unfold count_type. by rewrite filter_app, length_app. Qed.

(** Only the approval rule reads [approval_time_days]. *)
Lemma duration_ignores_approval cf a :
  duration_findings (with_approval_time cf a) = duration_findings cf
  /\ duration_weight (with_approval_time cf a) = duration_weight cf.
Proof. split; reflexivity. Qed.

Lemma rejection_ignores_approval cf a :
  rejection_findings (with_approval_time cf a) = rejection_findings cf
  /\ rejection_weight (with_approval_time cf a) = rejection_weight cf.
Proof. split; reflexivity. Qed.

Lemma complexity_ignores_approval cf a :
  complexity_findings (with_approval_time cf a) = complexity_findings cf
  /\ complexity_weight (with_approval_time cf a) = complexity_weight cf.
Proof. split; reflexivity. Qed.

End RuleFacts.

(** ** Properties of the labeler and of the recommendation generator *)

Module LabellingSpec.
Import Labelling LabellingFacts RuleFacts.

(** *** The optimization potential *)

Lemma add_potential_ge p f : (p <= add_potential p f)%Q.
Proof.
  unfold add_potential.
  repeat match goal with
         | |- context [(?a =? ?b)%string] => destruct (a =? b)%string
         end; lra.
Qed.

Lemma add_potential_mono p q f :
  (p <= q)%Q -> (add_potential p f <= add_potential q f)%Q.
Proof.
  intros H. unfold add_potential.
  repeat match goal with
         | |- context [(?a =? ?b)%string] => destruct (a =? b)%string
         end; lra.
Qed.

Lemma potential_fold_mono fs : forall p q,
  (p <= q)%Q -> (fold_left add_potential fs p <= fold_left add_potential fs q)%Q.
Proof.
  induction fs as [| f fs IH]; intros p q H; simpl; [exact H |].
  apply IH, add_potential_mono, H.
Qed.

Lemma potential_fold_ge fs : forall p, (p <= fold_left add_potential fs p)%Q.
Proof.
  induction fs as [| f fs IH]; intros p; simpl; [apply Qle_refl |].
  eapply Qle_trans; [apply add_potential_ge | apply IH].
Qed.

Lemma potential_fold_insert pre post f :
  (fold_left add_potential (pre ++ post) 0
   <= fold_left add_potential (pre ++ f :: post) 0)%Q.
Proof.
  rewrite !fold_left_app. simpl.
  apply potential_fold_mono, add_potential_ge.
Qed.

Lemma potential_bounds fs cf :
  (0 <= _calculate_optimization_potential fs cf)%Q
  /\ (_calculate_optimization_potential fs cf <= 80)%Q.
Proof.
  unfold _calculate_optimization_potential.
  destruct fs as [| f fs]; [split; lra |].
  split; [| apply min_le_r].
  apply min_nonneg; [apply potential_fold_ge | lra].
Qed.

(** C2: the optimization potential of any finding list lies between 0
    and 80, and inserting one more finding anywhere in a list never lowers
    it; in particular this holds for the list the labeler produces, whose
    potential is reported in [optimization_potential]. *)
Theorem C2_optimization_potential_bounded_and_monotone :
  (forall (fs : list Finding) (cf : CaseFeatures),
     (0 <= _calculate_optimization_potential fs cf)%Q
     /\ (_calculate_optimization_potential fs cf <= 80)%Q)
  /\ (forall (pre post : list Finding) (f : Finding) (cf : CaseFeatures),
        (_calculate_optimization_potential (pre ++ post) cf
         <= _calculate_optimization_potential (pre ++ f :: post) cf)%Q)
  /\ (forall cf : CaseFeatures,
        exists labels,
          label_case_inefficiencies init cf = Ok labels
          /\ optimization_potential labels
             = _calculate_optimization_potential (inefficiencies labels) cf
          /\ (0 <= optimization_potential labels)%Q
          /\ (optimization_potential labels <= 80)%Q).
Proof.
  split; [exact potential_bounds |]. split.
  - intros pre post f cf.
    assert (H := potential_fold_insert pre post f).
    unfold _calculate_optimization_potential.
    destruct (pre ++ f :: post) as [| h t] eqn:E2; [by destruct pre |].
    destruct (pre ++ post) as [| g gs] eqn:E1.
    + apply min_nonneg; [apply potential_fold_ge | lra].
    + apply min_mono. exact H.
  - intros cf. rewrite label_case_inefficiencies_eq. cbv zeta.
    eexists. split; [reflexivity |]. cbn [optimization_potential inefficiencies].
    split; [reflexivity |]. apply potential_bounds.
Qed.

(** The count of findings alone does not order the potential: one
    domestic-duration finding outweighs a rejection finding together with
    a complexity finding. *)
Lemma potential_not_ordered_by_count :
  let f t := {| type_ := t; severity := "medium"; actual_value := 0;
                details := []; framework_violation := ∅ |} in
  forall cf,
    (_calculate_optimization_potential
       [f "excessive_rejections"; f "process_complexity"] cf
     < _calculate_optimization_potential [f "excessive_duration_domestic"] cf)%Q.
Proof. intros f cf. vm_compute. reflexivity. Qed.

(** *** No violation, no finding *)

(** C1: a case whose duration is within the normal-range ceiling of its
    kind, whose approval time is absent or at most 30, with at most 2
    rejections and at most 20 activities, gets no finding, severity score
    0 and optimization potential 0. *)
Theorem C1_no_violation_no_findings (cf : CaseFeatures) (ceiling : Q) :
  normal_duration_ceiling init (is_international cf) = Ok ceiling ->
  (total_duration_days cf <= ceiling)%Q ->
  match approval_time_days cf with
  | None => True
  | Some a => (a <= 30)%Q
  end ->
  rejection_count cf <= 2 ->
  activity_count cf <= 20 ->
  label_case_inefficiencies init cf
  = Ok {| inefficiencies := [];
          severity_score := 0;
          total_inefficiency_count := 0;
          optimization_potential := 0 |}.
Proof.
  intros Hc Hd Ha Hr Hn.
  assert (Hd' : (total_duration_days cf <= (if is_international cf then 150 else 20))%Q).
  { destruct (is_international cf); vm_compute in Hc;
      injection Hc as <-; (eapply Qle_trans; [exact Hd | discriminate]). }
  rewrite label_case_inefficiencies_eq.
  destruct (duration_silent cf Hd') as [-> ->].
  destruct (approval_silent cf Ha) as [-> ->].
  destruct (rejection_silent cf Hr) as [-> ->].
  destruct (complexity_silent cf Hn) as [-> ->].
  reflexivity.
Qed.

Lemma C1_no_violation_no_findings_witness :
  label_case_inefficiencies init quiet_case
  = Ok {| inefficiencies := []; severity_score := 0;
          total_inefficiency_count := 0; optimization_potential := 0 |}.
Proof.
  apply (C1_no_violation_no_findings quiet_case 11).
  - vm_compute. reflexivity.
  - vm_compute. discriminate.
  - vm_compute. discriminate.
  - vm_compute. discriminate.
  - vm_compute. discriminate.
Defined.

(** *** The severity bucket *)

(** C3: the severity level is "high" exactly from score 5 on, "medium"
    exactly for scores 2, 3 and 4, and "low" exactly below 2; the training
    label of a case carries the level of its severity score. *)
Theorem C3_severity_level_buckets :
  (forall s : Z,
     (severity_level s = "high" <-> 5 <= s)
     /\ (severity_level s = "medium" <-> 2 <= s < 5)
     /\ (severity_level s = "low" <-> s < 2))
  /\ (forall cf : CaseFeatures,
        exists lc,
          label_row init cf = Ok lc
          /\ tl_severity_level (lc_training_label lc)
             = severity_level (severity_score (lc_inefficiency_labels lc))).
Proof.
  split.
  - intros s. unfold severity_level.
    destruct (Z.geb_spec s 5), (Z.geb_spec s 2);
      repeat split; intros; try discriminate; try lia; reflexivity.
  - intros cf. unfold label_row. rewrite label_case_inefficiencies_eq.
    cbv zeta. run. eexists. split; reflexivity.
Qed.

(** *** A worked international case *)

(** C4: the international case with duration 220, approval time 60, four
    rejections and 25 activities is labelled with exactly four findings
    (international duration, high; supervisor bottleneck, high; excessive
    rejections, high; process complexity, medium), severity score 9,
    level "high" and optimization potential 80, the cap on
    30 + 45.3 + 20 + 15. *)
Theorem C4_international_scenario :
  forall (id : string) (unique : Z) (rejected : bool),
    let cf := {| case_id := id; total_duration_days := 220; activity_count := 25;
                 unique_activities := unique; has_rejections := rejected;
                 rejection_count := 4; is_international := true;
                 approval_time_days := Some 60%Q |} in
    exists lc,
      label_dataset init [cf] = Ok [lc]
      /\ label_case_inefficiencies init cf = Ok (lc_inefficiency_labels lc)
      /\ map (fun f => (type_ f, severity f))
             (inefficiencies (lc_inefficiency_labels lc))
         = [ ("excessive_duration_international", "high");
             ("supervisor_approval_bottleneck", "high");
             ("excessive_rejections", "high");
             ("process_complexity", "medium") ]
      /\ severity_score (lc_inefficiency_labels lc) = 9
      /\ tl_severity_level (lc_training_label lc) = "high"
      /\ optimization_potential (lc_inefficiency_labels lc) = 80%Q
      /\ tl_optimization_potential_percent (lc_training_label lc) = 80%Q
      /\ (fold_left add_potential (inefficiencies (lc_inefficiency_labels lc)) 0
          == 30 + 45.3 + 20 + 15)%Q.
Proof.
  intros id unique rejected cf. subst cf.
  unfold label_dataset, label_row.
  rewrite label_case_inefficiencies_eq. cbv zeta. run.
  eexists. split; [reflexivity |].
  cbn [lc_inefficiency_labels lc_training_label inefficiencies severity_score
       optimization_potential tl_severity_level tl_optimization_potential_percent].
  repeat split; vm_compute; reflexivity.
Qed.

(** *** The approval-bottleneck rule *)

(** C7: when [approval_time_days] is present and above 30, the labeler
    emits exactly one supervisor_approval_bottleneck finding, "high" above
    50 and "medium" otherwise, and the severity score is 3 more than that of
    the same case without an approval time; when it is absent or at most
    30, no such finding is emitted. *)
Theorem C7_supervisor_approval_bottleneck (cf : CaseFeatures) :
  exists labels base,
    label_case_inefficiencies init cf = Ok labels
    /\ label_case_inefficiencies init (with_approval_time cf None) = Ok base
    /\ (forall a,
          approval_time_days cf = Some a -> (30 < a)%Q ->
          exists pre post f,
            inefficiencies labels = pre ++ f :: post
            /\ inefficiencies base = pre ++ post
            /\ count_type supervisor (pre ++ post) = 0%nat
            /\ count_type supervisor (inefficiencies labels) = 1%nat
            /\ type_ f = supervisor
            /\ ((50 < a)%Q -> severity f = "high")
            /\ ((a <= 50)%Q -> severity f = "medium")
            /\ severity_score labels = severity_score base + 3)
    /\ ((approval_time_days cf = None
         \/ exists a, approval_time_days cf = Some a /\ (a <= 30)%Q) ->
        count_type supervisor (inefficiencies labels) = 0%nat).
Proof.
  rewrite !label_case_inefficiencies_eq. cbv zeta.
  do 2 eexists. split; [reflexivity |]. split; [reflexivity |].
  cbn [inefficiencies severity_score].
  destruct (duration_ignores_approval cf None) as [-> ->].
  destruct (rejection_ignores_approval cf None) as [-> ->].
  destruct (complexity_ignores_approval cf None) as [-> ->].
  destruct (approval_silent (with_approval_time cf None) I) as [-> ->].
  assert (Hd : count_type supervisor (duration_findings cf) = 0%nat).
  { eapply count_type_other; [apply duration_types |].
    intros f [E | E]; rewrite E; discriminate. }
  assert (Hr : count_type supervisor (rejection_findings cf) = 0%nat).
  { eapply count_type_other; [apply rejection_types |].
    intros f E; rewrite E; discriminate. }
  assert (Hc : count_type supervisor (complexity_findings cf) = 0%nat).
  { eapply count_type_other; [apply complexity_types |].
    intros f E; rewrite E; discriminate. }
  split.
  - intros a Ha Hgt.
    destruct (approval_fires cf a Ha Hgt) as (f & -> & -> & Ht & Hs & _).
    exists (duration_findings cf),
           (rejection_findings cf ++ complexity_findings cf), f.
    assert (Hf : count_type supervisor [f] = 1%nat).
    { unfold count_type. rewrite filter_cons.
      destruct (decide (type_ f = supervisor)); [reflexivity | contradiction]. }
    repeat split.
    + rewrite !count_type_app, Hd, Hr, Hc. reflexivity.
    + rewrite !count_type_app, Hd, Hf, Hr, Hc. reflexivity.
    + exact Ht.
    + intros H%Qgtb_true. by rewrite Hs, H.
    + intros H%Qgtb_false. by rewrite Hs, H.
    + lia.
  - intros Hno.
    assert (Ha : match approval_time_days cf with
                 | None => True
                 | Some a => (a <= 30)%Q
                 end).
    { destruct Hno as [-> | (a & -> & H)]; [exact I | exact H]. }
    destruct (approval_silent cf Ha) as [-> _].
    rewrite !count_type_app, Hd, Hr, Hc. reflexivity.
Qed.

Lemma C7_supervisor_approval_bottleneck_witness :
  exists labels,
    label_case_inefficiencies init slow_approval_case = Ok labels
    /\ count_type supervisor (inefficiencies labels) = 1%nat
    /\ severity_score labels = 3.
Proof.
  destruct (C7_supervisor_approval_bottleneck slow_approval_case)
    as (labels & base & Hl & Hb & Hfire & _).
  exists labels. split; [exact Hl |].
  destruct (Hfire 42%Q eq_refl eq_refl)
    as (pre & post & f & _ & _ & _ & Hone & _ & _ & _ & Hscore).
  split; [exact Hone |].
  rewrite Hscore.
  assert (E : Ok base = Ok {| inefficiencies := []; severity_score := 0;
                              total_inefficiency_count := 0;
                              optimization_potential := 0 |}).
  { rewrite <- Hb. vm_compute. reflexivity. }
  injection E as ->. reflexivity.
Defined.

(** *** The findings the labeler can emit *)

(** C10: whatever the case, every finding the labeler emits has one of
    the five types excessive_duration_international,
    excessive_duration_domestic, supervisor_approval_bottleneck,
    excessive_rejections and process_complexity; director_approval_bottleneck
    and late_submission are never emitted, although the threshold table,
    the framework mappings and both recommendation tables have entries for
    them. *)
Theorem C10_emitted_finding_types :
  (forall cf : CaseFeatures,
     exists labels,
       label_case_inefficiencies init cf = Ok labels
       /\ Forall (fun f => type_ f ∈ emitted_types) (inefficiencies labels)
       /\ count_type "director_approval_bottleneck" (inefficiencies labels) = 0%nat
       /\ count_type "late_submission" (inefficiencies labels) = 0%nat)
  /\ is_Some (thresholds init !! "director_approval_bottleneck")
  /\ is_Some (thresholds init !! "late_submission_days")
  /\ is_Some (framework_mappings init !! "director_approval_bottleneck")
  /\ is_Some (framework_mappings init !! "late_submission")
  /\ is_Some (recommendations !! "director_approval_bottleneck")
  /\ is_Some (recommendations !! "late_submission")
  /\ is_Some (improvements !! "director_approval_bottleneck")
  /\ is_Some (improvements !! "late_submission").
Proof.
  split.
  - intros cf. rewrite label_case_inefficiencies_eq. cbv zeta.
    eexists. split; [reflexivity |]. cbn [inefficiencies].
    assert (H : Forall (fun f => type_ f ∈ emitted_types)
                  (duration_findings cf ++ approval_findings cf
                   ++ rejection_findings cf ++ complexity_findings cf)).
    { rewrite !Forall_app. unfold emitted_types. repeat split.
      - eapply Forall_impl; [apply duration_types |].
        intros f [-> | ->]; set_solver.
      - eapply Forall_impl; [apply approval_types |].
        intros f ->. unfold supervisor. set_solver.
      - eapply Forall_impl; [apply rejection_types |].
        intros f ->; set_solver.
      - eapply Forall_impl; [apply complexity_types |].
        intros f ->; set_solver. }
    split; [exact H |].
    split; (eapply count_type_other; [exact H |]);
      intros f Hf E; cbv beta in Hf; rewrite E in Hf; unfold emitted_types in Hf;
      repeat (apply elem_of_cons in Hf as [Hf | Hf]; [discriminate Hf |]);
      by apply elem_of_nil in Hf.
  - repeat split; vm_compute; eauto.
Qed.

(** *** The recommendation generator *)

(** The keys of the two recommendation tables: the six enumerated types
    and late_submission. *)
Lemma recommendation_keys :
  forall t : string,
    t ∉ enumerated_types -> t <> "late_submission" ->
    recommendations !! t = None /\ improvements !! t = None.
Proof.
  intros t Hout Hlate. unfold recommendations, improvements, enumerated_types in *.
  rewrite !not_elem_of_cons in Hout.
  split; apply not_elem_of_list_to_map_1; cbn [fmap list_fmap fst];
    rewrite !not_elem_of_cons; intuition (eauto using not_elem_of_nil).
Qed.

(** C6, as stated, fails: late_submission lies outside the six-type
    enumeration, yet both tables map it, so it does not get the default
    pair. *)
Lemma C6_late_submission_is_mapped :
  ~ (forall t : string,
       t ∉ enumerated_types ->
       _get_recommendation t = default_recommendation
       /\ _get_expected_improvement t = default_improvement).
Proof.
  intros H. destruct (H "late_submission") as [E _].
  - unfold enumerated_types. intros Hin.
    repeat (apply elem_of_cons in Hin as [Hin | Hin]; [discriminate Hin |]).
    by apply elem_of_nil in Hin.
  - vm_compute in E. discriminate E.
Qed.

(** C6, amended: every enumerated finding type gets a non-empty
    recommendation and a non-empty expected improvement, and every type
    that is neither enumerated nor late_submission gets the default pair. *)
Theorem C6_recommendation_lookup (t : string) :
  (t ∈ enumerated_types ->
     _get_recommendation t <> "" /\ _get_expected_improvement t <> "")
  /\ (t ∉ enumerated_types -> t <> "late_submission" ->
       _get_recommendation t = default_recommendation
       /\ _get_expected_improvement t = default_improvement).
Proof.
  split.
  - unfold enumerated_types. intros Hin.
    repeat (apply elem_of_cons in Hin as [-> | Hin];
            [split; vm_compute; discriminate |]).
    by apply elem_of_nil in Hin.
  - intros Hout Hlate.
    destruct (recommendation_keys t Hout Hlate) as [Hr Hi].
    unfold _get_recommendation, _get_expected_improvement, Py.get.
    rewrite Hr, Hi. split; reflexivity.
Qed.

Lemma C6_recommendation_lookup_witness :
  (_get_recommendation "process_complexity" <> ""
   /\ _get_expected_improvement "process_complexity" <> "")
  /\ (_get_recommendation "budget_overrun" = default_recommendation
      /\ _get_expected_improvement "budget_overrun" = default_improvement).
Proof.
  split.
  - apply (C6_recommendation_lookup "process_complexity").
    unfold enumerated_types. set_solver.
  - apply (C6_recommendation_lookup "budget_overrun").
    + unfold enumerated_types. intros Hin.
      repeat (apply elem_of_cons in Hin as [Hin | Hin]; [discriminate Hin |]).
      by apply elem_of_nil in Hin.
    + discriminate.
Defined.

End LabellingSpec.

(** ** Properties of the feature extractor *)

Module ExplorationSpec.
Import Exploration.

(** What the extractor computes: the rejection features count the
    activity names that contain the upper-case text REJECT. *)
Lemma rejection_features dataset_name df case_id :
  let f := case_features dataset_name df case_id in
  (has_rejections f = true
   <-> exists act, act ∈ activities_sequence f /\ contains "REJECT" act = true)
  /\ rejection_count f
     = Z.of_nat (length (filter (fun act => contains "REJECT" act = true)
                                (activities_sequence f)))
  /\ has_rejections f = (0 <? rejection_count f).
Proof.
  cbv zeta. unfold case_features.
  cbn [has_rejections rejection_count activities_sequence].
  set (names := map concept_name _).
  split; [| split; [reflexivity |]].
  - rewrite existsb_exists. split; intros (act & Hin & Hact); exists act;
      (split; [by apply list_elem_of_In | exact Hact]).
  - induction names as [| act names IH]; [reflexivity |].
    cbn [existsb]. rewrite filter_cons.
    destruct (contains "REJECT" act) eqn:E.
    + rewrite decide_True by reflexivity. cbn [length orb].
      symmetry. apply Z.ltb_lt. lia.
    + rewrite decide_False by discriminate. exact IH.
Qed.

(** Lower-casing keeps prefixes and substrings, so every name the
    extractor counts also matches the case-insensitive wording. *)
Lemma prefix_lower p : forall s,
  String.prefix p s = true -> String.prefix (lower p) (lower s) = true.
Proof.
  induction p as [| a p IH]; intros s H; [by destruct s |].
  destruct s as [| b s]; [discriminate H |].
  cbn [String.prefix lower] in *.
  destruct (ascii_dec a b) as [-> | Hne]; [| discriminate H].
  destruct (ascii_dec (lower_ascii b) (lower_ascii b)); [| contradiction].
  by apply IH.
Qed.

Lemma contains_lower p : forall s,
  contains p s = true -> contains (lower p) (lower s) = true.
Proof.
  induction s as [| b s IH]; cbn [contains lower]; intros H.
  - apply orb_true_iff in H as [H | H]; [| discriminate H].
    apply (prefix_lower p "") in H. cbn [lower] in H. by rewrite H.
  - apply orb_true_iff in H as [H | H].
    + apply (prefix_lower p (String b s)) in H. cbn [lower] in H. by rewrite H.
    + rewrite (IH H). apply orb_true_r.
Qed.

Lemma counted_names_match act :
  contains "REJECT" act = true -> spec_is_rejection act = true.
Proof.
  intros H. unfold spec_is_rejection.
  apply (contains_lower "REJECT") in H.
  change (lower "REJECT") with (lower "reject") in H.
  by rewrite H.
Qed.

(** C5, evaluated on the code: for a case with a lower-case "declined"
    event and a mixed-case "Rejected" event, two activity names match
    "reject"/"declined" without regard to case (and match the pattern of
    [identify_bottlenecks]), yet the extractor sets [has_rejections] to
    false and [rejection_count] to 0. *)
Theorem C5_rejections_are_matched_case_sensitively :
  let event a t :=
    {| case_concept_name := "declaration 1"; concept_name := a; time_timestamp := t |} in
  let explorer :=
    {| datasets := {[ "domestic_declarations" :=
         [ event "Declaration SUBMITTED by EMPLOYEE" 0%Q;
           event "Declaration declined by SUPERVISOR" 86400%Q;
           event "Declaration Rejected by ADMINISTRATION" 172800%Q ] ]} |} in
  exists f,
    extract_training_features explorer "domestic_declarations" = Some [f]
    /\ has_rejections f = false
    /\ rejection_count f = 0
    /\ spec_has_rejections (activities_sequence f) = true
    /\ spec_rejection_count (activities_sequence f) = 2
    /\ existsb rejection_pattern (activities_sequence f) = true.
Proof.
  cbv zeta. eexists. split; [vm_compute; reflexivity |].
  repeat split; vm_compute; reflexivity.
Qed.

End ExplorationSpec.

(** ** Facts about the validator *)

Module ValidatorFacts.
Import Validator.

(** *** Invariants of computations that may fail *)

Section Invariants.
Context {S : Type} (P : S -> Prop).

Lemma preserves_ret {A} (a : A) : preserves P (mret a : SE S A).
Proof. intros s H. exact H. Qed.

Lemma preserves_lift {A} (r : result A) : preserves P (lift r).
Proof. intros s H. exact H. Qed.

Lemma preserves_modify (f : S -> S) :
  (forall s, P s -> P (f s)) -> preserves P (modify f).
Proof. intros Hf s H. by apply Hf. Qed.

Lemma preserves_bind {A B} (m : SE S A) (f : A -> SE S B) :
  preserves P m -> (forall a, preserves P (f a)) -> preserves P (m ≫= f).
Proof.
  intros Hm Hf s H. specialize (Hm s H).
  unfold mbind, SE_bind. destruct (m s) as [[a | e] s']; cbn [snd] in *.
  - by apply Hf.
  - exact Hm.
Qed.

Lemma preserves_try {A} (body : SE S A) (handler : exn -> SE S A) :
  preserves P body -> (forall e, preserves P (handler e)) ->
  preserves P (try_ body handler).
Proof.
  intros Hb Hh s H. specialize (Hb s H).
  unfold try_. destruct (body s) as [[a | e] s']; cbn [snd] in *.
  - exact Hb.
  - by apply Hh.
Qed.
End Invariants.

(** *** Dictionaries filled by a loop over distinct keys *)

Section Loops.
Context {V : Type} (entry : string -> V) (step : gmap string V -> string -> gmap string V).
Hypothesis step_insert : forall d k, step d k = <[k := entry k]> d.

Lemma loop_lookup keys : forall (d : gmap string V) (k : string),
  fold_left step keys d !! k
  = if decide (k ∈ keys) then Some (entry k) else d !! k.
Proof.
  induction keys as [| a keys IH]; intros d k; cbn [fold_left].
  - rewrite decide_False by apply not_elem_of_nil. reflexivity.
  - rewrite IH, step_insert.
    destruct (decide (k ∈ keys)) as [Hin | Hout].
    + rewrite decide_True by (by apply list_elem_of_further). reflexivity.
    + destruct (decide (a = k)) as [-> | Hne].
      * rewrite decide_True by apply list_elem_of_here.
        by rewrite lookup_insert_eq.
      * rewrite decide_False by (intros [E | E]%elem_of_cons; [by symmetry in E | done]).
        by rewrite lookup_insert_ne.
Qed.

Lemma count_values_insert (p : V -> bool) (d : gmap string V) k v :
  d !! k = None ->
  count_values p (<[k := v]> d) = bool_to_Z (p v) + count_values p d.
Proof.
  intros Hk. unfold count_values.
  rewrite (map_to_list_insert d k v Hk). cbn [fmap list_fmap snd].
  rewrite filter_cons. destruct (p v).
  - rewrite decide_True by reflexivity. cbn [length bool_to_Z]. lia.
  - rewrite decide_False by discriminate. reflexivity.
Qed.

Lemma count_values_loop (p : V -> bool) keys : forall d : gmap string V,
  NoDup keys -> (forall k, k ∈ keys -> d !! k = None) ->
  count_values p (fold_left step keys d)
  = Z.of_nat (length (filter (fun k => p (entry k) = true) keys))
    + count_values p d.
Proof.
  induction keys as [| a keys IH]; intros d Hnd Hfresh; cbn [fold_left].
  - reflexivity.
  - apply NoDup_cons in Hnd as [Ha Hnd].
    rewrite IH, step_insert; [| exact Hnd |].
    + rewrite count_values_insert by apply Hfresh, list_elem_of_here.
      rewrite filter_cons. destruct (p (entry a)).
      * rewrite decide_True by reflexivity. cbn [length bool_to_Z]. lia.
      * rewrite decide_False by discriminate. cbn [bool_to_Z]. lia.
    + intros k Hk. rewrite step_insert, lookup_insert_ne.
      * by apply Hfresh, list_elem_of_further.
      * intros ->. contradiction.
Qed.
End Loops.

Lemma count_values_empty {V} (p : V -> bool) : count_values p (∅ : gmap string V) = 0.
Proof. unfold count_values. by rewrite map_to_list_empty. Qed.

Lemma check_table_insert aws d k :
  check_table aws d k = <[k := table_active aws k]> d.
Proof.
  unfold check_table, table_active.
  destruct (describe_table aws k) as [status | e]; [| reflexivity].
  by destruct (status =? "ACTIVE")%string.
Qed.

Lemma check_file_insert aws with_time d k :
  check_file aws with_time d k = <[k := file_entry aws with_time k]> d.
Proof.
  unfold check_file, file_entry.
  by destruct (head_object aws bucket k).
Qed.

Lemma file_entry_exists aws with_time k :
  exists_ (file_entry aws with_time k) = file_exists aws k.
Proof. unfold file_entry, file_exists. by destruct (head_object aws bucket k). Qed.

Lemma NoDup_required_tables : NoDup required_tables.
Proof. apply (bool_decide_unpack _). vm_compute. exact I. Qed.

Lemma NoDup_all_files : NoDup all_files.
Proof. apply (bool_decide_unpack _). vm_compute. exact I. Qed.

(** *** The category scores are percentages *)

Lemma filter_length_le {A} (P : A -> Prop) `{forall x, Decision (P x)} (l : list A) :
  (length (filter P l) <= length l)%nat.
Proof.
  induction l as [| x l IH]; [reflexivity |].
  rewrite filter_cons. destruct (decide (P x)); cbn [length]; lia.
Qed.

Lemma tables_active_count aws :
  count_values (fun table : bool => table)
               (fold_left (check_table aws) required_tables ∅)
  = Z.of_nat (length (filter (fun k => table_active aws k = true) required_tables)).
Proof.
  rewrite (count_values_loop (table_active aws) (check_table aws)
             (check_table_insert aws) (fun table => table) required_tables ∅
             NoDup_required_tables (fun k _ => lookup_empty k)).
  rewrite count_values_empty. lia.
Qed.

Lemma files_existing_count aws with_time keys :
  NoDup keys ->
  count_values exists_ (fold_left (check_file aws with_time) keys ∅)
  = Z.of_nat (length (filter (fun k => file_exists aws k = true) keys)).
Proof.
  intros Hnd.
  rewrite (count_values_loop (file_entry aws with_time) (check_file aws with_time)
             (check_file_insert aws with_time) exists_ keys ∅
             Hnd (fun k _ => lookup_empty k)).
  rewrite count_values_empty, Z.add_0_r. f_equal. f_equal.
  induction keys as [| k keys IH]; [reflexivity |].
  apply NoDup_cons in Hnd as [_ Hnd].
  rewrite !filter_cons, file_entry_exists, (IH Hnd). reflexivity.
Qed.

Lemma NoDup_file_lists :
  NoDup training_files /\ NoDup framework_files /\ NoDup validation_files.
Proof.
  repeat split; apply (bool_decide_unpack _); vm_compute; exact I.
Qed.

(** The number of files the data check found. *)
Lemma existing_files_count aws :
  count_values exists_ (training_data (data_checks aws))
  + count_values exists_ (framework_knowledge_files (data_checks aws))
  + count_values exists_ (validation_data (data_checks aws))
  = Z.of_nat (length (filter (fun k => file_exists aws k = true) all_files)).
Proof.
  destruct NoDup_file_lists as (Ht & Hf & Hv).
  unfold data_checks; cbn [training_data framework_knowledge_files validation_data].
  rewrite !files_existing_count by assumption.
  unfold all_files. rewrite !filter_app, !length_app. lia.
Qed.

Lemma data_quality_score_eq aws :
  data_quality_score (data_checks aws)
  = (inject_Z (Z.of_nat (length (filter (fun k => file_exists aws k = true) all_files)))
     / 13 * 100)%Q.
Proof.
  rewrite <- existing_files_count. reflexivity.
Qed.

Lemma infrastructure_score_eq aws :
  infrastructure_score (Some (infrastructure_checks aws))
  = (let infra_score := 0 in
     let infra_score :=
       if s3_bucket (infrastructure_checks aws) then infra_score + 25 else infra_score in
     let infra_score :=
       infra_score
       + inject_Z (Z.of_nat (length (filter (fun k => table_active aws k = true)
                                            required_tables))) / 4 * 50 in
     if bedrock_access (infrastructure_checks aws) then infra_score + 25
     else infra_score)%Q.
Proof.
  unfold infrastructure_score.
  cbn [dynamodb_tables infrastructure_checks].
  rewrite tables_active_count. reflexivity.
Qed.

(** Linear arithmetic with divisions by constants. *)
Ltac lra_div :=
  unfold Qdiv in *;
  repeat match goal with
         | |- context [Qinv (Qmake ?n ?d)] =>
             let r := eval vm_compute in (Qinv (Qmake n d)) in
             change (Qinv (Qmake n d)) with r
         end;
  lra.

Lemma inject_nat_bounds (n m : nat) :
  (n <= m)%nat -> (0 <= inject_Z (Z.of_nat n))%Q /\ (inject_Z (Z.of_nat n) <= inject_Z (Z.of_nat m))%Q.
Proof.
  intros H. split.
  - rewrite <- (Zle_Qle 0). lia.
  - rewrite <- Zle_Qle. lia.
Qed.

Lemma infrastructure_score_percentage aws :
  percentage (infrastructure_score (Some (infrastructure_checks aws))).
Proof.
  rewrite infrastructure_score_eq. cbv zeta.
  destruct (inject_nat_bounds _ _
              (filter_length_le (fun k => table_active aws k = true) required_tables))
    as [H0 H4].
  change (inject_Z (Z.of_nat (length required_tables))) with 4%Q in H4.
  revert H0 H4. generalize (inject_Z (Z.of_nat (length
    (filter (fun k => table_active aws k = true) required_tables)))).
  intros active H0 H4. unfold percentage.
  destruct (s3_bucket _), (bedrock_access _); split; lra_div.
Qed.

Lemma data_quality_score_percentage aws :
  percentage (data_quality_score (data_checks aws)).
Proof.
  rewrite data_quality_score_eq.
  destruct (inject_nat_bounds _ _
              (filter_length_le (fun k => file_exists aws k = true) all_files))
    as [H0 H13].
  change (inject_Z (Z.of_nat (length all_files))) with 13%Q in H13.
  revert H0 H13. generalize (inject_Z (Z.of_nat (length
    (filter (fun k => file_exists aws k = true) all_files)))).
  intros existing H0 H13. unfold percentage. split; lra_div.
Qed.

Lemma criteria_met_bounds criteria : forall acc,
  acc <= fold_left (fun acc b => acc + bool_to_Z b) criteria acc
         <= acc + Z.of_nat (length criteria).
Proof.
  induction criteria as [| b criteria IH]; intros acc; cbn [fold_left length].
  - lia.
  - specialize (IH (acc + bool_to_Z b)). destruct b; cbn [bool_to_Z] in *; lia.
Qed.

Lemma criteria_score_percentage criteria :
  criteria <> [] -> percentage (criteria_score criteria).
Proof.
  intros Hne. unfold criteria_score. cbv zeta.
  pose proof (criteria_met_bounds criteria 0) as [Hlo Hhi].
  set (met := fold_left _ criteria 0) in *.
  set (n := Z.of_nat (length criteria)) in *.
  assert (Hn : (0 < inject_Z n)%Q).
  { rewrite <- (Zlt_Qlt 0). subst n. destruct criteria; [done | cbn [length]; lia]. }
  assert (H0 : (0 <= inject_Z met / inject_Z n)%Q).
  { apply Qle_shift_div_l; [exact Hn |]. rewrite Qmult_0_l, <- (Zle_Qle 0). exact Hlo. }
  assert (H1 : (inject_Z met / inject_Z n <= 1)%Q).
  { apply Qle_shift_div_r; [exact Hn |]. rewrite Qmult_1_l, <- Zle_Qle. lia. }
  revert H0 H1. generalize (inject_Z met / inject_Z n)%Q.
  intros ratio H0 H1. unfold percentage. split; lra.
Qed.

Lemma percentage_0 : percentage 0.
Proof. unfold percentage. split; lra. Qed.

(** The framework and research scores stay percentages through their
    [try] statements, whether a step fails or not. *)
Ltac step_by_step :=
  repeat first
    [ apply preserves_bind; [| intros ?]
    | apply preserves_lift
    | apply preserves_ret
    | apply preserves_modify; intros ? ?; cbn; try assumption ].

Lemma knowledge_completeness_score_percentage aws :
  percentage (knowledge_completeness_score (framework_checks aws)).
Proof.
  unfold framework_checks.
  apply (preserves_try (fun r => percentage (knowledge_completeness_score r)));
    [| intros e; apply preserves_modify; intros s H; exact H | exact percentage_0].
  unfold framework_knowledge_body. step_by_step.
  by apply criteria_score_percentage.
Qed.

Lemma compliance_score_percentage aws :
  percentage (compliance_score (research_checks aws)).
Proof.
  unfold research_checks.
  apply (preserves_try (fun r => percentage (compliance_score r)));
    [| intros e; apply preserves_modify; intros s H; exact H | exact percentage_0].
  unfold research_compliance_body. step_by_step.
  by apply criteria_score_percentage.
Qed.

End ValidatorFacts.

(** ** One query fails *)

Module FailureFacts.
Import Validator ValidatorFacts.

(** What a failing query changes in the loops. *)
Lemma table_active_failing aws n e k :
  table_active (failing (TableQuery n) e aws) k
  = if (k =? n)%string then false else table_active aws k.
Proof.
  unfold table_active, failing; cbn [describe_table].
  by destruct (k =? n)%string.
Qed.

Lemma file_exists_failing aws n e k :
  file_exists (failing (ObjectQuery n) e aws) k
  = if (k =? n)%string then false else file_exists aws k.
Proof.
  unfold file_exists, failing; cbn [head_object].
  by destruct (k =? n)%string.
Qed.

(** The checks that do not issue the query are unchanged. *)
Lemma framework_checks_failing aws q e :
  framework_checks (failing q e aws) = framework_checks aws.
Proof. reflexivity. Qed.

Lemma research_checks_failing aws q e :
  research_checks (failing q e aws) = research_checks aws.
Proof. reflexivity. Qed.

Lemma data_checks_failing aws q e :
  category_of q = "Infrastructure" ->
  data_checks (failing q e aws) = data_checks aws.
Proof.
  destruct q; intros H;
    [reflexivity | reflexivity | reflexivity | cbn in H; discriminate H].
Qed.

Lemma infrastructure_checks_failing aws file_path e :
  infrastructure_checks (failing (ObjectQuery file_path) e aws)
  = infrastructure_checks aws.
Proof. reflexivity. Qed.

(** Counting the keys that pass a weaker test. *)
Lemma count_le (g h : string -> bool) (keys : list string) :
  (forall k, g k = true -> h k = true) ->
  (length (filter (fun k => g k = true) keys)
   <= length (filter (fun k => h k = true) keys))%nat.
Proof.
  intros Hgh. induction keys as [| k keys IH]; [reflexivity |].
  rewrite !filter_cons.
  destruct (g k) eqn:Eg.
  - rewrite (Hgh k Eg), !decide_True by reflexivity. cbn [length]. lia.
  - rewrite (decide_False (P := false = true)) by discriminate.
    destruct (decide (h k = true)); cbn [length]; lia.
Qed.

Lemma count_lt (g h : string -> bool) (keys : list string) (k0 : string) :
  (forall k, g k = true -> h k = true) ->
  k0 ∈ keys -> g k0 = false -> h k0 = true ->
  (length (filter (fun k => g k = true) keys)
   < length (filter (fun k => h k = true) keys))%nat.
Proof.
  intros Hgh Hin Hg Hh. induction keys as [| k keys IH]; [by apply elem_of_nil in Hin |].
  rewrite !filter_cons.
  apply elem_of_cons in Hin as [<- | Hin].
  - rewrite Hg, Hh.
    rewrite (decide_False (P := false = true)) by discriminate.
    rewrite (decide_True (P := true = true)) by reflexivity.
    cbn [length]. pose proof (count_le g h keys Hgh). lia.
  - specialize (IH Hin). destruct (g k) eqn:Eg.
    + rewrite (Hgh k Eg), !decide_True by reflexivity. cbn [length]. lia.
    + rewrite (decide_False (P := false = true)) by discriminate.
      destruct (decide (h k = true)); cbn [length]; lia.
Qed.

Lemma inject_nat_le (n m : nat) :
  (n <= m)%nat -> (inject_Z (Z.of_nat n) <= inject_Z (Z.of_nat m))%Q.
Proof. intros H. rewrite <- Zle_Qle. lia. Qed.

Lemma inject_nat_lt (n m : nat) :
  (n < m)%nat -> (inject_Z (Z.of_nat n) < inject_Z (Z.of_nat m))%Q.
Proof. intros H. rewrite <- Zlt_Qlt. lia. Qed.

(** What the dictionaries record for a key. *)
Lemma tables_lookup aws k :
  k ∈ required_tables ->
  dynamodb_tables (infrastructure_checks aws) !! k = Some (table_active aws k).
Proof.
  intros Hin. unfold infrastructure_checks; cbn [dynamodb_tables].
  rewrite (loop_lookup (table_active aws) (check_table aws) (check_table_insert aws)).
  by rewrite decide_True.
Qed.

Lemma files_lookup aws k :
  k ∈ all_files ->
  exists_ <$> (training_data (data_checks aws)
               ∪ framework_knowledge_files (data_checks aws)
               ∪ validation_data (data_checks aws)) !! k
  = Some (file_exists aws k).
Proof.
  intros Hin. unfold data_checks;
    cbn [training_data framework_knowledge_files validation_data].
  rewrite !lookup_union.
  rewrite !(loop_lookup (file_entry aws _) (check_file aws _) (check_file_insert aws _)).
  rewrite !lookup_empty.
  unfold all_files in Hin. rewrite !elem_of_app in Hin.
  destruct (decide (k ∈ training_files)), (decide (k ∈ framework_files)),
    (decide (k ∈ validation_files));
    cbn; rewrite ?file_entry_exists; try reflexivity.
  by destruct Hin as [? | [? | ?]].
Qed.

End FailureFacts.

(** ** Properties of the deployment validator *)

Module ValidatorSpec.
Import Validator ValidatorFacts FailureFacts.

(** The validation always returns: no check makes it raise, the handler
    of [run_full_validation] is never entered, and the returned dictionary
    holds the four category results and the scores computed from them. *)
Lemma run_full_validation_returns aws r :
  exists results,
    run_full_validation aws r = (Ok results, results)
    /\ infrastructure results = Some (infrastructure_checks aws)
    /\ data_validation results = Some (data_checks aws)
    /\ framework_knowledge results = Some (framework_checks aws)
    /\ research_compliance results = Some (research_checks aws)
    /\ overall_score results = weighted_sum (category_scores results)
    /\ component_scores results
       = [ ("Infrastructure", infrastructure_score (Some (infrastructure_checks aws)));
           ("Data Quality", data_quality_score (data_checks aws));
           ("Framework Knowledge", knowledge_completeness_score (framework_checks aws));
           ("Research Compliance", compliance_score (research_checks aws)) ]
    /\ validation_error results = validation_error r.
Proof. eexists. repeat split. Qed.

Lemma weighted_sum_eq (n1 n2 n3 n4 : string) (a b c d : Q) :
  (weighted_sum [ (n1, a, 0.25); (n2, b, 0.20); (n3, c, 0.25); (n4, d, 0.30) ]
   == 0.25 * a + 0.20 * b + 0.25 * c + 0.30 * d)%Q.
Proof. unfold weighted_sum. cbn [fold_left fst snd]. ring. Qed.

Lemma weighted_percentage (a b c d : Q) :
  percentage a -> percentage b -> percentage c -> percentage d ->
  percentage (0.25 * a + 0.20 * b + 0.25 * c + 0.30 * d).
Proof. unfold percentage. intros [] [] [] []. split; lra. Qed.

Lemma percentage_Qeq (x y : Q) : (x == y)%Q -> percentage y -> percentage x.
Proof. unfold percentage. intros E [H0 H1]. split; lra. Qed.

Lemma exit_status_tiers (s : Q) :
  ((80 <= s)%Q -> exit_status s = 0)
  /\ ((60 <= s)%Q -> (s < 80)%Q -> exit_status s = 1)
  /\ ((s < 60)%Q -> exit_status s = 2).
Proof.
  unfold exit_status. repeat split.
  - intros H%Qgeb_true. by rewrite H.
  - intros H60%Qgeb_true H80%Qgeb_false. by rewrite H80, H60.
  - intros H60. assert (H80 : (s < 80)%Q) by lra.
    apply Qgeb_false in H60, H80. by rewrite H80, H60.
Qed.

(** A run, with or without the report: the dictionary returned, the
    exit status, and the scores. *)
Lemma run_summary aws report :
  exists results,
    run_full_validation aws init_results = (Ok results, results)
    /\ main aws report init_results
       = (Ok (exit_status (overall_score results)), results)
    /\ validation_error results = None
    /\ infrastructure results = Some (infrastructure_checks aws)
    /\ data_validation results = Some (data_checks aws)
    /\ component_scores results
       = [ ("Infrastructure", infrastructure_score (Some (infrastructure_checks aws)));
           ("Data Quality", data_quality_score (data_checks aws));
           ("Framework Knowledge", knowledge_completeness_score (framework_checks aws));
           ("Research Compliance", compliance_score (research_checks aws)) ]
    /\ (overall_score results
        == 0.25 * infrastructure_score (Some (infrastructure_checks aws))
           + 0.20 * data_quality_score (data_checks aws)
           + 0.25 * knowledge_completeness_score (framework_checks aws)
           + 0.30 * compliance_score (research_checks aws))%Q
    /\ percentage (overall_score results).
Proof.
  destruct (run_full_validation_returns aws init_results)
    as (results & Hrun & Hi & Hd & Hf & Hr & Ho & Hc & He).
  exists results.
  assert (Hsum : (overall_score results
                  == 0.25 * infrastructure_score (Some (infrastructure_checks aws))
                     + 0.20 * data_quality_score (data_checks aws)
                     + 0.25 * knowledge_completeness_score (framework_checks aws)
                     + 0.30 * compliance_score (research_checks aws))%Q).
  { rewrite Ho. unfold category_scores. rewrite Hi, Hd, Hf, Hr.
    apply weighted_sum_eq. }
  repeat split; try assumption.
  - unfold main. unfold mbind at 1, SE_bind at 1. rewrite Hrun.
    destruct report; [| reflexivity].
    assert (Hagain : calculate_overall_score results
                     = (Ok (overall_score results), results)).
    { destruct results.
      cbn [infrastructure data_validation framework_knowledge research_compliance
           overall_score component_scores] in Hi, Hd, Hf, Hr, Ho, Hc.
      subst. unfold calculate_overall_score. rewrite <- Ho. reflexivity. }
    unfold mbind, SE_bind. rewrite Hagain. reflexivity.
  - eapply percentage_Qeq; [exact Hsum |].
    apply weighted_percentage;
      [ apply infrastructure_score_percentage | apply data_quality_score_percentage
      | apply knowledge_completeness_score_percentage
      | apply compliance_score_percentage ].
  - eapply percentage_Qeq; [exact Hsum |].
    apply weighted_percentage;
      [ apply infrastructure_score_percentage | apply data_quality_score_percentage
      | apply knowledge_completeness_score_percentage
      | apply compliance_score_percentage ].
Qed.

(** C8: the overall score is the weighted sum of the four category
    scores with weights 0.25 (infrastructure), 0.20 (data quality), 0.25
    (framework knowledge) and 0.30 (research compliance), where the
    category scores are those of the component results: the infrastructure
    score computed from the infrastructure results, and the
    data_quality_score, knowledge_completeness_score and compliance_score
    recorded in the other three (0 for a missing component).  Every run
    yields category scores between 0 and 100, hence an overall score
    between 0 and 100; and the exit status is 0 from 80 on, 1 from 60 up to
    80, and 2 below 60. *)
Theorem C8_overall_score_and_exit_status :
  (forall results : Results,
     let infra := infrastructure_score (infrastructure results) in
     let data :=
       match data_validation results with
       | Some d => data_quality_score d
       | None => 0%Q
       end in
     let framework :=
       match framework_knowledge results with
       | Some f => knowledge_completeness_score f
       | None => 0%Q
       end in
     let research :=
       match research_compliance results with
       | Some r => compliance_score r
       | None => 0%Q
       end in
     exists overall,
       calculate_overall_score results
       = (Ok overall,
          set_scores overall
            [ ("Infrastructure", infra); ("Data Quality", data);
              ("Framework Knowledge", framework); ("Research Compliance", research) ]
            results)
       /\ (overall == 0.25 * infra + 0.20 * data + 0.25 * framework + 0.30 * research)%Q
       /\ (percentage infra -> percentage data -> percentage framework ->
           percentage research -> percentage overall))
  /\ (forall (aws : Clients) (report : bool),
        let infra := infrastructure_score (Some (infrastructure_checks aws)) in
        let data := data_quality_score (data_checks aws) in
        let framework := knowledge_completeness_score (framework_checks aws) in
        let research := compliance_score (research_checks aws) in
        exists results,
          run_full_validation aws init_results = (Ok results, results)
          /\ infrastructure results = Some (infrastructure_checks aws)
          /\ data_validation results = Some (data_checks aws)
          /\ framework_knowledge results = Some (framework_checks aws)
          /\ research_compliance results = Some (research_checks aws)
          /\ component_scores results
             = [ ("Infrastructure", infra); ("Data Quality", data);
                 ("Framework Knowledge", framework); ("Research Compliance", research) ]
          /\ percentage infra /\ percentage data
          /\ percentage framework /\ percentage research
          /\ (overall_score results
              == 0.25 * infra + 0.20 * data + 0.25 * framework + 0.30 * research)%Q
          /\ percentage (overall_score results)
          /\ main aws report init_results
             = (Ok (exit_status (overall_score results)), results))
  /\ (forall overall : Q,
        ((80 <= overall)%Q -> exit_status overall = 0)
        /\ ((60 <= overall)%Q -> (overall < 80)%Q -> exit_status overall = 1)
        /\ ((overall < 60)%Q -> exit_status overall = 2)).
Proof.
  split; [| split; [| exact exit_status_tiers]].
  - intros results. cbv zeta. eexists. split; [reflexivity |].
    cbn [category_scores map fst snd].
    split; [apply weighted_sum_eq |].
    intros Hi Hd Hf Hr.
    eapply percentage_Qeq; [apply weighted_sum_eq | by apply weighted_percentage].
  - intros aws report. cbv zeta.
    destruct (run_full_validation_returns aws init_results)
      as (results' & Hrun' & Hi & Hd & Hf & Hr & _).
    destruct (run_summary aws report)
      as (results & Hrun & Hmain & _ & _ & _ & Hc & Hsum & Hpct).
    assert (results' = results) as -> by congruence.
    exists results.
    split; [exact Hrun |].
    split; [exact Hi |]. split; [exact Hd |]. split; [exact Hf |]. split; [exact Hr |].
    split; [exact Hc |].
    split; [apply infrastructure_score_percentage |].
    split; [apply data_quality_score_percentage |].
    split; [apply knowledge_completeness_score_percentage |].
    split; [apply compliance_score_percentage |].
    split; [exact Hsum |]. split; [exact Hpct | exact Hmain].
Qed.

Lemma C8_overall_score_and_exit_status_witness :
  exists overall,
    (calculate_overall_score partial_results).1 = Ok overall
    /\ (overall == 83.125)%Q
    /\ percentage overall
    /\ exit_status overall = 0
    /\ exit_status 60 = 1
    /\ exit_status 59.9 = 2.
Proof.
  destruct C8_overall_score_and_exit_status as (Hscore & _ & Hexit).
  destruct (Hscore partial_results) as (overall & Hrun & Hsum & Hpct).
  exists overall.
  vm_compute in Hrun.
  injection Hrun as Ho.
  assert (Hvalue : (overall == 83.125)%Q).
  { rewrite <- Ho. reflexivity. }
  split; [rewrite <- Ho; reflexivity |].
  split; [exact Hvalue |].
  split.
  - apply Hpct; split; vm_compute; discriminate.
  - split; [| split].
    + apply (Hexit overall). rewrite <- Ho. discriminate.
    + apply (Hexit 60%Q); [discriminate | reflexivity].
    + apply (Hexit 59.9%Q). reflexivity.
Defined.

(** *** A failed query *)

Lemma score_of_components results (a b c d : Q) (name : string) :
  component_scores results
  = [ ("Infrastructure", a); ("Data Quality", b);
      ("Framework Knowledge", c); ("Research Compliance", d) ] ->
  score_of name results
  = if decide ("Infrastructure" = name) then Some a
    else if decide ("Data Quality" = name) then Some b
    else if decide ("Framework Knowledge" = name) then Some c
    else if decide ("Research Compliance" = name) then Some d
    else None.
Proof.
  intros H. unfold score_of. rewrite H. cbn [list_find fst].
  repeat (case_decide; [reflexivity |]; cbn [fmap option_fmap option_map]).
  reflexivity.
Qed.

(** The infrastructure score when the bucket, a table or the model
    listing fails. *)
Lemma infrastructure_degrades aws q e :
  category_of q = "Infrastructure" -> issued q ->
  forall results baseline,
    infrastructure results = Some (infrastructure_checks (failing q e aws)) ->
    infrastructure baseline = Some (infrastructure_checks aws) ->
    recorded_present q results = Some false
    /\ (infrastructure_score (Some (infrastructure_checks (failing q e aws)))
        <= infrastructure_score (Some (infrastructure_checks aws)))%Q
    /\ (recorded_present q baseline = Some true ->
        (infrastructure_score (Some (infrastructure_checks (failing q e aws)))
         < infrastructure_score (Some (infrastructure_checks aws)))%Q).
Proof.
  intros Hcat Hq results baseline Hi Hi0.
  rewrite !infrastructure_score_eq. cbv zeta.
  destruct q as [| n | | k]; [| | | discriminate Hcat];
    unfold recorded_present; rewrite Hi, Hi0.
  - (* the bucket *)
    cbn [fmap option_fmap option_map s3_bucket bedrock_access infrastructure_checks
         failing head_bucket list_foundation_models].
    change (table_active (failing BucketQuery e aws)) with (table_active aws).
    generalize (inject_Z (Z.of_nat (length
      (filter (fun k => table_active aws k = true) required_tables)))).
    intros active.
    split; [reflexivity |].
    destruct (head_bucket aws bucket), (match list_foundation_models aws with
                                        | Ok _ => _ | Raise _ => _ end);
      (split; [lra_div | intros H; try discriminate H; lra_div]).
  - (* a table *)
    cbn [issued] in Hq.
    cbn [mbind option_bind].
    rewrite !tables_lookup by exact Hq.
    assert (Hs3 : s3_bucket (infrastructure_checks (failing (TableQuery n) e aws))
                  = s3_bucket (infrastructure_checks aws)) by reflexivity.
    assert (Hbr : bedrock_access (infrastructure_checks (failing (TableQuery n) e aws))
                  = bedrock_access (infrastructure_checks aws)) by reflexivity.
    rewrite Hs3, Hbr.
    assert (Himp : forall k, table_active (failing (TableQuery n) e aws) k = true ->
                             table_active aws k = true).
    { intros k. rewrite table_active_failing. by destruct (k =? n)%string. }
    assert (Hoff : table_active (failing (TableQuery n) e aws) n = false).
    { rewrite table_active_failing. by rewrite String.eqb_refl. }
    pose proof (inject_nat_le _ _ (count_le _ _ required_tables Himp)) as Hle.
    split; [by rewrite Hoff |].
    split.
    + revert Hle.
      generalize (inject_Z (Z.of_nat (length (filter
        (fun k => table_active (failing (TableQuery n) e aws) k = true)
        required_tables)))).
      generalize (inject_Z (Z.of_nat (length
        (filter (fun k => table_active aws k = true) required_tables)))).
      intros before after Hle.
      destruct (s3_bucket _), (bedrock_access _); lra_div.
    + intros Hon. injection Hon as Hon.
      pose proof (inject_nat_lt _ _
                    (count_lt _ _ required_tables n Himp Hq Hoff Hon)) as Hlt.
      revert Hlt. clear Hle.
      generalize (inject_Z (Z.of_nat (length (filter
        (fun k => table_active (failing (TableQuery n) e aws) k = true)
        required_tables)))).
      generalize (inject_Z (Z.of_nat (length
        (filter (fun k => table_active aws k = true) required_tables)))).
      intros before after Hlt.
      destruct (s3_bucket _), (bedrock_access _); lra_div.
  - (* the model listing *)
    cbn [fmap option_fmap option_map s3_bucket bedrock_access infrastructure_checks
         failing head_bucket list_foundation_models].
    change (table_active (failing ModelQuery e aws)) with (table_active aws).
    generalize (inject_Z (Z.of_nat (length
      (filter (fun k => table_active aws k = true) required_tables)))).
    intros active.
    split; [reflexivity |].
    destruct (head_bucket aws bucket), (match list_foundation_models aws with
                                        | Ok _ => _ | Raise _ => _ end);
      (split; [lra_div | intros H; try discriminate H; lra_div]).
Qed.

(** The data-quality score when the query for a storage object fails. *)
Lemma data_degrades aws k e :
  k ∈ all_files ->
  forall results baseline,
    data_validation results = Some (data_checks (failing (ObjectQuery k) e aws)) ->
    data_validation baseline = Some (data_checks aws) ->
    recorded_present (ObjectQuery k) results = Some false
    /\ (data_quality_score (data_checks (failing (ObjectQuery k) e aws))
        <= data_quality_score (data_checks aws))%Q
    /\ (recorded_present (ObjectQuery k) baseline = Some true ->
        (data_quality_score (data_checks (failing (ObjectQuery k) e aws))
         < data_quality_score (data_checks aws))%Q).
Proof.
  intros Hk results baseline Hd Hd0.
  rewrite !data_quality_score_eq.
  unfold recorded_present. rewrite Hd, Hd0. cbn [mbind option_bind].
  rewrite !files_lookup by exact Hk.
  assert (Himp : forall k', file_exists (failing (ObjectQuery k) e aws) k' = true ->
                            file_exists aws k' = true).
  { intros k'. rewrite file_exists_failing. by destruct (k' =? k)%string. }
  assert (Hoff : file_exists (failing (ObjectQuery k) e aws) k = false).
  { rewrite file_exists_failing. by rewrite String.eqb_refl. }
  pose proof (inject_nat_le _ _ (count_le _ _ all_files Himp)) as Hle.
  split; [by rewrite Hoff |].
  split.
  - revert Hle.
    generalize (inject_Z (Z.of_nat (length (filter
      (fun k' => file_exists (failing (ObjectQuery k) e aws) k' = true) all_files)))).
    generalize (inject_Z (Z.of_nat (length
      (filter (fun k' => file_exists aws k' = true) all_files)))).
    intros before after Hle. lra_div.
  - intros Hon. injection Hon as Hon.
    pose proof (inject_nat_lt _ _ (count_lt _ _ all_files k Himp Hk Hoff Hon)) as Hlt.
    revert Hlt. clear Hle.
    generalize (inject_Z (Z.of_nat (length (filter
      (fun k' => file_exists (failing (ObjectQuery k) e aws) k' = true) all_files)))).
    generalize (inject_Z (Z.of_nat (length
      (filter (fun k' => file_exists aws k' = true) all_files)))).
    intros before after Hlt. lra_div.
Qed.

(** C9: when one existence or status query of a run fails (the bucket,
    one of the required tables, the model listing, or one of the expected
    storage objects), the validator still returns a result and an exit
    status without recording a validation error; the artifact is recorded as
    absent; the scores of the other categories are those of the run in which
    the query does not fail; the score of the affected category does not
    exceed its score in that run, and is strictly lower when that run
    records the artifact as present; and the overall score is produced,
    between 0 and 100 and not above that of the other run. *)
Theorem C9_failed_query_degrades_one_category
    (aws : Clients) (q : Query) (e : exn) (report : bool) :
  issued q ->
  exists results baseline status degraded before,
    run_full_validation (failing q e aws) init_results = (Ok results, results)
    /\ main (failing q e aws) report init_results = (Ok status, results)
    /\ run_full_validation aws init_results = (Ok baseline, baseline)
    /\ validation_error results = None
    /\ recorded_present q results = Some false
    /\ (forall name, name <> category_of q ->
        score_of name results = score_of name baseline)
    /\ score_of (category_of q) results = Some degraded
    /\ score_of (category_of q) baseline = Some before
    /\ (degraded <= before)%Q
    /\ (recorded_present q baseline = Some true -> (degraded < before)%Q)
    /\ overall_score results = weighted_sum (category_scores results)
    /\ percentage (overall_score results)
    /\ (overall_score results <= overall_score baseline)%Q.
Proof.
  intros Hq.
  destruct (run_summary (failing q e aws) report)
    as (results & Hrun & Hmain & He & Hi & Hd & Hc & Hsum & Hpct).
  destruct (run_summary aws report)
    as (baseline & Hrun0 & _ & _ & Hi0 & Hd0 & Hc0 & Hsum0 & _).
  destruct (run_full_validation_returns (failing q e aws) init_results)
    as (results' & Hrun' & _ & _ & _ & _ & Ho & _).
  rewrite Hrun in Hrun'. injection Hrun' as <-.
  rewrite framework_checks_failing, research_checks_failing in Hc, Hsum.
  exists results, baseline, (exit_status (overall_score results)).
  destruct (decide (category_of q = "Infrastructure")) as [Hcat | Hcat].
  - (* the bucket, a table or the model listing *)
    rewrite (data_checks_failing aws q e Hcat) in Hc, Hsum.
    destruct (infrastructure_degrades aws q e Hcat Hq results baseline Hi Hi0)
      as (Habsent & Hle & Hlt).
    exists (infrastructure_score (Some (infrastructure_checks (failing q e aws)))),
           (infrastructure_score (Some (infrastructure_checks aws))).
    rewrite Hcat.
    repeat split; try assumption.
    + intros name Hname.
      rewrite (score_of_components _ _ _ _ _ name Hc),
              (score_of_components _ _ _ _ _ name Hc0).
      destruct (decide ("Infrastructure" = name)) as [E | _]; [| reflexivity].
      by destruct Hname.
    + by rewrite (score_of_components _ _ _ _ _ _ Hc).
    + by rewrite (score_of_components _ _ _ _ _ _ Hc0).
    + apply Hpct.
    + apply Hpct.
    + rewrite Hsum, Hsum0. lra.
  - (* a storage object *)
    destruct q as [| n | | k]; try (by destruct Hcat).
    cbn [issued] in Hq. fold all_files in Hq.
    rewrite infrastructure_checks_failing in Hc, Hsum.
    destruct (data_degrades aws k e Hq results baseline Hd Hd0)
      as (Habsent & Hle & Hlt).
    exists (data_quality_score (data_checks (failing (ObjectQuery k) e aws))),
           (data_quality_score (data_checks aws)).
    cbn [category_of].
    repeat split; try assumption.
    + intros name Hname.
      rewrite (score_of_components _ _ _ _ _ name Hc),
              (score_of_components _ _ _ _ _ name Hc0).
      destruct (decide ("Infrastructure" = name)) as [_ | _]; [reflexivity |].
      destruct (decide ("Data Quality" = name)) as [E | _]; [| reflexivity].
      by destruct Hname.
    + by rewrite (score_of_components _ _ _ _ _ _ Hc).
    + by rewrite (score_of_components _ _ _ _ _ _ Hc0).
    + apply Hpct.
    + apply Hpct.
    + rewrite Hsum, Hsum0. lra.
Qed.

Lemma C9_failed_query_degrades_one_category_witness :
  exists results status,
    main (failing (TableQuery "system-configuration") (ClientError "AccessDenied")
                  sample_services) false init_results
    = (Ok status, results)
    /\ recorded_present (TableQuery "system-configuration") results = Some false
    /\ validation_error results = None.
Proof.
  destruct (C9_failed_query_degrades_one_category sample_services
              (TableQuery "system-configuration") (ClientError "AccessDenied") false)
    as (results & baseline & status & degraded & before
        & _ & Hmain & _ & Herr & Habsent & _).
  - cbn [issued]. unfold required_tables. repeat constructor.
  - exists results, status. repeat split; assumption.
Defined.

End ValidatorSpec.

(** ** Further properties of the labeler *)

Module LabellingExtra.
Import Labelling LabellingFacts RuleFacts LabellingSpec.

(** *** What each rule contributes *)

Lemma duration_fires cf :
  (duration_limit (is_international cf) < total_duration_days cf)%Q ->
  exists f,
    duration_findings cf = [f]
    /\ duration_weight cf
       = (if Qgtb (total_duration_days cf) (duration_high_mark (is_international cf))
          then 3 else 2)
    /\ type_ f = duration_type (is_international cf)
    /\ severity f
       = (if Qgtb (total_duration_days cf) (duration_high_mark (is_international cf))
          then "high" else "medium")
    /\ actual_value f = total_duration_days cf
    /\ details f = [("expected_range",
                     if is_international cf then "66-86 days" else "8-11 days")]
    /\ framework_violation f = duration_mapping.
Proof.
  unfold duration_findings, duration_weight, duration_rule,
    duration_limit, duration_high_mark, duration_type.
  destruct (is_international cf); intros H%Qgtb_true; lookups; run;
    rewrite H; lookups; run; eexists; repeat split; reflexivity.
Qed.

Lemma rejection_fires cf :
  2 < rejection_count cf ->
  exists f,
    rejection_findings cf = [f]
    /\ rejection_weight cf = 2
    /\ type_ f = "excessive_rejections"
    /\ severity f = (if rejection_count cf >? 3 then "high" else "medium")
    /\ actual_value f = inject_Z (rejection_count cf)
    /\ details f
       = (let rate := if is_international cf then "27%" else "12%" in
          [("expected_rate", rate);
           ("research_finding", String.append "Normal rejection rate: " rate)])
    /\ framework_violation f = rejections_mapping.
Proof.
  intros H.
  unfold rejection_findings, rejection_weight, rejection_rule. lookups; run.
  assert (E : Qgtb (inject_Z (rejection_count cf)) 2 = true).
  { apply Qgtb_true. rewrite <- (Zlt_Qlt 2). exact H. }
  rewrite E. lookups; run. eexists. repeat split; reflexivity.
Qed.

Lemma complexity_fires cf :
  20 < activity_count cf ->
  exists f,
    complexity_findings cf = [f]
    /\ complexity_weight cf = 1
    /\ type_ f = "process_complexity"
    /\ severity f = "medium"
    /\ actual_value f = inject_Z (activity_count cf).
Proof.
  intros H. unfold complexity_findings, complexity_weight, complexity_rule.
  destruct (Z.gtb_spec (activity_count cf) 20); [| lia].
  eexists. repeat split; reflexivity.
Qed.

(** The weights as functions of the inputs. *)
Lemma duration_weight_eq cf :
  duration_weight cf
  = if Qgtb (total_duration_days cf) (duration_limit (is_international cf))
    then if Qgtb (total_duration_days cf) (duration_high_mark (is_international cf))
         then 3 else 2
    else 0.
Proof.
  destruct (Qgtb (total_duration_days cf) (duration_limit (is_international cf))) eqn:E.
  - apply Qgtb_true in E. by destruct (duration_fires cf E) as (f & _ & -> & _).
  - apply Qgtb_false in E.
    assert (E' : (total_duration_days cf
                  <= (if is_international cf then 150 else 20))%Q).
    { unfold duration_limit in E. by destruct (is_international cf). }
    by destruct (duration_silent cf E') as [_ ->].
Qed.

Lemma approval_weight_eq cf :
  approval_weight cf
  = match approval_time_days cf with
    | Some a => if Qgtb a 30 then 3 else 0
    | None => 0
    end.
Proof.
  destruct (approval_time_days cf) as [a |] eqn:Ha.
  - destruct (Qgtb a 30) eqn:E.
    + apply Qgtb_true in E. by destruct (approval_fires cf a Ha E) as (f & _ & -> & _).
    + apply Qgtb_false in E.
      assert (H : match approval_time_days cf with
                  | None => True | Some a => (a <= 30)%Q end) by (by rewrite Ha).
      by destruct (approval_silent cf H) as [_ ->].
  - assert (H : match approval_time_days cf with
                | None => True | Some a => (a <= 30)%Q end) by (by rewrite Ha).
    by destruct (approval_silent cf H) as [_ ->].
Qed.

Lemma rejection_weight_eq cf :
  rejection_weight cf = if rejection_count cf >? 2 then 2 else 0.
Proof.
  destruct (Z.gtb_spec (rejection_count cf) 2) as [H | H].
  - by destruct (rejection_fires cf H) as (f & _ & -> & _).
  - by destruct (rejection_silent cf H) as [_ ->].
Qed.

Lemma complexity_weight_eq cf :
  complexity_weight cf = if activity_count cf >? 20 then 1 else 0.
Proof. unfold complexity_weight, complexity_rule. by destruct (_ >? _). Qed.

(** Whether the approval rule fires. *)
Lemma approval_cases cf :
  (exists a, approval_time_days cf = Some a /\ (30 < a)%Q)
  \/ match approval_time_days cf with
     | None => True
     | Some a => (a <= 30)%Q
     end.
Proof.
  destruct (approval_time_days cf) as [a |]; [| by right].
  destruct (Qlt_le_dec 30 a); [left; eauto | by right].
Qed.

(** Each rule appends nothing, or one finding of its own type with its
    own weight and mapping. *)
Lemma duration_shape cf :
  (duration_findings cf = [] /\ duration_weight cf = 0
   /\ (total_duration_days cf <= duration_limit (is_international cf))%Q)
  \/ (exists f, duration_findings cf = [f]
      /\ type_ f = duration_type (is_international cf)
      /\ framework_violation f = duration_mapping
      /\ 2 <= duration_weight cf <= 3
      /\ (duration_limit (is_international cf) < total_duration_days cf)%Q).
Proof.
  destruct (Qlt_le_dec (duration_limit (is_international cf)) (total_duration_days cf))
    as [H | H].
  - right. destruct (duration_fires cf H) as (f & Hf & Hw & Ht & _ & _ & _ & Hm).
    exists f. repeat split; try assumption; rewrite Hw; destruct (Qgtb _ _); lia.
  - left.
    assert (H' : (total_duration_days cf
                  <= (if is_international cf then 150 else 20))%Q).
    { unfold duration_limit in H. by destruct (is_international cf). }
    destruct (duration_silent cf H') as [-> ->]. auto.
Qed.

Lemma approval_shape cf :
  (approval_findings cf = [] /\ approval_weight cf = 0)
  \/ (exists f, approval_findings cf = [f]
      /\ type_ f = supervisor
      /\ framework_violation f = supervisor_mapping
      /\ approval_weight cf = 3).
Proof.
  destruct (approval_cases cf) as [(a & Ha & Hgt) | H].
  - right.
    assert (exists f, approval_findings cf = [f] /\ type_ f = supervisor
                      /\ framework_violation f = supervisor_mapping
                      /\ approval_weight cf = 3) as Hx; [| exact Hx].
    unfold approval_findings, approval_weight, approval_rule.
    rewrite Ha, (truthy_above a Hgt). lookups; run.
    apply Qgtb_true in Hgt. rewrite Hgt. lookups; run.
    eexists. repeat split; reflexivity.
  - left. by destruct (approval_silent cf H) as [-> ->].
Qed.

Lemma rejection_shape cf :
  (rejection_findings cf = [] /\ rejection_weight cf = 0 /\ rejection_count cf <= 2)
  \/ (exists f, rejection_findings cf = [f]
      /\ type_ f = "excessive_rejections"
      /\ framework_violation f = rejections_mapping
      /\ rejection_weight cf = 2 /\ 2 < rejection_count cf).
Proof.
  destruct (Z_lt_le_dec 2 (rejection_count cf)) as [H | H].
  - right. destruct (rejection_fires cf H) as (f & Hf & Hw & Ht & _ & _ & _ & Hm).
    exists f. auto.
  - left. destruct (rejection_silent cf H) as [-> ->]. auto.
Qed.

Lemma complexity_shape cf :
  (complexity_findings cf = [] /\ complexity_weight cf = 0 /\ activity_count cf <= 20)
  \/ (exists f, complexity_findings cf = [f]
      /\ type_ f = "process_complexity"
      /\ framework_violation f
         = list_to_map [ ("lean_waste", "overprocessing");
                         ("agile_principle", "simplicity");
                         ("optimization", "consolidate_approval_steps") ]
      /\ complexity_weight cf = 1 /\ 20 < activity_count cf).
Proof.
  unfold complexity_findings, complexity_weight, complexity_rule.
  destruct (Z.gtb_spec (activity_count cf) 20) as [H | H].
  - right. eexists. repeat split; try reflexivity. lia.
  - left. auto.
Qed.

Lemma duration_type_cases b :
  duration_type b = "excessive_duration_international"
  \/ duration_type b = "excessive_duration_domestic".
Proof. destruct b; auto. Qed.

(** All cases of the four rules at once. *)
Ltac rule_cases cf :=
  destruct (duration_shape cf) as [(Hd & Hdw & Hdc) | (fd & Hd & Hdt & Hdm & Hdw & Hdc)];
  destruct (approval_shape cf) as [(Ha & Haw) | (fa & Ha & Hat & Ham & Haw)];
  destruct (rejection_shape cf) as [(Hr & Hrw & Hrc) | (fr & Hr & Hrt & Hrm & Hrw & Hrc)];
  destruct (complexity_shape cf) as [(Hc & Hcw & Hcc) | (fc & Hc & Hct & Hcm & Hcw & Hcc)];
  rewrite ?Hd, ?Ha, ?Hr, ?Hc.

(** Each finding adds between 1 and 3 to the severity score. *)
Lemma severity_between_counts (cf : CaseFeatures) :
  exists labels,
    label_case_inefficiencies init cf = Ok labels
    /\ Z.of_nat (length (inefficiencies labels)) <= severity_score labels
    /\ severity_score labels <= 3 * Z.of_nat (length (inefficiencies labels)).
Proof.
  rewrite label_case_inefficiencies_eq. cbv zeta.
  eexists. split; [reflexivity |].
  cbn [inefficiencies severity_score].
  rule_cases cf; cbn [app length]; split; lia.
Qed.

(** X1: the labeler always returns; the number of findings it reports is
    the length of its finding list, at most 4, with no type occurring twice;
    the severity score lies between the number of findings and three times
    that number, and never exceeds 9. *)
Theorem label_result_bounds (cf : CaseFeatures) :
  exists labels,
    label_case_inefficiencies init cf = Ok labels
    /\ total_inefficiency_count labels = Z.of_nat (length (inefficiencies labels))
    /\ (length (inefficiencies labels) <= 4)%nat
    /\ NoDup (finding_types (inefficiencies labels))
    /\ Z.of_nat (length (inefficiencies labels)) <= severity_score labels
    /\ severity_score labels <= 3 * Z.of_nat (length (inefficiencies labels))
    /\ 0 <= severity_score labels <= 9.
Proof.
  rewrite label_case_inefficiencies_eq. cbv zeta.
  eexists. split; [reflexivity |].
  cbn [total_inefficiency_count inefficiencies severity_score].
  split; [reflexivity |].
  rule_cases cf; cbn [app length finding_types map];
    rewrite ?Hdt, ?Hat, ?Hrt, ?Hct;
    (repeat split; try lia;
     destruct (is_international cf); unfold supervisor;
     apply (bool_decide_unpack _); vm_compute; exact I).
Qed.

(** X2: the severity score is the sum of four independent terms: 3 or 2
    for an excessive duration (3 above the high mark of the case's kind), 3
    for an approval time above 30, 2 for more than two rejections and 1 for
    more than 20 activities. *)
Theorem severity_score_formula (cf : CaseFeatures) :
  exists labels,
    label_case_inefficiencies init cf = Ok labels
    /\ severity_score labels
       = (if Qgtb (total_duration_days cf) (duration_limit (is_international cf))
          then if Qgtb (total_duration_days cf)
                       (duration_high_mark (is_international cf))
               then 3 else 2
          else 0)
         + match approval_time_days cf with
           | Some a => if Qgtb a 30 then 3 else 0
           | None => 0
           end
         + (if rejection_count cf >? 2 then 2 else 0)
         + (if activity_count cf >? 20 then 1 else 0).
Proof.
  rewrite label_case_inefficiencies_eq. cbv zeta.
  eexists. split; [reflexivity |]. cbn [severity_score].
  by rewrite duration_weight_eq, approval_weight_eq, rejection_weight_eq,
    complexity_weight_eq.
Qed.

Lemma duration_count t cf :
  t <> "excessive_duration_international" -> t <> "excessive_duration_domestic" ->
  count_type t (duration_findings cf) = 0%nat.
Proof.
  intros H1 H2. eapply count_type_other; [apply duration_types |].
  intros f [E | E]; congruence.
Qed.

Lemma approval_count t cf :
  t <> supervisor -> count_type t (approval_findings cf) = 0%nat.
Proof.
  intros H. eapply count_type_other; [apply approval_types |].
  intros f E; cbv beta in E; congruence.
Qed.

Lemma rejection_count_other t cf :
  t <> "excessive_rejections" -> count_type t (rejection_findings cf) = 0%nat.
Proof.
  intros H. eapply count_type_other; [apply rejection_types |].
  intros f E; cbv beta in E; congruence.
Qed.

Lemma complexity_count t cf :
  t <> "process_complexity" -> count_type t (complexity_findings cf) = 0%nat.
Proof.
  intros H. eapply count_type_other; [apply complexity_types |].
  intros f E; cbv beta in E; congruence.
Qed.

(** X3: the duration rule.  A duration above the limit of the case's kind
    (150 international, 20 domestic) puts exactly one duration finding at
    the head of the list, of the type of that kind, "high" above the high
    mark (200, 30) and "medium" otherwise, carrying the duration and the
    excessive_duration mapping; at or below the limit there is none; and a
    finding of the other kind's type is never emitted. *)
Theorem duration_rule_findings (cf : CaseFeatures) :
  exists labels,
    label_case_inefficiencies init cf = Ok labels
    /\ ((duration_limit (is_international cf) < total_duration_days cf)%Q ->
        exists f rest,
          inefficiencies labels = f :: rest
          /\ type_ f = duration_type (is_international cf)
          /\ ((duration_high_mark (is_international cf) < total_duration_days cf)%Q ->
              severity f = "high")
          /\ ((total_duration_days cf <= duration_high_mark (is_international cf))%Q ->
              severity f = "medium")
          /\ actual_value f = total_duration_days cf
          /\ framework_violation f !! "lean_waste" = Some "waiting"
          /\ count_type (duration_type (is_international cf)) rest = 0%nat)
    /\ ((total_duration_days cf <= duration_limit (is_international cf))%Q ->
        count_type (duration_type (is_international cf)) (inefficiencies labels) = 0%nat)
    /\ count_type (duration_type (negb (is_international cf))) (inefficiencies labels)
       = 0%nat.
Proof.
  rewrite label_case_inefficiencies_eq. cbv zeta.
  eexists. split; [reflexivity |]. cbn [inefficiencies].
  assert (Hrest : forall b,
            count_type (duration_type b)
              (approval_findings cf ++ rejection_findings cf ++ complexity_findings cf)
            = 0%nat).
  { intros b. rewrite !count_type_app, approval_count, rejection_count_other,
      complexity_count; [reflexivity | | |]; by destruct b. }
  repeat split.
  - intros Hgt.
    destruct (duration_fires cf Hgt) as (f & -> & _ & Ht & Hs & Hv & _ & Hm).
    exists f, (approval_findings cf ++ rejection_findings cf ++ complexity_findings cf).
    repeat split; try assumption.
    + intros H%Qgtb_true. by rewrite Hs, H.
    + intros H%Qgtb_false. by rewrite Hs, H.
    + rewrite Hm. vm_compute. reflexivity.
    + apply Hrest.
  - intros Hle.
    assert (H' : (total_duration_days cf
                  <= (if is_international cf then 150 else 20))%Q).
    { unfold duration_limit in Hle. by destruct (is_international cf). }
    destruct (duration_silent cf H') as [-> _]. apply Hrest.
  - rewrite count_type_app, Hrest, Nat.add_0_r.
    destruct (duration_shape cf) as [(-> & _) | (f & -> & Ht & _)]; [reflexivity |].
    unfold count_type. rewrite filter_cons, decide_False; [reflexivity |].
    rewrite Ht. by destruct (is_international cf).
Qed.

(** X4: the rejection rule.  More than two rejections give exactly one
    excessive_rejections finding, "medium" for three rejections and "high"
    from four on, carrying the count and the expected rejection rate of the
    case's kind (27% international, 12% domestic); with at most two
    rejections there is none. *)
Theorem rejection_rule_findings (cf : CaseFeatures) :
  exists labels,
    label_case_inefficiencies init cf = Ok labels
    /\ (2 < rejection_count cf ->
        exists pre f post,
          inefficiencies labels = pre ++ f :: post
          /\ count_type "excessive_rejections" (pre ++ post) = 0%nat
          /\ type_ f = "excessive_rejections"
          /\ (rejection_count cf = 3 -> severity f = "medium")
          /\ (4 <= rejection_count cf -> severity f = "high")
          /\ actual_value f = inject_Z (rejection_count cf)
          /\ In ("expected_rate", if is_international cf then "27%" else "12%")
                (details f)
          /\ framework_violation f !! "lean_waste" = Some "defects")
    /\ (rejection_count cf <= 2 ->
        count_type "excessive_rejections" (inefficiencies labels) = 0%nat).
Proof.
  rewrite label_case_inefficiencies_eq. cbv zeta.
  eexists. split; [reflexivity |]. cbn [inefficiencies].
  assert (Hd : count_type "excessive_rejections" (duration_findings cf) = 0%nat)
    by (by apply duration_count).
  assert (Ha : count_type "excessive_rejections" (approval_findings cf) = 0%nat)
    by (by apply approval_count).
  assert (Hc : count_type "excessive_rejections" (complexity_findings cf) = 0%nat)
    by (by apply complexity_count).
  split.
  - intros Hgt.
    destruct (rejection_fires cf Hgt) as (f & -> & _ & Ht & Hs & Hv & Hdt & Hm).
    exists (duration_findings cf ++ approval_findings cf), f, (complexity_findings cf).
    repeat split; try assumption.
    + by rewrite <- !app_assoc.
    + rewrite !count_type_app, Hd, Ha, Hc. reflexivity.
    + intros E. rewrite Hs, E. reflexivity.
    + intros E. rewrite Hs. by destruct (Z.gtb_spec (rejection_count cf) 3); [| lia].
    + rewrite Hdt. cbv zeta. left. reflexivity.
    + rewrite Hm. vm_compute. reflexivity.
  - intros Hle. destruct (rejection_silent cf Hle) as [-> _].
    rewrite !count_type_app, Hd, Ha, Hc. reflexivity.
Qed.

Lemma rejection_rule_findings_witness :
  exists labels,
    label_case_inefficiencies init
      (with_approval_time
         {| case_id := "case-3"; total_duration_days := 5; activity_count := 12;
            unique_activities := 6; has_rejections := true; rejection_count := 3;
            is_international := true; approval_time_days := None |} None)
    = Ok labels
    /\ count_type "excessive_rejections" (inefficiencies labels) = 1%nat.
Proof.
  destruct (rejection_rule_findings
              (with_approval_time
                 {| case_id := "case-3"; total_duration_days := 5; activity_count := 12;
                    unique_activities := 6; has_rejections := true; rejection_count := 3;
                    is_international := true; approval_time_days := None |} None))
    as (labels & Hl & Hfire & _).
  exists labels. split; [exact Hl |].
  destruct Hfire as (pre & f & post & -> & Hcount & Ht & _); [vm_compute; reflexivity |].
  rewrite count_type_app in Hcount.
  change (f :: post) with ([f] ++ post). rewrite !count_type_app.
  assert (Hone : count_type "excessive_rejections" [f] = 1%nat).
  { unfold count_type. by rewrite filter_cons, decide_True by exact Ht. }
  lia.
Defined.

(** X5: the complexity rule.  More than 20 activities put exactly one
    process_complexity finding at the end of the list, always "medium" and
    carrying the activity count; with at most 20 activities there is none. *)
Theorem complexity_rule_findings (cf : CaseFeatures) :
  exists labels,
    label_case_inefficiencies init cf = Ok labels
    /\ (20 < activity_count cf ->
        exists pre f,
          inefficiencies labels = pre ++ [f]
          /\ count_type "process_complexity" pre = 0%nat
          /\ type_ f = "process_complexity"
          /\ severity f = "medium"
          /\ actual_value f = inject_Z (activity_count cf))
    /\ (activity_count cf <= 20 ->
        count_type "process_complexity" (inefficiencies labels) = 0%nat).
Proof.
  rewrite label_case_inefficiencies_eq. cbv zeta.
  eexists. split; [reflexivity |]. cbn [inefficiencies].
  assert (Hd : count_type "process_complexity" (duration_findings cf) = 0%nat)
    by (by apply duration_count).
  assert (Ha : count_type "process_complexity" (approval_findings cf) = 0%nat)
    by (by apply approval_count).
  assert (Hr : count_type "process_complexity" (rejection_findings cf) = 0%nat)
    by (by apply rejection_count_other).
  split.
  - intros Hgt.
    destruct (complexity_fires cf Hgt) as (f & -> & _ & Ht & Hs & Hv).
    exists (duration_findings cf ++ approval_findings cf ++ rejection_findings cf), f.
    repeat split; try assumption.
    + by rewrite <- !app_assoc.
    + rewrite !count_type_app, Hd, Ha, Hr. reflexivity.
  - intros Hle. destruct (complexity_silent cf Hle) as [-> _].
    rewrite !count_type_app, Hd, Ha, Hr. reflexivity.
Qed.

Lemma complexity_rule_findings_witness :
  exists labels,
    label_case_inefficiencies init (with_approval_time quiet_case (Some 31%Q)) = Ok labels
    /\ count_type "process_complexity" (inefficiencies labels) = 0%nat.
Proof.
  destruct (complexity_rule_findings (with_approval_time quiet_case (Some 31%Q)))
    as (labels & Hl & _ & Hnone).
  exists labels. split; [exact Hl |]. apply Hnone. vm_compute. discriminate.
Defined.

Lemma duration_rule_findings_witness :
  exists labels,
    label_case_inefficiencies init slow_approval_case = Ok labels
    /\ count_type "excessive_duration_domestic" (inefficiencies labels) = 0%nat.
Proof.
  destruct (duration_rule_findings slow_approval_case) as (labels & Hl & _ & Hnone & _).
  exists labels. split; [exact Hl |]. apply Hnone. vm_compute. discriminate.
Defined.

(** *** Findings, score, level and potential *)

Lemma add_potential_emitted p f :
  type_ f ∈ emitted_types -> (p + 15 <= add_potential p f)%Q.
Proof.
  unfold emitted_types. intros Hin.
  repeat (apply elem_of_cons in Hin as [E | Hin];
          [unfold add_potential; rewrite E; cbn; lra |]).
  by apply elem_of_nil in Hin.
Qed.

Lemma potential_emitted_ge fs cf :
  Forall (fun f => type_ f ∈ emitted_types) fs -> fs <> [] ->
  (15 <= _calculate_optimization_potential fs cf)%Q.
Proof.
  intros Hall Hne. destruct fs as [| f fs]; [done |].
  unfold _calculate_optimization_potential. cbn [fold_left].
  apply Forall_cons in Hall as [Hf _].
  pose proof (add_potential_emitted 0 f Hf) as H1.
  pose proof (potential_fold_ge fs (add_potential 0 f)) as H2.
  unfold Py.min. destruct (Qgtb _ 80); lra.
Qed.

Lemma emitted_findings cf :
  Forall (fun f => type_ f ∈ emitted_types)
    (duration_findings cf ++ approval_findings cf
     ++ rejection_findings cf ++ complexity_findings cf).
Proof.
  rewrite !Forall_app. unfold emitted_types. repeat split.
  - eapply Forall_impl; [apply duration_types |].
    intros f [-> | ->]; repeat constructor.
  - eapply Forall_impl; [apply approval_types |].
    intros f ->. unfold supervisor. repeat constructor.
  - eapply Forall_impl; [apply rejection_types |].
    intros f ->; repeat constructor.
  - eapply Forall_impl; [apply complexity_types |].
    intros f ->; repeat constructor.
Qed.

(** X6: for every labelled case, having a finding, a severity score of at
    least 1, an optimization potential of at least 15 and a primary
    bottleneck are one and the same; without findings the potential is 0
    and the primary bottleneck is absent. *)
Theorem findings_score_potential_agree (cf : CaseFeatures) :
  exists lc,
    label_row init cf = Ok lc
    /\ let labels := lc_inefficiency_labels lc in
       let training := lc_training_label lc in
       (tl_has_inefficiencies training = true <-> inefficiencies labels <> [])
       /\ (1 <= severity_score labels <-> inefficiencies labels <> [])
       /\ ((15 <= optimization_potential labels)%Q <-> inefficiencies labels <> [])
       /\ ((0 < optimization_potential labels)%Q <-> inefficiencies labels <> [])
       /\ (is_Some (tl_primary_bottleneck training) <-> inefficiencies labels <> [])
       /\ tl_optimization_potential_percent training = optimization_potential labels.
Proof.
  destruct (severity_between_counts cf) as (labels & Hl & Hlo & Hhi).
  unfold label_row. rewrite Hl. run.
  eexists. split; [reflexivity |].
  cbn [lc_inefficiency_labels lc_training_label tl_has_inefficiencies
       tl_primary_bottleneck tl_optimization_potential_percent].
  assert (Hpot : optimization_potential labels
                 = _calculate_optimization_potential (inefficiencies labels) cf
                 /\ Forall (fun f => type_ f ∈ emitted_types) (inefficiencies labels)).
  { rewrite label_case_inefficiencies_eq in Hl. cbv zeta in Hl.
    injection Hl as <-. cbn [optimization_potential inefficiencies].
    split; [reflexivity | apply emitted_findings]. }
  destruct Hpot as [Hpot Hall].
  destruct (inefficiencies labels) as [| f fs] eqn:E.
  - cbn [length] in *. rewrite Hpot. cbn.
    repeat split; intros H; try done; try lia; try (by destruct H);
      try (vm_compute in H; discriminate H).
  - cbn [length] in *.
    assert (H15 : (15 <= optimization_potential labels)%Q).
    { rewrite Hpot. by apply potential_emitted_ge. }
    repeat split; intros _; try done; try lia; try lra.
Qed.

(** X7: the severity level against the findings.  A case with a single
    finding is never "high"; a "high" case has at least two findings; and a
    case that is "low" although it has findings has exactly one, of type
    process_complexity. *)
Theorem severity_level_and_findings (cf : CaseFeatures) :
  exists lc,
    label_row init cf = Ok lc
    /\ let fs := inefficiencies (lc_inefficiency_labels lc) in
       let level := tl_severity_level (lc_training_label lc) in
       (level = "high" -> (2 <= length fs)%nat)
       /\ (level = "low" -> fs <> [] -> finding_types fs = ["process_complexity"])
       /\ (fs = [] -> level = "low").
Proof.
  unfold label_row. rewrite label_case_inefficiencies_eq. cbv zeta. run.
  eexists. split; [reflexivity |].
  cbn [lc_inefficiency_labels lc_training_label inefficiencies severity_score
       tl_severity_level].
  unfold severity_level.
  rule_cases cf; rewrite ?Hdw, ?Haw, ?Hrw, ?Hcw; cbn [app length finding_types map];
    rewrite ?Hct;
    repeat split;
    repeat match goal with
           | |- context [?a >=? ?b] => destruct (Z.geb_spec a b)
           end;
    intros; try discriminate; try lia; try done.
Qed.

(** X8: the primary bottleneck is the first rule that fires, in the order
    duration, approval, rejections, complexity. *)
Theorem primary_bottleneck_priority (cf : CaseFeatures) :
  exists lc,
    label_row init cf = Ok lc
    /\ tl_primary_bottleneck (lc_training_label lc)
       = if Qgtb (total_duration_days cf) (duration_limit (is_international cf))
         then Some (duration_type (is_international cf))
         else if match approval_time_days cf with
                 | Some a => Qgtb a 30
                 | None => false
                 end
         then Some "supervisor_approval_bottleneck"
         else if rejection_count cf >? 2 then Some "excessive_rejections"
         else if activity_count cf >? 20 then Some "process_complexity"
         else None.
Proof.
  unfold label_row. rewrite label_case_inefficiencies_eq. cbv zeta. run.
  eexists. split; [reflexivity |].
  cbn [lc_inefficiency_labels lc_training_label inefficiencies tl_primary_bottleneck].
  destruct (duration_shape cf) as [(-> & _ & Hd) | (fd & -> & Hdt & _ & _ & Hd)].
  2: { apply Qgtb_true in Hd. rewrite Hd. cbn. by rewrite Hdt. }
  apply Qgtb_false in Hd. rewrite Hd. cbn [app].
  destruct (approval_cases cf) as [(a & Ha & Hgt) | Hno].
  - destruct (approval_fires cf a Ha Hgt) as (f & -> & _ & Ht & _).
    rewrite Ha. apply Qgtb_true in Hgt. rewrite Hgt. cbn. by rewrite Ht.
  - destruct (approval_silent cf Hno) as [-> _]. cbn [app].
    assert (Hoff : match approval_time_days cf with
                   | Some a => Qgtb a 30
                   | None => false
                   end = false).
    { destruct (approval_time_days cf); [by apply Qgtb_false | reflexivity]. }
    rewrite Hoff.
    destruct (rejection_shape cf) as [(-> & _ & Hr) | (fr & -> & Hrt & _ & _ & Hr)].
    2: { destruct (Z.gtb_spec (rejection_count cf) 2); [| lia]. cbn. by rewrite Hrt. }
    destruct (Z.gtb_spec (rejection_count cf) 2); [lia |]. cbn [app].
    destruct (complexity_shape cf) as [(-> & _ & Hc) | (fc & -> & Hct & _ & _ & Hc)].
    + by destruct (Z.gtb_spec (activity_count cf) 20); [lia |].
    + destruct (Z.gtb_spec (activity_count cf) 20); [| lia]. cbn. by rewrite Hct.
Qed.

(** X9: the labels of a row depend only on its duration, its kind, its
    approval time, its rejection count and its activity count; the case
    identifier, the number of distinct activities and the has_rejections
    flag are never read. *)
Theorem labels_depend_on_rule_inputs (cf1 cf2 : CaseFeatures) :
  rule_inputs cf1 = rule_inputs cf2 ->
  label_case_inefficiencies init cf1 = label_case_inefficiencies init cf2.
Proof.
  destruct cf1, cf2. unfold rule_inputs.
  cbn [total_duration_days is_international approval_time_days rejection_count
       activity_count].
  intros H. injection H as -> -> -> -> ->. reflexivity.
Qed.

Lemma labels_depend_on_rule_inputs_witness :
  label_case_inefficiencies init quiet_case
  = label_case_inefficiencies init
      {| case_id := "another case"; total_duration_days := 10; activity_count := 7;
         unique_activities := 1; has_rejections := false; rejection_count := 2;
         is_international := false; approval_time_days := Some 30%Q |}.
Proof. apply labels_depend_on_rule_inputs. reflexivity. Defined.

(** *** The dataset loop and the recommendations *)

(** X10: labelling a dataset never raises and yields one labelled case per
    row, in order, each carrying the row itself, its case identifier and the
    result of labelling that row alone; labelling two tables one after the
    other is labelling their concatenation. *)
Theorem label_dataset_rowwise (rows more : list CaseFeatures) :
  exists labeled labeled_more,
    label_dataset init rows = Ok labeled
    /\ label_dataset init more = Ok labeled_more
    /\ label_dataset init (rows ++ more) = Ok (labeled ++ labeled_more)
    /\ length labeled = length rows
    /\ map lc_input_features labeled = rows
    /\ map lc_case_id labeled = map case_id rows
    /\ Forall2 (fun row lc =>
                  label_row init row = Ok lc
                  /\ label_case_inefficiencies init row = Ok (lc_inefficiency_labels lc))
               rows labeled.
Proof.
  assert (Hrow : forall row, exists lc,
            label_row init row = Ok lc
            /\ lc_input_features lc = row /\ lc_case_id lc = case_id row
            /\ label_case_inefficiencies init row = Ok (lc_inefficiency_labels lc)).
  { intros row. unfold label_row. rewrite label_case_inefficiencies_eq.
    cbv zeta. run. eexists. repeat split. }
  assert (Hall : forall l, exists labeled,
            label_dataset init l = Ok labeled
            /\ length labeled = length l
            /\ map lc_input_features labeled = l
            /\ map lc_case_id labeled = map case_id l
            /\ Forall2 (fun row lc =>
                          label_row init row = Ok lc
                          /\ label_case_inefficiencies init row
                             = Ok (lc_inefficiency_labels lc)) l labeled).
  { induction l as [| row l (labeled & Hl & Hlen & Hin & Hid & Hf2)].
    - exists []. repeat split. constructor.
    - destruct (Hrow row) as (lc & Hlc & Hrf & Hrid & Hlab).
      exists (lc :: labeled). cbn [label_dataset]. rewrite Hlc. run. rewrite Hl. run.
      repeat split; cbn [length map]; try congruence.
      constructor; [split; assumption | exact Hf2]. }
  destruct (Hall rows) as (labeled & Hl & Hlen & Hin & Hid & Hf2).
  destruct (Hall more) as (labeled_more & Hm & _).
  exists labeled, labeled_more. repeat split; try assumption.
  clear Hlen Hin Hid Hf2. revert labeled Hl.
  induction rows as [| row rows IH]; intros labeled Hl.
  - injection Hl as <-. exact Hm.
  - cbn [label_dataset app] in *.
    destruct (label_row init row) as [lc | e]; [| discriminate Hl].
    run. cbn [mbind result_bind] in Hl.
    destruct (label_dataset init rows) as [rest | e]; [| discriminate Hl].
    cbn [mbind result_bind mret result_ret] in Hl. injection Hl as <-.
    rewrite (IH rest eq_refl). reflexivity.
Qed.

(** X11: the recommendations of a labelled case are one per finding, in
    order and of the same types, and none of them falls back on a default:
    neither the default recommendation or improvement text, nor the
    "general_process_improvement" basis, nor an "unknown" principle. *)
Theorem recommendations_never_default (cf : CaseFeatures) :
  exists lc,
    label_row init cf = Ok lc
    /\ map rec_inefficiency_type (lc_optimization_recommendations lc)
       = finding_types (inefficiencies (lc_inefficiency_labels lc))
    /\ Forall (fun r =>
                 rec_recommendation r = _get_recommendation (rec_inefficiency_type r)
                 /\ rec_recommendation r <> default_recommendation
                 /\ rec_expected_improvement r <> default_improvement
                 /\ rec_framework_basis r <> "general_process_improvement"
                 /\ rec_lean_principle r <> "unknown"
                 /\ rec_agile_principle r <> "unknown")
              (lc_optimization_recommendations lc).
Proof.
  unfold label_row. rewrite label_case_inefficiencies_eq. cbv zeta. run.
  eexists. split; [reflexivity |].
  cbn [lc_inefficiency_labels lc_optimization_recommendations inefficiencies].
  unfold generate_optimization_recommendations, finding_types.
  split; [by rewrite map_map |].
  apply List.Forall_map.
  cbn [rec_inefficiency_type rec_recommendation rec_expected_improvement
       rec_framework_basis rec_lean_principle rec_agile_principle].
  repeat (apply List.Forall_app; split).
  - destruct (duration_shape cf) as [(-> & _) | (f & -> & Ht & Hm & _)];
      constructor; [| constructor].
    rewrite Ht, Hm. split; [reflexivity |].
    destruct (is_international cf); repeat split; vm_compute; discriminate.
  - destruct (approval_shape cf) as [(-> & _) | (f & -> & Ht & Hm & _)];
      constructor; [| constructor].
    rewrite Ht, Hm. split; [reflexivity |].
    repeat split; vm_compute; discriminate.
  - destruct (rejection_shape cf) as [(-> & _) | (f & -> & Ht & Hm & _)];
      constructor; [| constructor].
    rewrite Ht, Hm. split; [reflexivity |].
    repeat split; vm_compute; discriminate.
  - destruct (complexity_shape cf) as [(-> & _) | (f & -> & Ht & Hm & _)];
      constructor; [| constructor].
    rewrite Ht, Hm. split; [reflexivity |].
    repeat split; vm_compute; discriminate.
Qed.

End LabellingExtra.

(** ** Further properties of the feature extractor *)

Module ExplorationExtra.
Import Exploration ValidatorFacts.

(** *** Distinct case identifiers *)

Lemma elem_of_unique (x : string) (l : list string) : x ∈ unique l <-> x ∈ l.
Proof.
  induction l as [| a l IH]; cbn [unique]; [reflexivity |].
  rewrite !elem_of_cons, list_elem_of_filter, IH.
  destruct (decide (x = a)); intuition congruence.
Qed.

Lemma NoDup_unique (l : list string) : NoDup (unique l).
Proof.
  induction l as [| a l IH]; cbn [unique]; [constructor |].
  constructor; [| by apply NoDup_filter].
  rewrite list_elem_of_filter. intros [H _]. by apply H.
Qed.

(** *** Sorting by time *)

Lemma insert_by_time_perm e l : insert_by_time e l ≡ₚ e :: l.
Proof.
  induction l as [| a l IH]; cbn [insert_by_time]; [reflexivity |].
  destruct (Qgeb _ _); [reflexivity |].
  rewrite IH. apply perm_swap.
Qed.

Lemma sort_values_perm df : sort_values df ≡ₚ df.
Proof.
  induction df as [| e df IH]; cbn [sort_values fold_right]; [reflexivity |].
  fold (sort_values df). by rewrite insert_by_time_perm, IH.
Qed.

Lemma insert_by_time_sorted e l :
  Sorted earlier l -> Sorted earlier (insert_by_time e l).
Proof.
  induction l as [| a l IH]; cbn [insert_by_time]; intros Hs.
  - repeat constructor.
  - destruct (Qgeb (time_timestamp a) (time_timestamp e)) eqn:E.
    + apply Qgeb_true in E. constructor; [exact Hs |]. by constructor.
    + apply Qgeb_false in E. apply Sorted_inv in Hs as [Hs Hhd].
      constructor; [by apply IH |].
      destruct l as [| b l]; cbn [insert_by_time].
      * constructor. unfold earlier. lra.
      * destruct (Qgeb (time_timestamp b) (time_timestamp e));
          constructor; [unfold earlier; lra |].
        by apply HdRel_inv in Hhd.
Qed.

Lemma sort_values_sorted df : Sorted earlier (sort_values df).
Proof.
  induction df as [| e df IH]; cbn [sort_values fold_right]; [constructor |].
  by apply insert_by_time_sorted.
Qed.

Lemma earlier_trans : Relations_1.Transitive earlier.
Proof. intros a b c. unfold earlier. lra. Qed.

Lemma sort_values_strongly_sorted df : StronglySorted earlier (sort_values df).
Proof. apply Sorted_StronglySorted; [exact earlier_trans | apply sort_values_sorted]. Qed.

(** The first row of a sorted frame that passes a test is not later than
    any other row that passes it. *)
Lemma first_match_earliest (P : Event -> Prop) `{forall e, Decision (P e)} l a rest :
  StronglySorted earlier l ->
  filter P l = a :: rest ->
  P a /\ a ∈ l /\ forall b, b ∈ l -> P b -> earlier a b.
Proof.
  induction 1 as [| x l Hs IH Hall]; intros Hf; [discriminate Hf |].
  rewrite filter_cons in Hf. destruct (decide (P x)) as [Hx | Hx].
  - injection Hf as -> _. split; [exact Hx |]. split; [apply list_elem_of_here |].
    intros b [-> | Hb]%elem_of_cons _; [unfold earlier; lra |].
    rewrite List.Forall_forall in Hall. apply Hall. by apply list_elem_of_In.
  - destruct (IH Hf) as (Pa & Ha & Hmin).
    split; [exact Pa |]. split; [by apply list_elem_of_further |].
    intros b [-> | Hb]%elem_of_cons Pb; [contradiction | by apply Hmin].
Qed.

(** *** Extremes of a column *)

Lemma fold_max_spec (ts : list Q) : forall t,
  let m := fold_left (fun m x => if Qgtb x m then x else m) ts t in
  (m = t \/ In m ts) /\ (t <= m)%Q /\ forall x, In x ts -> (x <= m)%Q.
Proof.
  induction ts as [| a ts IH]; intros t; cbn [fold_left].
  - split; [by left |]. split; [lra | intros x []].
  - cbv zeta in IH. destruct (Qgtb a t) eqn:E.
    + apply Qgtb_true in E. destruct (IH a) as (Hin & Hle & Hall).
      split; [destruct Hin as [-> | Hin]; right; [by left | by right] |].
      split; [lra |]. intros x [<- | Hx]; [exact Hle | by apply Hall].
    + apply Qgtb_false in E. destruct (IH t) as (Hin & Hle & Hall).
      split; [destruct Hin as [-> | Hin]; [by left | right; by right] |].
      split; [exact Hle |]. intros x [<- | Hx]; [lra | by apply Hall].
Qed.

Lemma fold_min_spec (ts : list Q) : forall t,
  let m := fold_left (fun m x => if Qgtb m x then x else m) ts t in
  (m = t \/ In m ts) /\ (m <= t)%Q /\ forall x, In x ts -> (m <= x)%Q.
Proof.
  induction ts as [| a ts IH]; intros t; cbn [fold_left].
  - split; [by left |]. split; [lra | intros x []].
  - cbv zeta in IH. destruct (Qgtb t a) eqn:E.
    + apply Qgtb_true in E. destruct (IH a) as (Hin & Hle & Hall).
      split; [destruct Hin as [-> | Hin]; right; [by left | by right] |].
      split; [lra |]. intros x [<- | Hx]; [exact Hle | by apply Hall].
    + apply Qgtb_false in E. destruct (IH t) as (Hin & Hle & Hall).
      split; [destruct Hin as [-> | Hin]; [by left | right; by right] |].
      split; [exact Hle |]. intros x [<- | Hx]; [lra | by apply Hall].
Qed.

(** *** The records of a loaded dataset *)

Lemma extract_loaded (others : gmap string (list Event)) name df :
  extract_training_features {| datasets := <[name := df]> others |} name
  = Some (map (case_features name df) (unique (map case_concept_name df))).
Proof.
  unfold extract_training_features; cbn [datasets].
  by rewrite lookup_insert_eq.
Qed.

Lemma case_id_of_features name df ids :
  map case_id (map (case_features name df) ids) = ids.
Proof. rewrite map_map. cbn [case_features case_id]. apply map_id. Qed.

(** X12: a dataset that is not loaded yields no table.  A loaded frame
    with at least one event yields a table that is not empty and has one
    record per case identifier of its events, in the order in which the
    identifiers first appear and without repetition, hence at most as many
    records as events. *)
Theorem one_record_per_case :
  (forall (self : BPIDataExplorer) (name : string),
     datasets self !! name = None -> extract_training_features self name = None)
  /\ (forall (others : gmap string (list Event)) (name : string) (df : list Event),
        df <> [] ->
        exists fs,
          extract_training_features {| datasets := <[name := df]> others |} name
          = Some fs
          /\ fs <> []
          /\ map case_id fs = unique (map case_concept_name df)
          /\ NoDup (map case_id fs)
          /\ (forall id, id ∈ map case_id fs <-> exists e, e ∈ df /\ case_concept_name e = id)
          /\ (length fs <= length df)%nat).
Proof.
  split.
  - intros self name H. unfold extract_training_features. by rewrite H.
  - intros others name df Hdf. rewrite extract_loaded. eexists.
    split; [reflexivity |].
    rewrite case_id_of_features.
    split; [by destruct df | ].
    split; [reflexivity |]. split; [apply NoDup_unique |]. split.
    + intros id. rewrite elem_of_unique, list_elem_of_fmap.
      split; intros (e & H1 & H2); exists e; auto.
    + rewrite length_map.
      pose proof (NoDup_unique (map case_concept_name df)) as Hnd.
      rewrite <- (length_map case_concept_name df).
      apply submseteq_length, NoDup_submseteq; [exact Hnd |].
      intros x. by rewrite elem_of_unique.
Qed.

Lemma one_record_per_case_witness :
  extract_training_features {| datasets := ∅ |} "domestic_declarations" = None
  /\ exists fs,
       extract_training_features
         {| datasets := <["domestic_declarations" := sample_frame]> ∅ |}
         "domestic_declarations" = Some fs
       /\ map case_id fs = ["declaration 1"; "declaration 2"].
Proof.
  destruct one_record_per_case as [Hnone Hsome]. split.
  - apply (Hnone {| datasets := ∅ |} "domestic_declarations"). reflexivity.
  - destruct (Hsome ∅ "domestic_declarations" sample_frame) as (fs & Hfs & _ & Hids & _);
      [discriminate |].
    exists fs. split; [exact Hfs | exact Hids].
Defined.

(** *** Activity counts *)

Lemma column_sum_split (g : string -> Z) (x : string) (l : list string) :
  NoDup l ->
  column_sum (map g l)
  = (if decide (x ∈ l) then g x else 0)
    + column_sum (map g (filter (fun y => y <> x) l)).
Proof.
  induction 1 as [| a l Ha Hnd IH]; [reflexivity |].
  cbn [map column_sum fold_right]. fold (column_sum (map g l)).
  rewrite IH, filter_cons. destruct (decide (a = x)) as [-> | Hne].
  - rewrite (decide_True (P := x ∈ x :: l)) by apply list_elem_of_here.
    rewrite (decide_False (P := x ∈ l)) by exact Ha.
    rewrite (decide_False (P := x <> x)) by (intros H; by apply H). lia.
  - rewrite (decide_True (P := a <> x)) by exact Hne.
    cbn [map column_sum fold_right].
    fold (column_sum (map g (filter (fun y => y <> x) l))).
    destruct (decide (x ∈ l)) as [Hin | Hout].
    + rewrite (decide_True (P := x ∈ a :: l)) by (by apply list_elem_of_further). lia.
    + rewrite (decide_False (P := x ∈ a :: l)); [lia |].
      intros [E | E]%elem_of_cons; [by symmetry in E | done].
Qed.

Lemma column_sum_ext (g h : string -> Z) (l : list string) :
  (forall y, y ∈ l -> g y = h y) -> column_sum (map g l) = column_sum (map h l).
Proof.
  induction l as [| a l IH]; intros H; [reflexivity |].
  cbn [map column_sum fold_right].
  fold (column_sum (map g l)). fold (column_sum (map h l)).
  rewrite (H a), IH; [reflexivity | | apply list_elem_of_here].
  intros y Hy. by apply H, list_elem_of_further.
Qed.

Lemma case_rows_absent (df : list Event) (id : string) :
  (forall e, e ∈ df -> case_concept_name e <> id) -> case_rows df id = [].
Proof.
  unfold case_rows. induction df as [| e df IH]; intros H; [reflexivity |].
  rewrite filter_cons, decide_False by apply H, list_elem_of_here.
  apply IH. intros x Hx. by apply H, list_elem_of_further.
Qed.

(** The cases partition the events of the frame. *)
Lemma case_rows_partition (df : list Event) :
  column_sum (map (fun id => Z.of_nat (length (case_rows df id)))
                  (unique (map case_concept_name df)))
  = Z.of_nat (length df).
Proof.
  induction df as [| e df IH]; [reflexivity |].
  cbn [map unique column_sum fold_right length].
  fold (column_sum (map (fun id => Z.of_nat (length (case_rows (e :: df) id)))
          (filter (fun y => y <> case_concept_name e)
                  (unique (map case_concept_name df))))).
  rewrite (column_sum_ext _ (fun id => Z.of_nat (length (case_rows df id)))).
  - rewrite (column_sum_split _ (case_concept_name e) _
               (NoDup_unique (map case_concept_name df))) in IH.
    unfold case_rows at 1. rewrite filter_cons, decide_True by reflexivity.
    cbn [length]. fold (case_rows df (case_concept_name e)).
    destruct (decide (case_concept_name e ∈ unique (map case_concept_name df)))
      as [Hin | Hout]; [lia |].
    assert (Hnone : case_rows df (case_concept_name e) = []).
    { apply case_rows_absent. intros x Hx E.
      apply Hout, elem_of_unique, list_elem_of_fmap. eauto. }
    rewrite Hnone. cbn [length]. lia.
  - intros y [Hy _]%list_elem_of_filter. unfold case_rows.
    rewrite filter_cons, decide_False; [reflexivity | by intros E; apply Hy].
Qed.

Lemma case_events_length name df id :
  activity_count (case_features name df id) = Z.of_nat (length (case_rows df id)).
Proof.
  unfold case_features; cbn [activity_count]. fold (case_rows df id).
  by rewrite (Permutation_length (sort_values_perm _)).
Qed.

(** X13: every record counts at least one activity; its activity sequence
    and its timestamps have that many entries; the number of distinct
    activities lies between 1 and the activity count; and over the whole
    table the activity counts add up to the number of events of the frame:
    every event is counted in exactly one case. *)
Theorem activity_counts_partition_events
    (others : gmap string (list Event)) (name : string) (df : list Event) :
  exists fs,
    extract_training_features {| datasets := <[name := df]> others |} name = Some fs
    /\ column_sum (map activity_count fs) = Z.of_nat (length df)
    /\ Forall (fun f =>
                 1 <= activity_count f
                 /\ activity_count f = Z.of_nat (length (activities_sequence f))
                 /\ activity_count f = Z.of_nat (length (timestamps f))
                 /\ 1 <= unique_activities f <= activity_count f) fs.
Proof.
  rewrite extract_loaded. eexists. split; [reflexivity |]. split.
  - rewrite map_map.
    rewrite (map_ext _ (fun id => Z.of_nat (length (case_rows df id))))
      by (intros id; apply case_events_length).
    apply case_rows_partition.
  - apply List.Forall_map, Forall_forall. intros id Hid.
    apply elem_of_unique, list_elem_of_fmap in Hid as (e & -> & He).
    assert (Hne : (1 <= length (case_rows df (case_concept_name e)))%nat).
    { assert (Hin : e ∈ case_rows df (case_concept_name e))
        by (by apply list_elem_of_filter).
      destruct (case_rows df (case_concept_name e)); [by apply elem_of_nil in Hin |].
      cbn [length]. lia. }
    rewrite case_events_length.
    unfold case_features;
      cbn [activities_sequence timestamps unique_activities].
    fold (case_rows df (case_concept_name e)).
    rewrite !length_map, (Permutation_length (sort_values_perm _)).
    set (names := map concept_name (sort_values (case_rows df (case_concept_name e)))).
    assert (Hlen : length names = length (case_rows df (case_concept_name e))).
    { subst names. by rewrite length_map, (Permutation_length (sort_values_perm _)). }
    assert (Hu : (length (unique names) <= length names)%nat).
    { apply submseteq_length, NoDup_submseteq; [apply NoDup_unique |].
      intros x. by rewrite elem_of_unique. }
    assert (Hu1 : (1 <= length (unique names))%nat).
    { destruct names as [| a names]; [cbn [length] in Hlen; lia |].
      cbn [unique length]. lia. }
    repeat split; lia.
Qed.

(** *** Per-record properties *)

(** A property of the record of every case that has an event holds for
    every record of the table. *)
Lemma records_forall (others : gmap string (list Event)) name df (P : Features -> Prop) :
  (forall e, e ∈ df -> P (case_features name df (case_concept_name e))) ->
  exists fs,
    extract_training_features {| datasets := <[name := df]> others |} name = Some fs
    /\ Forall P fs.
Proof.
  intros H. rewrite extract_loaded. eexists. split; [reflexivity |].
  apply List.Forall_map, Forall_forall. intros id Hid.
  apply elem_of_unique, list_elem_of_fmap in Hid as (e & -> & He). by apply H.
Qed.

Lemma sorted_times (events : list Event) :
  Sorted earlier events -> Sorted Qle (map time_timestamp events).
Proof.
  induction 1 as [| e events Hs IH Hhd]; cbn [map]; constructor; [exact IH |].
  destruct Hhd; cbn [map]; constructor. assumption.
Qed.

(** X14: the activity sequence and the timestamps of a record list the
    events of its case, each once, ordered by time: the timestamps are
    ascending and the two lists are aligned. *)
Theorem records_are_sorted_by_time
    (others : gmap string (list Event)) (name : string) (df : list Event) :
  exists fs,
    extract_training_features {| datasets := <[name := df]> others |} name = Some fs
    /\ Forall (fun f =>
                 exists events,
                   events ≡ₚ case_rows df (case_id f)
                   /\ Sorted earlier events
                   /\ activities_sequence f = map concept_name events
                   /\ timestamps f = map time_timestamp events
                   /\ Sorted Qle (timestamps f)) fs.
Proof.
  apply records_forall. intros e He.
  exists (sort_values (case_rows df (case_concept_name e))).
  unfold case_features; cbn [case_id activities_sequence timestamps].
  fold (case_rows df (case_concept_name e)).
  split; [apply sort_values_perm |]. split; [apply sort_values_sorted |].
  split; [reflexivity |]. split; [reflexivity |].
  apply sorted_times, sort_values_sorted.
Qed.

Lemma days_between_mono (a b c d : Q) :
  (c <= a)%Q -> (b <= d)%Q -> (days_between a b <= days_between c d)%Q.
Proof. unfold days_between. intros H1 H2. lra_div. Qed.

(** X15: the duration of a record is never negative: it is the time in
    days between two events of the case, and the time between any two
    events of the case does not exceed it. *)
Theorem duration_is_the_span_of_the_case
    (others : gmap string (list Event)) (name : string) (df : list Event) :
  exists fs,
    extract_training_features {| datasets := <[name := df]> others |} name = Some fs
    /\ Forall (fun f =>
                 (0 <= total_duration_days f)%Q
                 /\ (exists first last,
                       first ∈ case_rows df (case_id f)
                       /\ last ∈ case_rows df (case_id f)
                       /\ total_duration_days f
                          = days_between (time_timestamp first) (time_timestamp last))
                 /\ (forall a b,
                       a ∈ case_rows df (case_id f) -> b ∈ case_rows df (case_id f) ->
                       (days_between (time_timestamp a) (time_timestamp b)
                        <= total_duration_days f)%Q)) fs.
Proof.
  apply records_forall. intros e He.
  unfold case_features; cbn [case_id total_duration_days].
  fold (case_rows df (case_concept_name e)).
  set (rows := case_rows df (case_concept_name e)).
  assert (Hmem : forall x, x ∈ sort_values rows <-> x ∈ rows)
    by (intros x; by rewrite sort_values_perm).
  assert (Hin : e ∈ sort_values rows)
    by (apply Hmem; subst rows; by apply list_elem_of_filter).
  destruct (sort_values rows) as [| x events] eqn:E; [by apply elem_of_nil in Hin |].
  cbn [map series_max series_min].
  destruct (fold_max_spec (map time_timestamp events) (time_timestamp x))
    as (Hmax_in & Hmax_ge & Hmax_all).
  destruct (fold_min_spec (map time_timestamp events) (time_timestamp x))
    as (Hmin_in & Hmin_le & Hmin_all).
  cbv zeta in *.
  set (latest := fold_left (fun m t => if Qgtb t m then t else m) _ _) in *.
  set (earliest := fold_left (fun m t => if Qgtb m t then t else m) _ _) in *.
  assert (Hpick : forall t, t = time_timestamp x \/ In t (map time_timestamp events) ->
                            exists ev, ev ∈ rows /\ time_timestamp ev = t).
  { intros t [-> | Ht].
    - exists x. split; [apply Hmem, list_elem_of_here | reflexivity].
    - apply in_map_iff in Ht as (ev & <- & Hev). exists ev.
      split; [apply Hmem, list_elem_of_further, list_elem_of_In, Hev | reflexivity]. }
  assert (Hbounds : forall ev, ev ∈ rows ->
                      (earliest <= time_timestamp ev)%Q
                      /\ (time_timestamp ev <= latest)%Q).
  { intros ev [-> | Hev]%Hmem%elem_of_cons; [split; assumption |].
    apply list_elem_of_In in Hev.
    split; [apply Hmin_all | apply Hmax_all]; by apply in_map. }
  split; [| split].
  - change ((latest - earliest) / 86400)%Q with (days_between earliest latest).
    unfold days_between. assert (earliest <= latest)%Q by lra. lra_div.
  - destruct (Hpick earliest Hmin_in) as (first & Hf & <-).
    destruct (Hpick latest Hmax_in) as (last & Hl & <-).
    exists first, last. repeat split; assumption.
  - intros a b Ha Hb.
    change ((latest - earliest) / 86400)%Q with (days_between earliest latest).
    apply days_between_mono; [apply (Hbounds a Ha) | apply (Hbounds b Hb)].
Qed.

(** Letter case is ignored the way the regular expression ignores it: the
    long s of "ſubmitted" counts as an S. *)
Lemma contains_nocase_examples :
  contains_nocase "SUBMITTED" "Declaration ſubmitted" = true
  /\ contains_nocase "SUBMITTED" "Declaration submitted by EMPLOYEE" = true
  /\ contains_nocase "APPROVED" "Declaration SUBMITTED by EMPLOYEE" = false.
Proof. vm_compute. auto. Qed.

(** X16: a record has an approval time exactly when its case has an event
    whose name contains SUBMITTED and one whose name contains APPROVED,
    letter case ignored; the approval time is then the time in days from the
    earliest such submission to the earliest such approval, whatever their
    order. *)
Theorem approval_time_from_first_events
    (others : gmap string (list Event)) (name : string) (df : list Event) :
  exists fs,
    extract_training_features {| datasets := <[name := df]> others |} name = Some fs
    /\ Forall (fun f =>
                 let rows := case_rows df (case_id f) in
                 let submitted e := contains_nocase "SUBMITTED" (concept_name e) = true in
                 let approved e := contains_nocase "APPROVED" (concept_name e) = true in
                 (is_Some (approval_time_days f)
                  <-> (exists s, s ∈ rows /\ submitted s)
                      /\ (exists a, a ∈ rows /\ approved a))
                 /\ (forall days,
                       approval_time_days f = Some days ->
                       exists s a,
                         s ∈ rows /\ submitted s /\ a ∈ rows /\ approved a
                         /\ days = days_between (time_timestamp s) (time_timestamp a)
                         /\ (forall s', s' ∈ rows -> submitted s' -> earlier s s')
                         /\ (forall a', a' ∈ rows -> approved a' -> earlier a a'))) fs.
Proof.
  apply records_forall. intros e He. cbv zeta.
  unfold case_features; cbn [case_id approval_time_days].
  fold (case_rows df (case_concept_name e)).
  set (rows := case_rows df (case_concept_name e)).
  assert (Hmem : forall x, x ∈ sort_values rows <-> x ∈ rows)
    by (intros x; by rewrite sort_values_perm).
  pose proof (sort_values_strongly_sorted rows) as Hsorted.
  set (submitted := fun e => contains_nocase "SUBMITTED" (concept_name e) = true).
  set (approved := fun e => contains_nocase "APPROVED" (concept_name e) = true).
  assert (Hnone : forall (P : Event -> Prop) `{forall e, Decision (P e)},
            filter P (sort_values rows) = [] -> forall x, x ∈ rows -> ~ P x).
  { intros P HP Hnil x Hx HPx.
    assert (Hin : x ∈ filter P (sort_values rows))
      by (apply list_elem_of_filter; split; [exact HPx | by apply Hmem]).
    rewrite Hnil in Hin. by apply elem_of_nil in Hin. }
  destruct (filter submitted (sort_values rows)) as [| s ss] eqn:Es.
  - split.
    + split; [intros [v Hv]; discriminate Hv |].
      intros [(s & Hs & Ps) _]. by destruct (Hnone submitted _ Es s Hs).
    + intros days Hd. discriminate Hd.
  - destruct (filter approved (sort_values rows)) as [| a aa] eqn:Ea.
    + split.
      * split; [intros [v Hv]; discriminate Hv |].
        intros [_ (a & Ha & Pa)]. by destruct (Hnone approved _ Ea a Ha).
      * intros days Hd. discriminate Hd.
    + destruct (first_match_earliest submitted _ s ss Hsorted Es) as (Ps & Hs & Hsmin).
      destruct (first_match_earliest approved _ a aa Hsorted Ea) as (Pa & Ha & Hamin).
      apply Hmem in Hs, Ha.
      split.
      * split; [intros _; split; eauto | intros _; eauto].
      * intros days Hd. injection Hd as <-.
        exists s, a. repeat split; try assumption.
        -- intros s' Hs' Ps'. apply Hsmin; [by apply Hmem | exact Ps'].
        -- intros a' Ha' Pa'. apply Hamin; [by apply Hmem | exact Pa'].
Qed.

End ExplorationExtra.

(** ** Further properties of the deployment validator *)

Module ValidatorExtra.
Import Validator ValidatorFacts FailureFacts ValidatorSpec.

Ltac run_se :=
  cbn [mbind mret SE_bind SE_ret result_bind result_ret lift modify try_ fst snd].

(** X17: the configuration check is for information only: it leaves the
    results dictionary as it is, and neither the dictionary returned by a run
    nor the exit status depends on what the scan of the configuration table
    answers, not even on its failing. *)
Theorem configuration_scan_is_not_scored
    (aws : Clients) (answer : string -> result (list (gmap string (gmap string string))))
    (report : bool) (results : Results) :
  validate_system_configuration aws results = (Ok (config_checks aws), results)
  /\ run_full_validation (with_scan aws answer) results = run_full_validation aws results
  /\ main (with_scan aws answer) report results = main aws report results.
Proof. repeat split. Qed.

(** One step of a [try] block: the next external call or JSON operation
    either raises, which ends the block, or returns. *)
Ltac next_call :=
  match goal with
  | |- context [match ?r with Ok _ => _ | Raise _ => _ end] =>
      destruct r eqn:?; run_se
  end.

(** X18: the research-compliance check ends in one of two ways.  Either a
    step raised: the error is recorded and the score is 0.  Or no step
    raised: both computed criteria are recorded, the two fixed criteria hold,
    and the score is 50, plus 25 when the benchmarks are implemented, plus 25
    when the Agile source is cited. *)
Theorem research_score_values (aws : Clients) :
  let r := research_checks aws in
  (exists e, research_validation_error r = Some e /\ compliance_score r = 0%Q)
  \/ (exists implemented cited,
        research_validation_error r = None
        /\ benchmarks_implemented r = Some implemented
        /\ agile_source_cited r = Some cited
        /\ methodology_rigor r = true /\ empirical_validation r = true
        /\ (compliance_score r
            == 50 + (if implemented then 25 else 0) + (if cited then 25 else 0))%Q).
Proof.
  cbv zeta. unfold research_checks, research_compliance_body, fetch_json.
  unfold try_, mbind, SE_bind, lift, modify, mret, SE_ret, result_bind.
  cbn [fst snd].
  repeat next_call; try (left; eexists; split; reflexivity).
  right. do 2 eexists. repeat split.
  cbn [compliance_score set_compliance_score].
  repeat match goal with b : bool |- _ => destruct b end; reflexivity.
Qed.

(** X19: the framework-knowledge check ends in one of two ways.  Either a
    step raised: the error is recorded and the score is 0, whatever was
    recorded before the failure, and a recorded sub-dictionary implies that
    the earlier ones are recorded too.  Or no step raised: all four
    sub-dictionaries are recorded and the score is the share of the six
    completeness criteria that the recorded counts meet. *)
Theorem framework_score_values (aws : Clients) :
  let r := framework_checks aws in
  ((exists e, framework_validation_error r = Some e)
   /\ knowledge_completeness_score r = 0%Q
   /\ integration_rules r = None
   /\ (is_Some (operating_model r) -> is_Some (lean_framework r))
   /\ (is_Some (lean_framework r) -> is_Some (agile_framework r)))
  \/ (framework_validation_error r = None
      /\ exists criteria,
           recorded_criteria r = Some criteria
           /\ knowledge_completeness_score r = criteria_score criteria).
Proof.
  cbv zeta. unfold framework_checks, framework_knowledge_body, fetch_json,
    count_of, has_both.
  unfold try_, mbind, SE_bind, lift, modify, mret, SE_ret, result_bind, result_ret.
  cbn [fst snd].
  repeat next_call;
    try (left; split; [eexists; reflexivity |];
         repeat split; cbn; intros [? H]; first [discriminate H | eauto]).
  all: right; split; [reflexivity |]; eexists; split; reflexivity.
Qed.

(** X20: the Agile knowledge document feeds two categories.  When it
    cannot be fetched or parsed, the framework-knowledge score and the
    research-compliance score are both 0, whatever the other documents hold;
    the overall score is then at most 45 and the exit status is 2. *)
Theorem agile_document_failure_fails_the_run
    (aws : Clients) (e : exn) (report : bool) :
  fetch_json aws agile_key = Raise e ->
  knowledge_completeness_score (framework_checks aws) = 0%Q
  /\ framework_validation_error (framework_checks aws) = Some e
  /\ compliance_score (research_checks aws) = 0%Q
  /\ is_Some (research_validation_error (research_checks aws))
  /\ exists results,
       main aws report init_results = (Ok 2, results)
       /\ (overall_score results <= 45)%Q.
Proof.
  intros Hfail.
  assert (Hf : knowledge_completeness_score (framework_checks aws) = 0%Q
               /\ framework_validation_error (framework_checks aws) = Some e).
  { unfold framework_checks, framework_knowledge_body.
    fold agile_key. unfold try_, mbind at 1, SE_bind at 1, lift at 1.
    rewrite Hfail. split; reflexivity. }
  assert (Hr : compliance_score (research_checks aws) = 0%Q
               /\ is_Some (research_validation_error (research_checks aws))).
  { unfold research_checks, research_compliance_body. fold agile_key.
    revert Hfail. generalize (fetch_json aws agile_key). intros agile ->.
    generalize (fetch_json aws "validation_data/benchmark_examples.json").
    intros benchmark.
    unfold try_, mbind, SE_bind, lift, modify, mret, SE_ret.
    cbn [fst snd].
    repeat next_call; split; cbn; eauto. }
  destruct Hf as [Hf1 Hf2]. destruct Hr as [Hr1 Hr2].
  repeat split; try assumption.
  destruct (run_summary aws report)
    as (results & _ & Hmain & _ & _ & _ & _ & Hsum & _).
  exists results.
  assert (Hle : (overall_score results <= 45)%Q).
  { rewrite Hsum, Hf1, Hr1.
    destruct (infrastructure_score_percentage aws) as [_ Hi].
    destruct (data_quality_score_percentage aws) as [_ Hd]. lra. }
  split; [| exact Hle].
  rewrite Hmain. do 2 f_equal.
  apply exit_status_tiers. lra.
Qed.

Lemma agile_document_failure_fails_the_run_witness :
  exists results,
    main sample_services false init_results = (Ok 2, results)
    /\ (overall_score results <= 45)%Q.
Proof.
  destruct (agile_document_failure_fails_the_run sample_services
              (ClientError "NoSuchKey") false eq_refl)
    as (_ & _ & _ & _ & results & Hmain & Hle).
  exists results. split; assumption.
Defined.

(** *** Tables that are not active *)

Lemma run_full_validation_assembled aws r :
  run_full_validation aws r
  = (let results := assembled (infrastructure_checks aws) (data_checks aws)
                      (framework_checks aws) (research_checks aws) r in
     (Ok results, results)).
Proof. reflexivity. Qed.

Lemma fold_left_ext {A B} (f g : A -> B -> A) (l : list B) :
  (forall a b, f a b = g a b) -> forall a, fold_left f l a = fold_left g l a.
Proof.
  intros H. induction l as [| b l IH]; intros a; cbn [fold_left]; [reflexivity |].
  by rewrite H, IH.
Qed.

(** X21: a table whose status is anything but ACTIVE counts exactly like a
    table whose status query fails: the run returns the same dictionary and
    the same exit status. *)
Theorem inactive_table_counts_as_failed
    (aws : Clients) (table_name status : string) (e : exn) (report : bool)
    (results : Results) :
  describe_table aws table_name = Ok status ->
  status <> "ACTIVE" ->
  run_full_validation aws results
  = run_full_validation (failing (TableQuery table_name) e aws) results
  /\ main aws report results
     = main (failing (TableQuery table_name) e aws) report results.
Proof.
  intros Hstatus Hinactive.
  assert (Hinfra : infrastructure_checks (failing (TableQuery table_name) e aws)
                   = infrastructure_checks aws).
  { unfold infrastructure_checks.
    cbn [failing head_bucket list_foundation_models]. f_equal.
    apply fold_left_ext. intros d k. unfold check_table; cbn [failing describe_table].
    destruct (String.eqb_spec k table_name) as [-> | _]; [| reflexivity].
    rewrite Hstatus. apply String.eqb_neq in Hinactive. by rewrite Hinactive. }
  assert (Hrun : run_full_validation aws results
                 = run_full_validation (failing (TableQuery table_name) e aws) results).
  { rewrite !run_full_validation_assembled, Hinfra. reflexivity. }
  split; [exact Hrun |].
  unfold main. unfold mbind at 1 3, SE_bind at 1 3. by rewrite Hrun.
Qed.

Lemma inactive_table_counts_as_failed_witness :
  let creating :=
    {| head_bucket := head_bucket sample_services;
       describe_table := fun _ => Ok "CREATING";
       list_foundation_models := list_foundation_models sample_services;
       head_object := head_object sample_services;
       get_object := get_object sample_services;
       json_loads := json_loads sample_services;
       scan := scan sample_services |} in
  main creating false init_results
  = main (failing (TableQuery "system-configuration") (ClientError "Throttled") creating)
         false init_results.
Proof.
  cbv zeta.
  apply (inactive_table_counts_as_failed _ "system-configuration" "CREATING").
  - reflexivity.
  - discriminate.
Defined.

(** *** The extreme scores *)

Lemma count_all {A} (P : A -> Prop) `{forall x, Decision (P x)} (l : list A) :
  length (filter P l) = length l <-> Forall P l.
Proof.
  induction l as [| x l IH]; [by split; [constructor |] |].
  rewrite filter_cons. pose proof (filter_length_le P l) as Hle.
  destruct (decide (P x)) as [Hx | Hx]; cbn [length].
  - split.
    + intros E. constructor; [exact Hx | apply IH; lia].
    + intros [_ Hl]%Forall_cons. apply IH in Hl. lia.
  - split; [lia | by intros [? _]%Forall_cons].
Qed.

Lemma count_none {A} (P : A -> Prop) `{forall x, Decision (P x)} (l : list A) :
  length (filter P l) = 0%nat <-> Forall (fun x => ~ P x) l.
Proof.
  induction l as [| x l IH]; [by split; [constructor |] |].
  rewrite filter_cons.
  destruct (decide (P x)) as [Hx | Hx]; cbn [length].
  - split; [lia | by intros [? _]%Forall_cons].
  - split.
    + intros E. constructor; [exact Hx | by apply IH].
    + intros [_ Hl]%Forall_cons. by apply IH.
Qed.

Lemma inject_nat_eq (c n : nat) :
  (inject_Z (Z.of_nat c) == inject_Z (Z.of_nat n))%Q <-> c = n.
Proof. rewrite inject_Z_injective. lia. Qed.

(** Closed comparisons of scores. *)
Ltac closed_score :=
  split; split;
    [ intros H; vm_compute in H; first [discriminate H | repeat split; reflexivity]
    | intros H; first [ destruct H as (? & ? & ?); discriminate
                      | discriminate H
                      | vm_compute; reflexivity ]
    | intros H; vm_compute in H; first [discriminate H | repeat split; reflexivity]
    | intros H; first [ destruct H as (? & ? & ?); discriminate
                      | discriminate H
                      | vm_compute; reflexivity ] ].

Lemma infrastructure_score_extremes aws :
  let i := infrastructure_checks aws in
  ((infrastructure_score (Some i) == 100)%Q
   <-> s3_bucket i = true
       /\ Forall (fun n => table_active aws n = true) required_tables
       /\ bedrock_access i = true)
  /\ ((infrastructure_score (Some i) == 0)%Q
      <-> s3_bucket i = false
          /\ Forall (fun n => table_active aws n <> true) required_tables
          /\ bedrock_access i = false).
Proof.
  cbv zeta. rewrite infrastructure_score_eq. cbv zeta.
  set (c := length (filter (fun k => table_active aws k = true) required_tables)).
  assert (Hall : c = 4%nat <-> Forall (fun n => table_active aws n = true) required_tables)
    by apply (count_all (fun n => table_active aws n = true) required_tables).
  assert (Hnone : c = 0%nat
                  <-> Forall (fun n => table_active aws n <> true) required_tables)
    by apply (count_none (fun n => table_active aws n = true) required_tables).
  rewrite <- Hall, <- Hnone.
  assert (Hc : (c <= 4)%nat)
    by apply (filter_length_le (fun k => table_active aws k = true) required_tables).
  clearbody c. clear Hall Hnone.
  destruct (s3_bucket _), (bedrock_access _);
    do 5 (destruct c as [| c]; [closed_score |]); lia.
Qed.

Lemma data_quality_score_extremes aws :
  ((data_quality_score (data_checks aws) == 100)%Q
   <-> Forall (fun k => file_exists aws k = true) all_files)
  /\ ((data_quality_score (data_checks aws) == 0)%Q
      <-> Forall (fun k => file_exists aws k <> true) all_files).
Proof.
  rewrite data_quality_score_eq.
  set (c := length (filter (fun k => file_exists aws k = true) all_files)).
  assert (Hall : c = 13%nat <-> Forall (fun k => file_exists aws k = true) all_files)
    by apply (count_all (fun k => file_exists aws k = true) all_files).
  assert (Hnone : c = 0%nat <-> Forall (fun k => file_exists aws k <> true) all_files)
    by apply (count_none (fun k => file_exists aws k = true) all_files).
  rewrite <- Hall, <- Hnone.
  assert (Hc : (c <= 13)%nat)
    by apply (filter_length_le (fun k => file_exists aws k = true) all_files).
  clearbody c. clear Hall Hnone.
  do 14 (destruct c as [| c]; [closed_score |]); lia.
Qed.

(** X22: a run scores 100 exactly when nothing is missing: the bucket
    exists, the four tables are active, the model is listed, the thirteen
    files exist and the framework and research scores are 100; and it scores
    0 exactly when nothing is there at all.  A run that scores 100 exits
    with status 0, a run that scores 0 with status 2. *)
Theorem extreme_scores (aws : Clients) (report : bool) :
  exists results status,
    main aws report init_results = (Ok status, results)
    /\ ((overall_score results == 100)%Q
        <-> s3_bucket (infrastructure_checks aws) = true
            /\ Forall (fun n => table_active aws n = true) required_tables
            /\ bedrock_access (infrastructure_checks aws) = true
            /\ Forall (fun k => file_exists aws k = true) all_files
            /\ (knowledge_completeness_score (framework_checks aws) == 100)%Q
            /\ (compliance_score (research_checks aws) == 100)%Q)
    /\ ((overall_score results == 0)%Q
        <-> s3_bucket (infrastructure_checks aws) = false
            /\ Forall (fun n => table_active aws n <> true) required_tables
            /\ bedrock_access (infrastructure_checks aws) = false
            /\ Forall (fun k => file_exists aws k <> true) all_files
            /\ (knowledge_completeness_score (framework_checks aws) == 0)%Q
            /\ (compliance_score (research_checks aws) == 0)%Q)
    /\ ((overall_score results == 100)%Q -> status = 0)
    /\ ((overall_score results == 0)%Q -> status = 2).
Proof.
  destruct (run_summary aws report)
    as (results & _ & Hmain & _ & _ & _ & _ & Hsum & _).
  exists results, (exit_status (overall_score results)).
  split; [exact Hmain |].
  destruct (infrastructure_score_extremes aws) as [Hi100 Hi0]. cbv zeta in Hi100, Hi0.
  destruct (data_quality_score_extremes aws) as [Hd100 Hd0].
  destruct (infrastructure_score_percentage aws) as [Pi0 Pi1].
  destruct (data_quality_score_percentage aws) as [Pd0 Pd1].
  destruct (knowledge_completeness_score_percentage aws) as [Pf0 Pf1].
  destruct (compliance_score_percentage aws) as [Pr0 Pr1].
  set (a := infrastructure_score (Some (infrastructure_checks aws))) in *.
  set (b := data_quality_score (data_checks aws)) in *.
  set (c := knowledge_completeness_score (framework_checks aws)) in *.
  set (d := compliance_score (research_checks aws)) in *.
  set (o := overall_score results) in *.
  assert (H100 : (o == 100)%Q
                 <-> (a == 100)%Q /\ (b == 100)%Q /\ (c == 100)%Q /\ (d == 100)%Q).
  { clearbody a b c d o. split; [intros H; repeat split; lra | intros (? & ? & ? & ?); lra]. }
  assert (H0 : (o == 0)%Q
               <-> (a == 0)%Q /\ (b == 0)%Q /\ (c == 0)%Q /\ (d == 0)%Q).
  { clearbody a b c d o. split; [intros H; repeat split; lra | intros (? & ? & ? & ?); lra]. }
  split; [| split; [| split]].
  - rewrite H100, Hi100, Hd100. tauto.
  - rewrite H0, Hi0, Hd0. tauto.
  - intros H. apply exit_status_tiers. clearbody o. lra.
  - intros H. apply exit_status_tiers. clearbody o. lra.
Qed.

(** *** The configuration check *)

Lemma record_config_items_recording items :
  preserves recording (record_config_items items).
Proof.
  induction items as [| item items IH]; cbn [record_config_items].
  - apply preserves_ret.
  - repeat first
      [ apply preserves_bind; [| intros ?]
      | apply preserves_lift
      | exact IH
      | apply preserves_modify; intros ? ?; assumption ].
Qed.

Lemma config_checks_eq aws :
  config_checks aws
  = match scan aws "system-configuration" with
    | Raise e => set_config_validation_error e empty_config_results
    | Ok items =>
        match record_config_items items empty_config_results with
        | (Ok _, s1) => (check_required_configs s1).2
        | (Raise e, s1) => set_config_validation_error e s1
        end
    end.
Proof.
  unfold config_checks, try_, system_configuration_body, mbind, SE_bind, lift.
  destruct (scan aws "system-configuration") as [items | e]; [| reflexivity].
  by destruct (record_config_items items empty_config_results) as [[[] | e] s1].
Qed.

(** X23: the configuration check never raises and ends in one of two
    ways.  Either the scan or an item failed: the settings are marked
    invalid, the error is recorded, the completeness stays 0 and no list of
    missing items is written; a failed scan leaves no item at all.  Or
    nothing failed: the settings stay valid, the missing items are the
    required ones without a recorded entry, and the completeness is the
    share of the four required items that are present, 100 exactly when none
    is missing. *)
Theorem configuration_check_outcomes (aws : Clients) :
  let r := config_checks aws in
  percentage (configuration_completeness r)
  /\ (forall e, scan aws "system-configuration" = Raise e ->
      r = set_config_validation_error e empty_config_results)
  /\ ((exists e, config_validation_error r = Some e
                 /\ valid_settings r = false
                 /\ configuration_completeness r = 0%Q
                 /\ missing_configurations r = None)
      \/ (config_validation_error r = None
          /\ valid_settings r = true
          /\ exists missing,
               missing_configurations r = Some missing
               /\ missing = filter (fun cfg => configuration_items r !! cfg = None)
                                   required_configs
               /\ (configuration_completeness r
                   == inject_Z (4 - Z.of_nat (length missing)) / 4 * 100)%Q
               /\ ((configuration_completeness r == 100)%Q <-> missing = []))).
Proof.
  cbv zeta. rewrite config_checks_eq.
  destruct (scan aws "system-configuration") as [items | e0].
  2: { split; [apply percentage_0 |]. split.
       - intros e E. by injection E as ->.
       - left. exists e0. repeat split. }
  pose proof (record_config_items_recording items empty_config_results) as Hrec.
  destruct (record_config_items items empty_config_results) as [[[] | e] s1].
  - cbn [snd] in Hrec.
    destruct Hrec as (Hv & _ & _ & He); [repeat split |].
    unfold check_required_configs, modify; cbn [snd].
    set (missing := filter (fun cfg => configuration_items s1 !! cfg = None)
                           required_configs).
    assert (Hlen : (length missing <= 4)%nat)
      by apply (filter_length_le _ required_configs).
    cbn [configuration_completeness set_completeness missing_configurations
         config_validation_error valid_settings configuration_items].
    change (Z.of_nat (length required_configs)) with 4.
    assert (Hpct : forall n : nat, (n <= 4)%nat ->
              percentage (inject_Z (4 - Z.of_nat n) / inject_Z 4 * 100)
              /\ ((inject_Z (4 - Z.of_nat n) / inject_Z 4 * 100 == 100)%Q <-> n = 0%nat)).
    { intros n Hn. do 5 (destruct n as [| n];
        [split; [split; vm_compute; discriminate
                | split; intros H; first [reflexivity | discriminate H
                                         | vm_compute in H; discriminate H]] |]).
      lia. }
    destruct (Hpct (length missing) Hlen) as [Hp Hfull].
    split; [exact Hp |]. split; [intros e E; discriminate E |].
    right. split; [exact He |]. split; [exact Hv |].
    exists missing. repeat split.
    + intros H. apply Hfull in H. by destruct missing.
    + intros ->. by apply Hfull.
  - cbn [snd] in Hrec.
    destruct Hrec as (_ & Hc & Hm & _); [repeat split |].
    unfold modify; cbn [snd configuration_completeness set_config_validation_error
                         missing_configurations config_validation_error valid_settings].
    rewrite Hc. split; [apply percentage_0 |]. split; [intros e' E; discriminate E |].
    left. exists e. repeat split. exact Hm.
Qed.

Lemma configuration_check_outcomes_witness :
  config_checks (with_scan sample_services (fun _ => Raise (ClientError "AccessDenied")))
  = set_config_validation_error (ClientError "AccessDenied") empty_config_results.
Proof.
  apply (configuration_check_outcomes
           (with_scan sample_services (fun _ => Raise (ClientError "AccessDenied")))).
  reflexivity.
Defined.

End ValidatorExtra.

(** ** Properties of the data validation suite *)

Module DataValidationExtra.
Import DataValidation ValidatorFacts.

(** *** The download check *)

Lemma download_fold (stat : string -> option Z) (l : list string) :
  forall r,
    let r' := fold_left (check_download stat) l r in
    missing_files r' = missing_files r ++ filter (fun f => is_missing stat f = true) l
    /\ size_issues r'
       = size_issues r ++ filter (fun f => has_size_issue stat f = true) l
    /\ download_complete r'
       = download_complete r && forallb (fun f => negb (is_missing stat f)) l
    /\ forall f,
         file_details r' !! f
         = match (if decide (f ∈ l) then file_detail stat f else None) with
           | Some d => Some d
           | None => file_details r !! f
           end.
Proof.
  induction l as [| a l IH]; intros r; cbv zeta; cbn [fold_left].
  - rewrite !app_nil_r, andb_true_r. split; [| split; [| split]]; reflexivity.
  - destruct (IH (check_download stat r a)) as (Hm & Hs & Hc & Hd).
    rewrite Hm, Hs, Hc. clear Hm Hs Hc.
    rewrite !filter_cons. cbn [forallb].
    unfold check_download, is_missing, has_size_issue, file_detail in *.
    destruct (stat a) as [z |] eqn:Ez.
    + cbn [missing_files size_issues download_complete file_details negb].
      rewrite (decide_False (P := false = true)) by discriminate.
      set (ok := between _ _ _) in *.
      split; [reflexivity |]. split; [| split; [reflexivity |]].
      * destruct ok; cbn [negb size_ok].
        -- by rewrite (decide_False (P := false = true)) by discriminate.
        -- rewrite (decide_True (P := true = true)) by reflexivity.
           by rewrite <- app_assoc.
      * intros f. rewrite Hd. cbn [file_details].
        destruct (decide (f ∈ l)) as [Hin | Hout].
        -- rewrite decide_True by (by apply list_elem_of_further).
           destruct (stat f) eqn:Ef; [reflexivity |].
           destruct (decide (a = f)) as [-> | Hne]; [congruence |].
           by rewrite lookup_insert_ne.
        -- destruct (decide (a = f)) as [<- | Hne].
           ++ rewrite decide_True by apply list_elem_of_here.
              rewrite Ez. by rewrite lookup_insert_eq.
           ++ rewrite decide_False
                by (intros [E | E]%elem_of_cons; [by symmetry in E | done]).
              by rewrite lookup_insert_ne.
    + cbn [missing_files size_issues download_complete file_details negb].
      rewrite (decide_True (P := true = true)) by reflexivity.
      rewrite (decide_False (P := false = true)) by discriminate.
      rewrite andb_false_r. split; [| split; [reflexivity |]; split; [reflexivity |]].
      * by rewrite <- app_assoc.
      * intros f. rewrite Hd. cbn [file_details].
        destruct (decide (f ∈ l)) as [Hin | Hout].
        -- by rewrite decide_True by (by apply list_elem_of_further).
        -- destruct (decide (a = f)) as [<- | Hne].
           ++ rewrite decide_True by apply list_elem_of_here. by rewrite Ez.
           ++ by rewrite decide_False
                by (intros [E | E]%elem_of_cons; [by symmetry in E | done]).
Qed.

(** A size is within a range of megabytes. *)
Lemma size_within (lo hi st_size : Z) :
  between lo (inject_Z st_size / inject_Z (1024 * 1024)) hi = true
  <-> lo * 1048576 <= st_size <= hi * 1048576.
Proof.
  unfold between. rewrite andb_true_iff, !Qle_bool_iff.
  unfold Qdiv. change (/ inject_Z (1024 * 1024))%Q with (1 # 1048576)%Q.
  rewrite !Zle_Qle, !inject_Z_mult.
  change (inject_Z 1048576) with (1048576 # 1)%Q.
  generalize (inject_Z lo), (inject_Z hi), (inject_Z st_size).
  intros a b x. split; intros [H1 H2]; split; lra.
Qed.

(** X24: the download check sorts the five expected files into three
    groups.  The missing files, in order; the files with a size issue, in
    order: those that exist with a size outside their expected range of
    megabytes; and the others, recorded with size_ok.  Every existing file
    and no other has an entry in file_details, and the download is complete
    exactly when no file is missing. *)
Theorem download_check_sorts_the_files (stat : string -> option Z) :
  let r := validate_data_download stat in
  missing_files r = filter (fun f => stat f = None) expected_files
  /\ (download_complete r = true <-> missing_files r = [])
  /\ (forall f, is_Some (file_details r !! f) <-> f ∈ expected_files /\ is_Some (stat f))
  /\ (forall f st_size lo hi,
        f ∈ expected_files -> stat f = Some st_size ->
        expected_sizes !! f = Some (lo, hi) ->
        exists d,
          file_details r !! f = Some d
          /\ (f ∉ missing_files r)
          /\ (size_ok d = true <-> lo * 1048576 <= st_size <= hi * 1048576)
          /\ (f ∈ size_issues r <-> size_ok d = false))
  /\ (forall f, f ∈ size_issues r -> f ∈ expected_files /\ is_Some (stat f))
  /\ (forall f, f ∈ missing_files r -> f ∉ size_issues r).
Proof.
  cbv zeta. unfold validate_data_download.
  destruct (download_fold stat expected_files
              {| download_complete := true; file_details := ∅;
                 missing_files := []; size_issues := [] |})
    as (Hm & Hs & Hc & Hd).
  cbv zeta in Hm, Hs, Hc, Hd. rewrite Hm, Hs, Hc. cbn [missing_files size_issues
    download_complete file_details app andb] in *.
  assert (Hmiss : forall l : list string,
            filter (fun f => is_missing stat f = true) l
            = filter (fun f => stat f = None) l).
  { induction l as [| a l IH]; [reflexivity |].
    rewrite !filter_cons, IH. unfold is_missing.
    destruct (stat a); [| reflexivity].
    rewrite (decide_False (P := false = true)) by discriminate.
    by rewrite decide_False by discriminate. }
  rewrite Hmiss.
  split; [reflexivity |]. split; [| split; [| split; [| split]]].
  - generalize expected_files. induction l as [| a l IH]; [done |].
    cbn [forallb]. rewrite filter_cons. unfold is_missing at 1.
    destruct (stat a); cbn [negb andb].
    + by rewrite decide_False by discriminate.
    + rewrite decide_True by reflexivity. split; discriminate.
  - intros f. rewrite Hd, lookup_empty. unfold file_detail.
    destruct (decide (f ∈ expected_files)) as [Hin | Hout].
    + destruct (stat f); split; intros H; try (split; [exact Hin |]); eauto;
        try (by destruct H as [_ [? ?]]); by destruct H.
    + split; [by intros [? ?] | by intros [? _]].
  - intros f z lo hi Hin Hstat Hrange.
    eexists. rewrite Hd, decide_True by exact Hin.
    unfold file_detail. rewrite Hstat. unfold get. rewrite Hrange.
    cbn [default fst snd]. split; [reflexivity |]. cbn [size_ok].
    split; [| split].
    + rewrite list_elem_of_filter. intros [E _]. congruence.
    + apply size_within.
    + rewrite list_elem_of_filter. unfold has_size_issue, file_detail.
      rewrite Hstat. unfold get. rewrite Hrange. cbn [default fst snd size_ok].
      rewrite negb_true_iff. tauto.
  - intros f [Hissue Hin]%list_elem_of_filter. split; [exact Hin |].
    unfold has_size_issue, file_detail in Hissue.
    destruct (stat f); [eauto | discriminate Hissue].
  - intros f [Hnone _]%list_elem_of_filter [Hissue _]%list_elem_of_filter.
    unfold has_size_issue, file_detail in Hissue. rewrite Hnone in Hissue.
    discriminate Hissue.
Qed.

(** What the run records about the missing files and about
    [download_complete]. *)
Lemma download_complete_missing (stat : string -> option Z) :
  download_complete (validate_data_download stat) = true
  <-> missing_files (validate_data_download stat) = [].
Proof.
  unfold validate_data_download.
  destruct (download_fold stat expected_files
              {| download_complete := true; file_details := ∅;
                 missing_files := []; size_issues := [] |})
    as (Hm & _ & Hc & _).
  cbv zeta in Hm, Hc. rewrite Hm, Hc.
  cbn [missing_files download_complete app andb].
  generalize expected_files. induction l as [| a l IH]; [done |].
  cbn [forallb]. rewrite filter_cons.
  destruct (is_missing stat a); cbn [negb andb].
  - rewrite decide_True by reflexivity. split; discriminate.
  - by rewrite decide_False by discriminate.
Qed.

(** *** The comparison with the published figures *)

Lemma domestic_range :
  subscript research_benchmarks "domestic_avg_duration" = Ok (Range 8 11).
Proof. vm_compute. reflexivity. Qed.

Lemma international_range :
  subscript research_benchmarks "international_avg_duration" = Ok (Range 66 86).
Proof. vm_compute. reflexivity. Qed.

Lemma is_Some_iff_true {A} (x : A) (P : Prop) : P -> (is_Some (Some x) <-> P).
Proof. intros HP. split; [intros _; exact HP | intros _; by exists x]. Qed.

Lemma is_None_iff_false {A} (P : Prop) : ~ P -> (is_Some (@None A) <-> P).
Proof. intros HP. split; [by intros [? ?] | intros H; by destruct HP]. Qed.

(** The accuracy is a count out of at most two. *)
Lemma accuracy_values (domestic international : FeatureMean) (r : BenchmarkResults) :
  validate_against_research_benchmarks domestic international = Ok r ->
  (overall_accuracy r == 0 \/ overall_accuracy r == 1 # 2 \/ overall_accuracy r == 1)%Q.
Proof.
  unfold validate_against_research_benchmarks, check_benchmark.
  rewrite domestic_range, international_range.
  destruct domestic as [[[a |] | e] |], international as [[[b |] | e'] |];
    cbn -[between];
    try destruct (between 8 a 11); try destruct (between 66 b 86);
    cbn -[between]; intros H; try discriminate H; injection H as <-;
    vm_compute; auto.
Qed.

(** X25: the comparison with the published durations looks at the tables
    that exist.  It raises exactly what reading a table raises.  Otherwise
    the credibility is "unknown" when neither table exists, "HIGH" when the
    mean of every table that exists lies in its published range (8 to 11
    days for the domestic declarations, 66 to 86 days for the international
    ones) and "LOW" in every other case: with at most two comparisons the
    accuracy is 0, 1/2 or 1, so "MEDIUM" is never reported.  A table that
    exists is recorded under benchmark_matches when its mean is in range
    and under deviations when it is not (an empty table, whose mean is not
    a number, included). *)
Theorem research_benchmark_outcomes (domestic international : FeatureMean) :
  let d := matches_benchmark 8 11 domestic in
  let i := matches_benchmark 66 86 international in
  match validate_against_research_benchmarks domestic international with
  | Raise e => domestic = Some (Raise e) \/ international = Some (Raise e)
  | Ok r =>
      (forall e, domestic <> Some (Raise e))
      /\ (forall e, international <> Some (Raise e))
      /\ research_credibility r
         = (if negb (found domestic || found international)
            then "unknown"
            else if (d || negb (found domestic))
                    && (i || negb (found international))
                 then "HIGH" else "LOW")
      /\ research_credibility r <> "MEDIUM"
      /\ (overall_accuracy r == 0 \/ overall_accuracy r == 1 # 2
          \/ overall_accuracy r == 1)%Q
      /\ (research_credibility r = "HIGH" <-> (overall_accuracy r == 1)%Q)
      /\ (is_Some (benchmark_matches r !! "domestic_duration") <-> d = true)
      /\ (is_Some (deviations r !! "domestic_duration")
          <-> found domestic = true /\ d = false)
      /\ (is_Some (benchmark_matches r !! "international_duration") <-> i = true)
      /\ (is_Some (deviations r !! "international_duration")
          <-> found international = true /\ i = false)
  end.
Proof.
  cbv zeta. unfold validate_against_research_benchmarks, check_benchmark.
  rewrite domestic_range, international_range.
  destruct domestic as [[[a |] | e] |], international as [[[b |] | e'] |];
    cbn -[between].
  all: try destruct (between 8 a 11) eqn:Ea; try destruct (between 66 b 86) eqn:Eb.
  all: cbn -[between].
  all: try (left; reflexivity); try (right; reflexivity).
  all: split; [intros ?; discriminate |].
  all: split; [intros ?; discriminate |].
  all: split; [vm_compute; reflexivity |].
  all: split; [vm_compute; discriminate |].
  all: split; [vm_compute; intuition congruence |].
  all: split; [vm_compute; intuition congruence |].
  all: repeat match goal with
       | |- context [?x >? 0] =>
           let v := eval vm_compute in (x >? 0) in change (x >? 0) with v
       end.
  all: cbn [benchmark_matches deviations].
  all: rewrite ?lookup_insert_eq, ?lookup_insert_ne, ?lookup_empty by done.
  all: rewrite ?lookup_insert_eq, ?lookup_insert_ne, ?lookup_empty by done.
  all: repeat apply conj;
    first [ apply is_Some_iff_true; repeat split
          | apply is_None_iff_false; intuition discriminate ].
Qed.

(** *** The knowledge files *)

Lemma knowledge_fold (file : string -> KnowledgeFile) (l : list string) :
  NoDup (framework_name <$> l) ->
  forall st,
    let st' := fold_left (check_knowledge_file file) l st in
    let present := filter (fun f => exists_on_disk file f = true) l in
    st'.1 = st.1 + Z.of_nat (length present)
    /\ frameworks_covered st'.2
       = frameworks_covered st.2 ++ (framework_name <$> present)
    /\ (forall f, f ∈ l ->
          content_quality st'.2 !! framework_name f
          = match quality_of file f with
            | Some q => Some q
            | None => content_quality st.2 !! framework_name f
            end)
    /\ (forall name, name ∉ (framework_name <$> l) ->
          content_quality st'.2 !! name = content_quality st.2 !! name).
Proof.
  induction l as [| a l IH]; intros Hnd st; cbv zeta; cbn [fold_left].
  - rewrite Z.add_0_r, app_nil_r.
    split; [reflexivity |]. split; [reflexivity |].
    split; [| reflexivity]. intros f Hf. by apply elem_of_nil in Hf.
  - rewrite fmap_cons in Hnd. apply NoDup_cons in Hnd as [Ha Hnd].
    destruct (IH Hnd (check_knowledge_file file st a)) as (Hn & Hc & Hq & Ho).
    cbv zeta in Hn, Hc, Hq, Ho. rewrite Hn, Hc. clear Hn Hc IH.
    rewrite filter_cons.
    assert (Hstep : forall name,
              content_quality (check_knowledge_file file st a).2 !! name
              = if decide (name = framework_name a)
                then match quality_of file a with
                     | Some q => Some q
                     | None => content_quality st.2 !! name
                     end
                else content_quality st.2 !! name).
    { intros name. unfold check_knowledge_file, quality_of.
      destruct st as [n r]. fold (framework_name a).
      destruct (file a) as [[[size is_dict] | e] |]; cbn [snd content_quality].
      - destruct (decide (name = framework_name a)) as [-> | Hne].
        + by rewrite lookup_insert_eq.
        + by rewrite lookup_insert_ne.
      - by destruct (decide (name = framework_name a)).
      - by destruct (decide (name = framework_name a)). }
    split; [| split; [| split]].
    + unfold check_knowledge_file, exists_on_disk. destruct st as [n r].
      destruct (file a) as [[[size is_dict] | e] |]; cbn [fst length];
        rewrite ?(decide_True (P := true = true)) by reflexivity;
        rewrite ?(decide_False (P := false = true)) by discriminate;
        cbn [length]; lia.
    + unfold check_knowledge_file, exists_on_disk. destruct st as [n r].
      fold (framework_name a).
      destruct (file a) as [[[size is_dict] | e] |]; cbn [snd frameworks_covered];
        rewrite ?(decide_True (P := true = true)) by reflexivity;
        rewrite ?(decide_False (P := false = true)) by discriminate;
        rewrite ?fmap_cons, <- ?app_assoc; reflexivity.
    + intros f [-> | Hf]%elem_of_cons.
      * rewrite Ho by exact Ha. rewrite Hstep. by rewrite decide_True.
      * rewrite Hq by exact Hf. rewrite Hstep.
        rewrite decide_False; [reflexivity |].
        intros E. apply Ha. rewrite <- E. apply list_elem_of_fmap. eauto.
    + intros name Hname. rewrite fmap_cons in Hname.
      apply not_elem_of_cons in Hname as [Hne Hname].
      rewrite Ho by exact Hname. rewrite Hstep. by rewrite decide_False.
Qed.

Lemma NoDup_framework_names : NoDup (framework_name <$> expected_knowledge_files).
Proof.
  vm_compute.
  repeat (constructor;
          [by (intros H;
               repeat (apply elem_of_cons in H as [H | H]; [discriminate H |]);
               apply elem_of_nil in H) |]).
  constructor.
Qed.

(** What the loop leaves behind, read off [knowledge_fold]. *)
Lemma knowledge_run (file : string -> KnowledgeFile) :
  let r := validate_framework_knowledge file in
  let present :=
    filter (fun f => exists_on_disk file f = true) expected_knowledge_files in
  knowledge_files r = Z.of_nat (length present)
  /\ frameworks_covered r = framework_name <$> present
  /\ completeness_score r = (inject_Z (knowledge_files r) / 6)%Q
  /\ (forall f, f ∈ expected_knowledge_files ->
        content_quality r !! framework_name f = quality_of file f)
  /\ (forall name, name ∉ (framework_name <$> expected_knowledge_files) ->
        content_quality r !! name = None).
Proof.
  cbv zeta. unfold validate_framework_knowledge.
  pose proof (knowledge_fold file expected_knowledge_files NoDup_framework_names
                (0, {| knowledge_files := 0; frameworks_covered := [];
                       completeness_score := 0; content_quality := ∅ |})) as H.
  cbv zeta in H. destruct (fold_left _ _ _) as [n r].
  cbn [fst snd frameworks_covered content_quality app] in H.
  destruct H as (Hn & Hc & Hq & Ho).
  cbn [knowledge_files frameworks_covered completeness_score content_quality].
  split; [lia |]. split; [exact Hc |]. split; [reflexivity |]. split.
  - intros f Hf. rewrite Hq by exact Hf. rewrite lookup_empty.
    by destruct (quality_of file f).
  - intros name Hname. by rewrite Ho, lookup_empty.
Qed.

Lemma filter_all {A} (P : A -> Prop) `{forall x, Decision (P x)} (l : list A) :
  length (filter P l) = length l -> filter P l = l.
Proof.
  induction l as [| a l IH]; [reflexivity |].
  rewrite filter_cons. destruct (decide (P a)); cbn [length]; intros E.
  - f_equal. apply IH. lia.
  - pose proof (filter_length_le P l). lia.
Qed.

Lemma knowledge_files_bounds (file : string -> KnowledgeFile) :
  0 <= knowledge_files (validate_framework_knowledge file) <= 6.
Proof.
  destruct (knowledge_run file) as (Hn & _). rewrite Hn.
  pose proof (filter_length_le (fun f => exists_on_disk file f = true)
                expected_knowledge_files) as Hle.
  change (length expected_knowledge_files) with 6%nat in Hle. lia.
Qed.

Lemma completeness_score_unit (file : string -> KnowledgeFile) :
  unit_interval (completeness_score (validate_framework_knowledge file)).
Proof.
  destruct (knowledge_run file) as (_ & _ & -> & _).
  destruct (knowledge_files_bounds file) as [H0 H6].
  rewrite Zle_Qle in H0, H6.
  change (inject_Z 0) with 0%Q in H0. change (inject_Z 6) with 6%Q in H6.
  revert H0 H6. generalize (inject_Z (knowledge_files (validate_framework_knowledge file))).
  intros q ? ?. split; lra_div.
Qed.

(** X26: the knowledge check lists the six expected files that exist, in
    order, under their names without ".json", and counts them;
    completeness_score is that count out of six, so it lies between 0 and 1
    and is 1 exactly when all six exist.  A file that exists but cannot be
    read as JSON is still counted and covered; it only has no entry in
    content_quality, whose entries are those of the readable files. *)
Theorem knowledge_inventory (file : string -> KnowledgeFile) :
  let r := validate_framework_knowledge file in
  let present :=
    filter (fun f => exists_on_disk file f = true) expected_knowledge_files in
  frameworks_covered r = framework_name <$> present
  /\ knowledge_files r = Z.of_nat (length present)
  /\ (completeness_score r == inject_Z (knowledge_files r) / 6)%Q
  /\ unit_interval (completeness_score r)
  /\ ((completeness_score r == 1)%Q <-> present = expected_knowledge_files)
  /\ (forall f, f ∈ expected_knowledge_files ->
        content_quality r !! framework_name f = quality_of file f)
  /\ (forall name, is_Some (content_quality r !! name) -> name ∈ frameworks_covered r).
Proof.
  cbv zeta. destruct (knowledge_run file) as (Hn & Hc & Hs & Hq & Ho).
  pose proof (completeness_score_unit file) as Hunit.
  set (r := validate_framework_knowledge file) in *.
  set (present := filter _ expected_knowledge_files) in *.
  split; [exact Hc |]. split; [exact Hn |]. split; [by rewrite Hs |].
  split; [exact Hunit |]. split; [| split].
  - rewrite Hs, Hn. split.
    + intros E. apply filter_all. change (length expected_knowledge_files) with 6%nat.
      change (length present = 6%nat).
      revert E. unfold Qdiv. change (/ 6)%Q with (1 # 6)%Q.
      unfold Qeq. cbn. lia.
    + intros E. rewrite E. reflexivity.
  - exact Hq.
  - intros name Hsome. rewrite Hc.
    destruct (decide (name ∈ framework_name <$> expected_knowledge_files))
      as [Hin | Hout].
    + apply list_elem_of_fmap in Hin as (f & -> & Hf).
      apply list_elem_of_fmap. exists f. split; [reflexivity |].
      apply list_elem_of_filter. split; [| exact Hf].
      rewrite Hq in Hsome by exact Hf.
      unfold quality_of in Hsome. unfold exists_on_disk.
      destruct (file f); [reflexivity |]. by destruct Hsome.
    + rewrite Ho in Hsome by exact Hout. by destruct Hsome.
Qed.

(** *** The scores of the report *)

Lemma Qltb_false x y : Qltb x y = false <-> (y <= x)%Q.
Proof. unfold Qltb. rewrite negb_false_iff. apply Qle_bool_iff. Qed.

Lemma recommendations_nonempty (scores : Scores) (overall_score : Q) :
  (Qltb (data_download scores) 0.8 = false ->
   Qltb (feature_extraction scores) 0.8 = false ->
   Qltb (research_alignment scores) 0.7 = false ->
   Qltb (labeling_quality scores) 0.8 = false ->
   Qltb (framework_knowledge scores) 0.8 = false ->
   Qgeb overall_score 0.8 = true) ->
  _generate_recommendations scores overall_score <> [].
Proof.
  unfold _generate_recommendations. intros H.
  destruct (Qltb (data_download scores) 0.8), (Qltb (feature_extraction scores) 0.8),
    (Qltb (research_alignment scores) 0.7), (Qltb (labeling_quality scores) 0.8),
    (Qltb (framework_knowledge scores) 0.8);
    try (rewrite H by reflexivity); try destruct (Qgeb overall_score 0.8);
    cbn [app]; discriminate.
Qed.

Lemma counter_score_unit (n : nat) :
  unit_interval (Py.min (inject_Z (Z.of_nat n) / 5) 1).
Proof.
  split; [| apply min_le_r].
  apply min_nonneg; [| discriminate].
  assert (H : (0 <= inject_Z (Z.of_nat n))%Q)
    by (change (inject_Z 0 <= inject_Z (Z.of_nat n))%Q; rewrite <- Zle_Qle; lia).
  revert H. generalize (inject_Z (Z.of_nat n)). intros q H. lra_div.
Qed.

Lemma download_score_values (download : DownloadResults) n benchmark m knowledge :
  let s := data_download (component_scores download n benchmark m knowledge) in
  (s = 1%Q /\ download_complete download = true /\ size_issues download = [])
  \/ (s = 0.5%Q /\ download_complete download = true /\ size_issues download <> [])
  \/ (s = 0%Q /\ download_complete download = false).
Proof.
  cbv zeta. cbn [component_scores data_download].
  destruct (download_complete download), (size_issues download); cbn [andb]; auto.
Qed.

(** X27: in a report the five component scores and their mean, the
    overall score, lie between 0 and 1.  The download score is 1 exactly
    when no expected file is missing and none has a size issue, and 0
    exactly when a file is missing.  The list of recommendations is never
    empty: when no component falls below its threshold the download and
    research scores are 1 and the others at least 0.8, so the overall score
    reaches 0.8 and the closing recommendation is added. *)
Theorem report_scores_and_recommendations (stat : string -> option Z)
    (feature_files_found : nat) (domestic international : FeatureMean)
    (benchmark : BenchmarkResults) (labeled_files : nat)
    (file : string -> KnowledgeFile) :
  validate_against_research_benchmarks domestic international = Ok benchmark ->
  let download := validate_data_download stat in
  let report :=
    score_report download feature_files_found benchmark
      labeled_files (validate_framework_knowledge file) in
  let scores := report_component_scores report in
  unit_interval (data_download scores)
  /\ unit_interval (feature_extraction scores)
  /\ unit_interval (research_alignment scores)
  /\ unit_interval (labeling_quality scores)
  /\ unit_interval (framework_knowledge scores)
  /\ unit_interval (report_overall_score report)
  /\ ((data_download scores == 1)%Q
      <-> missing_files download = [] /\ size_issues download = [])
  /\ ((data_download scores == 0)%Q <-> missing_files download <> [])
  /\ report_recommendations report <> [].
Proof.
  intros Hb. cbv zeta. unfold score_report.
  cbn [report_component_scores report_overall_score report_recommendations].
  pose proof (download_score_values (validate_data_download stat) feature_files_found
                benchmark labeled_files (validate_framework_knowledge file)) as Hd.
  pose proof (download_complete_missing stat) as Hcm.
  pose proof (counter_score_unit feature_files_found) as Hf.
  pose proof (accuracy_values _ _ _ Hb) as Hr.
  pose proof (counter_score_unit labeled_files) as Hl.
  pose proof (completeness_score_unit file) as Hk.
  cbv zeta in Hd.
  set (download := validate_data_download stat) in *.
  set (scores := component_scores _ _ _ _ _) in *.
  assert (Hdd : data_download scores = 1%Q \/ data_download scores = 0.5%Q
                \/ data_download scores = 0%Q) by tauto.
  assert (Hone : (data_download scores == 1)%Q
                 <-> missing_files download = [] /\ size_issues download = []).
  { destruct Hd as [(E & Hc & Hs) | [(E & Hc & Hs) | (E & Hc)]]; rewrite E.
    - split; [intros _; split; [by apply Hcm | exact Hs] | reflexivity].
    - split; [intros H; by vm_compute in H | intros [_ H]; by destruct Hs].
    - split; [intros H; by vm_compute in H |].
      intros [H _]. apply Hcm in H. congruence. }
  assert (Hzero : (data_download scores == 0)%Q <-> missing_files download <> []).
  { destruct Hd as [(E & Hc & Hs) | [(E & Hc & Hs) | (E & Hc)]]; rewrite E.
    - split; [intros H; by vm_compute in H | intros H; destruct H; by apply Hcm].
    - split; [intros H; by vm_compute in H | intros H; destruct H; by apply Hcm].
    - split; [| reflexivity]. intros _ H. apply Hcm in H. congruence. }
  clear Hd Hb Hcm.
  assert (Hmean : forall c : Q,
            (c <= data_download scores -> c <= feature_extraction scores ->
             c <= research_alignment scores -> c <= labeling_quality scores ->
             c <= framework_knowledge scores -> c <= mean_score scores)%Q).
  { intros c. unfold mean_score. generalize (data_download scores),
      (feature_extraction scores), (research_alignment scores),
      (labeling_quality scores), (framework_knowledge scores).
    intros. lra_div. }
  unfold unit_interval in *.
  change (overall_accuracy benchmark) with (research_alignment scores) in Hr.
  change (Py.min (inject_Z (Z.of_nat feature_files_found) / 5) 1)
    with (feature_extraction scores) in Hf.
  change (Py.min (inject_Z (Z.of_nat labeled_files) / 5) 1)
    with (labeling_quality scores) in Hl.
  change (completeness_score (validate_framework_knowledge file))
    with (framework_knowledge scores) in Hk.
  assert (Hd : (0 <= data_download scores <= 1)%Q)
    by (destruct Hdd as [-> | [-> | ->]]; split; discriminate).
  assert (Hra : (0 <= research_alignment scores <= 1)%Q)
    by (destruct Hr as [-> | [-> | ->]]; split; discriminate).
  split; [tauto |]. split; [tauto |]. split; [tauto |]. split; [tauto |].
  split; [tauto |]. split; [| split; [exact Hone |]; split; [exact Hzero |]].
  - split; [apply (Hmean 0%Q); tauto |].
    unfold mean_score. revert Hd Hf Hra Hl Hk.
    generalize (data_download scores), (feature_extraction scores),
      (research_alignment scores), (labeling_quality scores),
      (framework_knowledge scores).
    intros. lra_div.
  - apply recommendations_nonempty. rewrite !Qltb_false, Qgeb_true.
    intros H1 H2 H3 H4 H5.
    assert (E1 : (data_download scores == 1)%Q).
    { destruct Hdd as [E | [E | E]]; rewrite E in H1 |- *;
        [reflexivity | by exfalso | by exfalso]. }
    assert (E3 : (research_alignment scores == 1)%Q).
    { destruct Hr as [E | [E | E]]; rewrite E in H3 |- *;
        [by exfalso | by exfalso | reflexivity]. }
    unfold mean_score. revert E1 H2 E3 H4 H5.
    generalize (data_download scores), (feature_extraction scores),
      (research_alignment scores), (labeling_quality scores),
      (framework_knowledge scores).
    intros. lra_div.
Qed.

Lemma report_scores_and_recommendations_witness :
  report_recommendations
    (score_report (validate_data_download sample_stat) 5 sample_benchmark 5
       (validate_framework_knowledge sample_knowledge)) <> [].
Proof.
  apply (report_scores_and_recommendations sample_stat 5 sample_domestic None
           sample_benchmark 5 sample_knowledge).
  vm_compute. reflexivity.
Defined.

End DataValidationExtra.
